(** * BountyPing: the ingestion pipeline

    A shallow embedding of the catalogue store ([db/database.py]), the record
    model ([db/models.py]), the scraper base class and its two adapters
    ([scrapers/base.py], [scrapers/hackerone.py], [scrapers/projectdiscovery.py]),
    the scheduler ([scheduler.py]) and the search command ([cli.py]), with the
    properties of the ingestion pipeline that the specification states about
    them and further properties of the code. *)

From Stdlib Require Import ZArith Lia List Ascii String DecimalString.
From stdpp Require Import base gmap strings list sorting.

#[local] Open Scope string_scope.

(** ** Python strings

    A Python [str] is modelled by the [string] of its UTF-8 bytes.  Every
    pattern the code searches for is ASCII, so searching, splitting, stripping
    and the regular expression [[^a-z0-9]+] act on the bytes as they act on the
    code points. *)
Module PyStr.

Definition code (c : ascii) : nat := nat_of_ascii c.

Definition between (lo hi : nat) (c : ascii) : bool :=
  (lo <=? code c)%nat && (code c <=? hi)%nat.

(** The character class [[a-z0-9]]. *)
Definition is_lower_alnum (c : ascii) : bool :=
  between 97 122 c || between 48 57 c.

(** ASCII letters and digits, [[A-Za-z0-9]]. *)
Definition is_ascii_alnum (c : ascii) : bool :=
  between 65 90 c || is_lower_alnum c.

Definition lower_ascii (c : ascii) : ascii :=
  if between 65 90 c then ascii_of_nat (code c + 32) else c.

Fixpoint existsb_str (f : ascii -> bool) (s : string) : bool :=
  match s with
  | EmptyString => false
  | String c r => f c || existsb_str f r
  end.

(** U+212A KELVIN SIGN and U+0130 LATIN CAPITAL LETTER I WITH DOT ABOVE,
    as UTF-8. *)
Definition kelvin_sign : string := String "226" (String "132" (String "170" "")).
Definition capital_i_dot : string := String "196" (String "176" "").
Definition combining_dot : string := String "204" (String "135" "").

(** [s.lower()].  [skip] counts the continuation bytes of a character that
    has already been translated.  ASCII capitals are lowered; of the
    characters outside ASCII, the two whose lower-case form contains an ASCII
    letter are translated (U+212A to [k], U+0130 to [i] followed by U+0307).
    CPython lowers further non-ASCII letters to non-ASCII letters; they are
    carried over unchanged here, and nothing below looks inside them. *)
Fixpoint lower_from (skip : nat) (s : string) : string :=
  match s with
  | EmptyString => EmptyString
  | String c r =>
      match skip with
      | S k => lower_from k r
      | O =>
          if String.prefix kelvin_sign s then String "k" (lower_from 2 r)
          else if String.prefix capital_i_dot s
               then String "i" (combining_dot +:+ lower_from 1 r)
               else String (lower_ascii c) (lower_from 0 r)
      end
  end.

Definition lower (s : string) : string := lower_from 0 s.

(** [needle in hay]. *)
Fixpoint contains (needle hay : string) : bool :=
  String.prefix needle hay
  || match hay with
     | EmptyString => false
     | String _ r => contains needle r
     end.

(** [s.startswith(p)]. *)
Definition startswith (p s : string) : bool := String.prefix p s.

Fixpoint lstrip (c : ascii) (s : string) : string :=
  match s with
  | EmptyString => EmptyString
  | String a r => if Ascii.eqb a c then lstrip c r else s
  end.

Fixpoint rstrip (c : ascii) (s : string) : string :=
  match s with
  | EmptyString => EmptyString
  | String a r =>
      match rstrip c r with
      | EmptyString => if Ascii.eqb a c then EmptyString else String a EmptyString
      | r' => String a r'
      end
  end.

(** [s.strip(c)] for a one-character argument. *)
Definition strip (c : ascii) (s : string) : string := rstrip c (lstrip c s).

(** [s.split(c)]: never empty, [""] splits into [[""]]. *)
Fixpoint split (c : ascii) (s : string) : list string :=
  match s with
  | EmptyString => [EmptyString]
  | String a r =>
      if Ascii.eqb a c then EmptyString :: split c r
      else match split c r with
           | h :: t => String a h :: t
           | [] => [String a EmptyString]
           end
  end.

(** [s.replace(a, b)] for one-character arguments. *)
Fixpoint replace_char (a b : ascii) (s : string) : string :=
  match s with
  | EmptyString => EmptyString
  | String c r => String (if Ascii.eqb c a then b else c) (replace_char a b r)
  end.

(** [re.sub(r'[^a-z0-9]+', '-', s)]: every maximal run of characters outside
    [[a-z0-9]] becomes one hyphen.  [in_run] tells that the hyphen of the
    current run has been written. *)
Fixpoint sub_runs (in_run : bool) (s : string) : string :=
  match s with
  | EmptyString => EmptyString
  | String a r =>
      if is_lower_alnum a then String a (sub_runs false r)
      else if in_run then sub_runs true r
           else String "-" (sub_runs true r)
  end.

Definition re_sub_non_alnum (s : string) : string := sub_runs false s.

(** Python truth value of a [str]. *)
Definition truthy (s : string) : bool :=
  match s with EmptyString => false | _ => true end.

End PyStr.

(** ** [json.dumps] of a list of strings

    The default encoder ([ensure_ascii=True]): items are quoted and joined by
    a comma and a space; inside an item the quote and the backslash are
    escaped, the control characters with a short form use it, printable ASCII
    is kept and every other code point is written [\uXXXX] (a surrogate pair
    above U+FFFF). *)
Module Json.

Definition hex_digit (n : N) : ascii :=
  ascii_of_N (if (n <? 10)%N then 48 + n else 87 + n)%N.

Definition hex4 (n : N) : string :=
  String (hex_digit (N.shiftr n 12 mod 16))
    (String (hex_digit (N.shiftr n 8 mod 16))
       (String (hex_digit (N.shiftr n 4 mod 16))
          (String (hex_digit (n mod 16)) ""))).

Definition u_escape (n : N) : string := "\u" +:+ hex4 n.

Definition escape_code_point (cp : N) : string :=
  if (cp =? 34)%N then String "\" (String "034" "")
  else if (cp =? 92)%N then "\\"
  else if (cp =? 10)%N then "\n"
  else if (cp =? 13)%N then "\r"
  else if (cp =? 9)%N then "\t"
  else if (cp =? 8)%N then "\b"
  else if (cp =? 12)%N then "\f"
  else if (32 <=? cp)%N && (cp <=? 126)%N then String (ascii_of_N cp) ""
  else if (cp <? 65536)%N then u_escape cp
  else let v := (cp - 65536)%N in
       u_escape (N.lor 55296 (N.land (N.shiftr v 10) 1023))
       +:+ u_escape (N.lor 56320 (N.land v 1023)).

Definition byte_at (i : nat) (s : string) : N :=
  match String.get i s with
  | Some c => N_of_ascii c
  | None => 0%N
  end.

Definition cont (i : nat) (s : string) : N := N.land (byte_at i s) 63.

(** The code points of a UTF-8 text; [skip] counts the continuation bytes
    still to pass over. *)
Fixpoint code_points (skip : nat) (s : string) : list N :=
  match s with
  | EmptyString => []
  | String c r =>
      match skip with
      | S k => code_points k r
      | O =>
          let b := N_of_ascii c in
          if (b <? 128)%N then b :: code_points 0 r
          else if (b <? 224)%N then
            N.lor (N.shiftl (N.land b 31) 6) (cont 0 r) :: code_points 1 r
          else if (b <? 240)%N then
            N.lor (N.shiftl (N.land b 15) 12)
              (N.lor (N.shiftl (cont 0 r) 6) (cont 1 r)) :: code_points 2 r
          else
            N.lor (N.shiftl (N.land b 7) 18)
              (N.lor (N.shiftl (cont 0 r) 12)
                 (N.lor (N.shiftl (cont 1 r) 6) (cont 2 r))) :: code_points 3 r
      end
  end.

Definition dquote : string := String "034" "".

Definition dumps_str (s : string) : string :=
  dquote +:+ String.concat "" (map escape_code_point (code_points 0 s)) +:+ dquote.

(** [json.dumps(l)] for [l : list[str]]. *)
Definition dumps (l : list string) : string :=
  "[" +:+ String.concat ", " (map dumps_str l) +:+ "]".

End Json.

(** ** Exceptions and stateful computations

    A Python computation over a mutable state [S] either returns a value or
    raises; the state reached is kept in both cases (nothing is rolled back
    when an exception unwinds). *)
Record exn := Exception { exc_class : string; exc_message : string }.

(** [str(e)]. *)
Definition str_of_exn (e : exn) : string := exc_message e.

Inductive Result (A : Type) : Type :=
| Ok (a : A)
| Raise (e : exn).
Arguments Ok {A} a.
Arguments Raise {A} e.

Definition M (S A : Type) : Type := S -> Result A * S.

#[export] Instance M_ret {S} : MRet (M S) := fun A a s => (Ok a, s).

#[export] Instance M_bind {S} : MBind (M S) := fun A B k m s =>
  match m s with
  | (Ok a, s') => k a s'
  | (Raise e, s') => (Raise e, s')
  end.

Definition raise {S A} (e : exn) : M S A := fun s => (Raise e, s).

Definition get_state {S} : M S S := fun s => (Ok s, s).

Definition modify {S} (f : S -> S) : M S unit := fun s => (Ok tt, f s).

(** [try: body  except Exception as e: handler(e)]. *)
Definition try_except {S A} (body : M S A) (handler : exn -> M S A) : M S A :=
  fun s =>
    match body s with
    | (Ok a, s') => (Ok a, s')
    | (Raise e, s') => handler e s'
    end.

(** ** The record model ([db/models.py]) *)

(** A naive UTC [datetime], in microseconds. *)
Definition datetime : Type := Z.

(** The text [d.isoformat()], which determines [d]. *)
Inductive isotext : Type := Iso (d : datetime).

Definition iso_datetime (t : isotext) : datetime := match t with Iso d => d end.

(** The source payload kept in [raw_data]: a [dict] of which the store only
    takes the truth value and the [json.dumps] text. *)
Record payload := { payload_truthy : bool; payload_json : string }.

Module Program.
Record t := mk {
  id : string;
  platform : string;
  name : string;
  slug : string;
  url : string;
  bounty_min : option Z;
  bounty_max : option Z;
  currency : string;
  assets : list string;
  asset_types : list string;
  managed : bool;
  vdp_only : bool;
  accepts_submissions : bool;
  offers_bounties : bool;
  first_seen : option datetime;
  last_updated : option datetime;
  last_scraped : option datetime;
  raw_data : option payload
}.

Definition with_id (v : string) (p : t) : t :=
  mk v (platform p) (name p) (slug p) (url p) (bounty_min p) (bounty_max p)
     (currency p) (assets p) (asset_types p) (managed p) (vdp_only p)
     (accepts_submissions p) (offers_bounties p)
     (first_seen p) (last_updated p) (last_scraped p) (raw_data p).

Definition with_seen (fs lu ls : option datetime) (p : t) : t :=
  mk (id p) (platform p) (name p) (slug p) (url p) (bounty_min p) (bounty_max p)
     (currency p) (assets p) (asset_types p) (managed p) (vdp_only p)
     (accepts_submissions p) (offers_bounties p) fs lu ls (raw_data p).

Section PostInit.
(** [hashlib.md5(b).hexdigest()] of the bytes [b]. *)
Variable md5_hexdigest : string -> string.

(** [__post_init__]: an empty [id] is replaced by the first 16 hex digits of
    the MD5 of [f"{platform}:{slug}".lower()]. *)
Definition post_init (p : t) : t :=
  if PyStr.truthy (id p) then p
  else
    let key := PyStr.lower (platform p +:+ ":" +:+ slug p) in
    with_id (String.substring 0 16 (md5_hexdigest key)) p.
End PostInit.
End Program.

Module ScrapeLog.
Record t := mk {
  id : option Z;
  platform : string;
  started_at : option datetime;
  completed_at : option datetime;
  programs_found : nat;
  programs_new : nat;
  programs_updated : nat;
  success : bool;
  error_message : option string
}.

(** [ScrapeLog(platform=..., started_at=...)]: the other fields take the
    defaults of the dataclass. *)
Definition started (pf : string) (at_ : datetime) : t :=
  mk None pf (Some at_) None 0 0 0 true None.

Definition set_found (n : nat) (l : t) : t :=
  mk (id l) (platform l) (started_at l) (completed_at l) n (programs_new l)
     (programs_updated l) (success l) (error_message l).

Definition set_counts (new updated : nat) (l : t) : t :=
  mk (id l) (platform l) (started_at l) (completed_at l) (programs_found l) new
     updated (success l) (error_message l).

Definition set_success (b : bool) (l : t) : t :=
  mk (id l) (platform l) (started_at l) (completed_at l) (programs_found l)
     (programs_new l) (programs_updated l) b (error_message l).

Definition set_error_message (m : option string) (l : t) : t :=
  mk (id l) (platform l) (started_at l) (completed_at l) (programs_found l)
     (programs_new l) (programs_updated l) (success l) m.

Definition set_completed_at (d : datetime) (l : t) : t :=
  mk (id l) (platform l) (started_at l) (Some d) (programs_found l)
     (programs_new l) (programs_updated l) (success l) (error_message l).
End ScrapeLog.

(** ** The catalogue store ([db/database.py])

    The two tables of the SQLite file, and the clock that [datetime.utcnow()]
    reads: [utc_clock w n] is what the [n]-th reading returns, [utc_reads w]
    counts the readings made so far. *)
Module ProgramRow.
Record t := mk {
  id : string;
  platform : string;
  name : string;
  slug : string;
  url : string;
  bounty_min : option Z;
  bounty_max : option Z;
  currency : string;
  assets : string;
  asset_types : string;
  managed : Z;
  vdp_only : Z;
  accepts_submissions : Z;
  offers_bounties : Z;
  first_seen : option isotext;
  last_updated : option isotext;
  last_scraped : option isotext;
  raw_data : option string
}.
End ProgramRow.

Module ScrapeLogRow.
Record t := mk {
  platform : string;
  started_at : option isotext;
  completed_at : option isotext;
  programs_found : Z;
  programs_new : Z;
  programs_updated : Z;
  success : Z;
  error_message : option string
}.
End ScrapeLogRow.

Record World := mkWorld {
  programs : gmap string ProgramRow.t;
  scrape_logs : list ScrapeLogRow.t;
  utc_clock : nat -> datetime;
  utc_reads : nat
}.

Definition set_programs (f : gmap string ProgramRow.t -> gmap string ProgramRow.t)
    (w : World) : World :=
  mkWorld (f (programs w)) (scrape_logs w) (utc_clock w) (utc_reads w).

Definition set_scrape_logs (f : list ScrapeLogRow.t -> list ScrapeLogRow.t)
    (w : World) : World :=
  mkWorld (programs w) (f (scrape_logs w)) (utc_clock w) (utc_reads w).

(** [datetime.utcnow()]. *)
Definition utcnow : M World datetime := fun w =>
  (Ok (utc_clock w (utc_reads w)),
   mkWorld (programs w) (scrape_logs w) (utc_clock w) (S (utc_reads w))).

(** The values a [dict] of [upsert_program] holds: [None], an [int], a [str]. *)
Inductive pyval : Type :=
| PyNone
| PyInt (z : Z)
| PyStr (s : string).

#[export] Instance pyval_eq_dec : EqDecision pyval.
Proof. solve_decision. Defined.

Definition py_opt_int (v : option Z) : pyval :=
  match v with Some z => PyInt z | None => PyNone end.

Module BountyDatabase.

(** An [int] binds to an SQLite INTEGER when it fits in 64 signed bits; the
    [sqlite3] module raises [OverflowError] otherwise. *)
Definition fits_sqlite_integer (v : option Z) : bool :=
  match v with
  | None => true
  | Some z => (- 2 ^ 63 <=? z)%Z && (z <? 2 ^ 63)%Z
  end.

Definition overflow_error : exn :=
  Exception "OverflowError" "Python int too large to convert to SQLite INTEGER".

Definition integrity_error (columns : string) : exn :=
  Exception "IntegrityError" ("UNIQUE constraint failed: " +:+ columns).

(** [int(b)]. *)
Definition int_of_bool (b : bool) : Z := if b then 1%Z else 0%Z.

(** [json.dumps(program.raw_data) if program.raw_data else None]. *)
Definition dumps_raw_data (r : option payload) : option string :=
  match r with
  | Some d => if payload_truthy d then Some (payload_json d) else None
  | None => None
  end.

(** [SELECT * FROM programs WHERE id = ?] followed by [fetchone()]. *)
Definition select_program (pid : string) : M World (option ProgramRow.t) :=
  w ← get_state;
  mret (programs w !! pid).

(** Some row of the table holds this [(platform, slug)]. *)
Definition platform_slug_taken (pf sl : string) (tbl : gmap string ProgramRow.t) : Prop :=
  map_Exists (fun _ r => ProgramRow.platform r = pf /\ ProgramRow.slug r = sl) tbl.

(** [INSERT INTO programs (...) VALUES (...)] and the commit: the integers are
    bound first, then the row is checked against [PRIMARY KEY (id)] and
    [UNIQUE (platform, slug)]. *)
Definition execute_insert (row : ProgramRow.t) : M World unit :=
  w ← get_state;
  if negb (fits_sqlite_integer (ProgramRow.bounty_min row)
           && fits_sqlite_integer (ProgramRow.bounty_max row))
  then raise overflow_error
  else if bool_decide (is_Some (programs w !! ProgramRow.id row))
  then raise (integrity_error "programs.id")
  else if bool_decide (platform_slug_taken (ProgramRow.platform row)
                         (ProgramRow.slug row) (programs w))
  then raise (integrity_error "programs.platform, programs.slug")
  else modify (set_programs (insert (ProgramRow.id row) row)).

(** [UPDATE programs SET ... WHERE id = ?] and the commit; [bounty_min] and
    [bounty_max] are the integers bound.  The columns [id], [platform], [slug]
    and [first_seen] are not in the SET list. *)
Definition execute_update (pid : string) (bmin bmax : option Z)
    (set : ProgramRow.t -> ProgramRow.t) : M World unit :=
  if negb (fits_sqlite_integer bmin && fits_sqlite_integer bmax)
  then raise overflow_error
  else modify (set_programs (alter set pid)).

(** The [dict]s [old_data] and [new_data]. *)
Definition old_data (existing : ProgramRow.t) : gmap string pyval :=
  <["bounty_min" := py_opt_int (ProgramRow.bounty_min existing)]>
  (<["bounty_max" := py_opt_int (ProgramRow.bounty_max existing)]>
  (<["assets" := PyStr (ProgramRow.assets existing)]>
  (<["url" := PyStr (ProgramRow.url existing)]> ∅))).

Definition new_data (program : Program.t) : gmap string pyval :=
  <["bounty_min" := py_opt_int (Program.bounty_min program)]>
  (<["bounty_max" := py_opt_int (Program.bounty_max program)]>
  (<["assets" := PyStr (Json.dumps (Program.assets program))]>
  (<["url" := PyStr (Program.url program)]> ∅))).

(** The row of the INSERT, from the program whose three timestamps have just
    been assigned; [now] is the fall-back of the three conditional
    expressions. *)
Definition inserted_row (now : isotext) (program : Program.t) : ProgramRow.t :=
  let stamp (d : option datetime) : isotext :=
    match d with Some t => Iso t | None => now end in
  ProgramRow.mk
    (Program.id program) (Program.platform program) (Program.name program)
    (Program.slug program) (Program.url program)
    (Program.bounty_min program) (Program.bounty_max program)
    (Program.currency program)
    (Json.dumps (Program.assets program))
    (Json.dumps (Program.asset_types program))
    (int_of_bool (Program.managed program))
    (int_of_bool (Program.vdp_only program))
    (int_of_bool (Program.accepts_submissions program))
    (int_of_bool (Program.offers_bounties program))
    (Some (stamp (Program.first_seen program)))
    (Some (stamp (Program.last_updated program)))
    (Some (stamp (Program.last_scraped program)))
    (dumps_raw_data (Program.raw_data program)).

(** The row after the UPDATE. *)
Definition updated_row (now : isotext) (is_updated : bool)
    (existing_last_updated : option isotext)
    (program : Program.t) (row : ProgramRow.t) : ProgramRow.t :=
  ProgramRow.mk
    (ProgramRow.id row) (ProgramRow.platform row) (Program.name program)
    (ProgramRow.slug row) (Program.url program)
    (Program.bounty_min program) (Program.bounty_max program)
    (Program.currency program)
    (Json.dumps (Program.assets program))
    (Json.dumps (Program.asset_types program))
    (int_of_bool (Program.managed program))
    (int_of_bool (Program.vdp_only program))
    (int_of_bool (Program.accepts_submissions program))
    (int_of_bool (Program.offers_bounties program))
    (ProgramRow.first_seen row)
    (if is_updated then Some now else existing_last_updated)
    (Some now)
    (dumps_raw_data (Program.raw_data program)).

(** [upsert_program]: returns [(is_new, is_updated)].  On the insert path the
    three timestamps are assigned to the program object, each from a reading
    of the clock of its own, before the row is written. *)
Definition upsert_program (program : Program.t) : M World (bool * bool) :=
  now ← utcnow;
  let now := Iso now in
  existing ← select_program (Program.id program);
  match existing with
  | None =>
      first_seen ← utcnow;
      last_updated ← utcnow;
      last_scraped ← utcnow;
      let program :=
        Program.with_seen (Some first_seen) (Some last_updated) (Some last_scraped)
          program in
      _ ← execute_insert (inserted_row now program);
      mret (true, false)
  | Some existing =>
      let is_updated := bool_decide (old_data existing ≠ new_data program) in
      _ ← execute_update (Program.id program)
            (Program.bounty_min program) (Program.bounty_max program)
            (updated_row now is_updated (ProgramRow.last_updated existing) program);
      mret (false, is_updated)
  end.

(** The row that [log_scrape] writes for a log. *)
Definition scrape_log_row (log : ScrapeLog.t) : ScrapeLogRow.t :=
  ScrapeLogRow.mk
    (ScrapeLog.platform log)
    (Iso <$> ScrapeLog.started_at log)
    (Iso <$> ScrapeLog.completed_at log)
    (Z.of_nat (ScrapeLog.programs_found log))
    (Z.of_nat (ScrapeLog.programs_new log))
    (Z.of_nat (ScrapeLog.programs_updated log))
    (int_of_bool (ScrapeLog.success log))
    (ScrapeLog.error_message log).

(** *** Connections left open

    Every method opens a connection of its own and closes it on its last
    line; [upsert_program] has no [finally], so that an exception of
    [execute] leaves [conn.commit()] and [conn.close()] unreached and the
    connection open.  [OverflowError] is raised while the parameters are
    bound, before the statement has run: the connection left open holds no
    lock.  An INSERT that fails on a constraint has begun to write: its
    transaction stays open, and the connection keeps the write lock of the
    file for as long as it lives. *)
Definition holds_write_lock (e : exn) : bool :=
  bool_decide (exc_class e = "IntegrityError").

(** What a statement that writes raises once it has waited [timeout] seconds
    for a write lock that another connection holds. *)
Definition database_locked : exn :=
  Exception "OperationalError" "database is locked".

(** [log_scrape]: appends one row to [scrape_logs].  [locked] tells that a
    connection left open by an earlier call holds the write lock; the INSERT
    of the new connection then raises and nothing is written. *)
Definition log_scrape (locked : bool) (log : ScrapeLog.t) : M World unit :=
  if locked then raise database_locked
  else modify (set_scrape_logs (fun rows => rows ++ [scrape_log_row log])%list).

(** *** The read side of the store *)

(** The dictionary that [get_stats] returns. *)
Module Stats.
Record t := mk {
  total_programs : nat;
  new_this_week : nat;
  paid_programs : nat;
  platforms : nat;
  by_platform : gmap string nat
}.
End Stats.

(** The filters of [get_all_programs], through the keys it reads; [None] is
    an absent key, and an absent flag is [false]. *)
Module Filters.
Record t := mk {
  platform : option string;
  min_bounty : option Z;
  asset_type : option string;
  search : option string;
  new_only : bool;
  bounties_only : bool;
  sort_by : option string
}.
End Filters.

(** A row of [programs] as [get_all_programs] returns it: the columns of the
    row, with the three JSON columns decoded. *)
Module ProgramDict.
Record t := mk {
  id : string;
  platform : string;
  name : string;
  slug : string;
  url : string;
  bounty_min : option Z;
  bounty_max : option Z;
  currency : string;
  assets : list string;
  asset_types : list string;
  managed : Z;
  vdp_only : Z;
  accepts_submissions : Z;
  offers_bounties : Z;
  first_seen : option isotext;
  last_updated : option isotext;
  last_scraped : option isotext;
  raw_data : option payload
}.
End ProgramDict.

(** A row of [scrape_logs] as [get_recent_logs] returns it: the number that
    AUTOINCREMENT gave the row, and its columns. *)
Module ScrapeLogDict.
Record t := mk { id : Z; columns : ScrapeLogRow.t }.
End ScrapeLogDict.

(** The condition [vdp_only = 0 AND offers_bounties = 1]. *)
Definition is_paid (r : ProgramRow.t) : bool :=
  (ProgramRow.vdp_only r =? 0)%Z && (ProgramRow.offers_bounties r =? 1)%Z.

(** The condition [datetime(first_seen) >= datetime('now', '-7 days')], which
    is not true of a NULL.  [recent t] is what the comparison gives for the
    text [t] at the time SQLite runs the statement. *)
Definition seen_recently (recent : isotext -> bool) (r : ProgramRow.t) : bool :=
  match ProgramRow.first_seen r with
  | Some t => recent t
  | None => false
  end.

(** The number of rows that satisfy a condition. *)
Definition count_where (cond : ProgramRow.t -> bool)
    (tbl : gmap string ProgramRow.t) : nat :=
  size (filter (fun kv : string * ProgramRow.t => cond kv.2 = true) tbl).

(** The platforms that occur in the table. *)
Definition platforms_of (tbl : gmap string ProgramRow.t) : gset string :=
  map_to_set (fun _ r => ProgramRow.platform r) tbl.

(** [get_stats]: five SELECT statements; the last one gives a row per
    platform, which the dictionary [by_platform] collects. *)
Definition get_stats (recent : isotext -> bool) : M World Stats.t :=
  w ← get_state;
  let tbl := programs w in
  mret (Stats.mk
          (size tbl)
          (count_where (seen_recently recent) tbl)
          (count_where is_paid tbl)
          (size (platforms_of tbl))
          (set_to_map
             (fun pf => (pf, count_where
                               (fun r => bool_decide (ProgramRow.platform r = pf)) tbl))
             (platforms_of tbl))).

(** NULL sorts below every value. *)
Definition null_le {A : Type} (le : relation A) : relation (option A) :=
  fun a b =>
    match a, b with
    | None, _ => True
    | Some _, None => False
    | Some x, Some y => le x y
    end.

#[export] Instance null_le_dec {A : Type} (le : relation A)
  `{!RelDecision le} : RelDecision (null_le le).
Proof. intros [x|] [y|]; simpl; apply _. Defined.

(** The order of two ISO texts, which is the order of their times. *)
Definition iso_le : relation isotext :=
  fun a b => (iso_datetime a <= iso_datetime b)%Z.

#[export] Instance iso_le_dec : RelDecision iso_le.
Proof. intros a b. unfold iso_le. apply _. Defined.

(** [ORDER BY first_seen DESC]. *)
Definition by_newest : relation ProgramRow.t :=
  fun r1 r2 => null_le iso_le (ProgramRow.first_seen r2) (ProgramRow.first_seen r1).

(** [ORDER BY bounty_max DESC NULLS LAST]. *)
Definition by_bounty : relation ProgramRow.t :=
  fun r1 r2 => null_le Z.le (ProgramRow.bounty_max r2) (ProgramRow.bounty_max r1).

(** [ORDER BY name ASC], the texts compared byte by byte. *)
Definition by_name : relation ProgramRow.t :=
  fun r1 r2 => String.le (ProgramRow.name r1) (ProgramRow.name r2).

#[export] Instance by_newest_dec : RelDecision by_newest.
Proof. intros r1 r2. unfold by_newest. apply _. Defined.

#[export] Instance by_bounty_dec : RelDecision by_bounty.
Proof. intros r1 r2. unfold by_bounty. apply _. Defined.

#[export] Instance by_name_dec : RelDecision by_name.
Proof. intros r1 r2. unfold by_name. apply _. Defined.

(** The ORDER BY clause that [sort_by] selects, on the rows in the order of
    the scan.  SQLite leaves open the order of the scan, and with it the
    order of the rows that the clause does not tell apart; the scan is taken
    in the order of the identities here. *)
Definition order_by (sort_by : string) (rows : list ProgramRow.t) : list ProgramRow.t :=
  if String.eqb sort_by "newest" then merge_sort by_newest rows
  else if String.eqb sort_by "bounty" then merge_sort by_bounty rows
  else if String.eqb sort_by "name" then merge_sort by_name rows
  else rows.

(** [filters.get(key)] as a condition: an empty text counts as absent. *)
Definition truthy_text (v : option string) : option string :=
  match v with
  | Some s => if PyStr.truthy s then Some s else None
  | None => None
  end.

(** The same for an [int]: zero counts as absent. *)
Definition truthy_int (v : option Z) : option Z :=
  match v with
  | Some z => if (z =? 0)%Z then None else Some z
  | None => None
  end.

Section Queries.
(** [text LIKE pattern] in SQLite. *)
Variable sql_like : string -> string -> bool.
(** [json.loads] on the text of [assets] and [asset_types], which holds a
    list of strings, and on the text of [raw_data]. *)
Variable json_loads_list : string -> Result (list string).
Variable json_loads_dict : string -> Result payload.

(** The WHERE clause that [get_all_programs] builds from the filters. *)
Definition where_clause (recent : isotext -> bool) (filters : Filters.t)
    (r : ProgramRow.t) : bool :=
  match truthy_text (Filters.platform filters) with
  | Some platform => bool_decide (ProgramRow.platform r = platform)
  | None => true
  end
  && match truthy_int (Filters.min_bounty filters) with
     | Some min_bounty =>
         match ProgramRow.bounty_max r with
         | Some bounty_max => (min_bounty <=? bounty_max)%Z
         | None => false
         end
     | None => true
     end
  && match truthy_text (Filters.asset_type filters) with
     | Some asset_type =>
         sql_like ("%" +:+ asset_type +:+ "%") (ProgramRow.asset_types r)
     | None => true
     end
  && match truthy_text (Filters.search filters) with
     | Some search =>
         sql_like ("%" +:+ search +:+ "%") (ProgramRow.name r)
         || sql_like ("%" +:+ search +:+ "%") (ProgramRow.slug r)
     | None => true
     end
  && (if Filters.new_only filters then seen_recently recent r else true)
  && (if Filters.bounties_only filters then is_paid r else true).

(** [dict(row)] with its three JSON columns decoded. *)
Definition program_dict (r : ProgramRow.t) : Result ProgramDict.t :=
  match json_loads_list (ProgramRow.assets r) with
  | Raise e => Raise e
  | Ok assets =>
  match json_loads_list (ProgramRow.asset_types r) with
  | Raise e => Raise e
  | Ok asset_types =>
  match
    match ProgramRow.raw_data r with
    | Some text =>
        if PyStr.truthy text then
          match json_loads_dict text with
          | Raise e => Raise e
          | Ok d => Ok (Some d)
          end
        else Ok None
    | None => Ok None
    end
  with
  | Raise e => Raise e
  | Ok raw_data =>
      Ok (ProgramDict.mk
            (ProgramRow.id r) (ProgramRow.platform r) (ProgramRow.name r)
            (ProgramRow.slug r) (ProgramRow.url r)
            (ProgramRow.bounty_min r) (ProgramRow.bounty_max r)
            (ProgramRow.currency r) assets asset_types
            (ProgramRow.managed r) (ProgramRow.vdp_only r)
            (ProgramRow.accepts_submissions r) (ProgramRow.offers_bounties r)
            (ProgramRow.first_seen r) (ProgramRow.last_updated r)
            (ProgramRow.last_scraped r) raw_data)
  end end end.

(** The [for row in rows] loop. *)
Fixpoint program_dicts (rows : list ProgramRow.t) (programs : list ProgramDict.t)
  : Result (list ProgramDict.t) :=
  match rows with
  | [] => Ok programs
  | row :: rest =>
      match program_dict row with
      | Raise e => Raise e
      | Ok d => program_dicts rest (programs ++ [d])%list
      end
  end.

(** The rows that the SELECT of [get_all_programs] returns. *)
Definition select_programs (recent : isotext -> bool) (filters : Filters.t)
    (tbl : gmap string ProgramRow.t) : list ProgramRow.t :=
  order_by (default "newest" (Filters.sort_by filters))
    (List.filter (where_clause recent filters) (map_to_list tbl).*2).

(** [get_all_programs]: the bound [min_bounty] must fit an SQLite
    INTEGER. *)
Definition get_all_programs (recent : isotext -> bool) (filters : Filters.t)
  : M World (list ProgramDict.t) :=
  w ← get_state;
  if negb (fits_sqlite_integer (truthy_int (Filters.min_bounty filters)))
  then raise overflow_error
  else fun w' => (program_dicts (select_programs recent filters (programs w)) [], w').
End Queries.

(** The rows of [scrape_logs] with the numbers that AUTOINCREMENT gave them,
    in the order of their insertion. *)
Definition numbered_logs (rows : list ScrapeLogRow.t) : list ScrapeLogDict.t :=
  imap (fun i row => ScrapeLogDict.mk (Z.of_nat (S i)) row) rows.

(** [ORDER BY started_at DESC]. *)
Definition by_started : relation ScrapeLogDict.t :=
  fun l1 l2 =>
    null_le iso_le
      (ScrapeLogRow.started_at (ScrapeLogDict.columns l2))
      (ScrapeLogRow.started_at (ScrapeLogDict.columns l1)).

#[export] Instance by_started_dec : RelDecision by_started.
Proof. intros l1 l2. unfold by_started. apply _. Defined.

(** [LIMIT ?]: a negative limit is no limit. *)
Definition sql_limit {A : Type} (limit : Z) (rows : list A) : list A :=
  if (limit <? 0)%Z then rows else take (Z.to_nat limit) rows.

(** [get_recent_logs]. *)
Definition get_recent_logs (limit : Z) : M World (list ScrapeLogDict.t) :=
  w ← get_state;
  if negb (fits_sqlite_integer (Some limit)) then raise overflow_error
  else mret (sql_limit limit
               (merge_sort by_started (numbered_logs (scrape_logs w)))).

End BountyDatabase.

(** ** The scraper base class ([scrapers/base.py])

    [Net] is what the adapter finds on the network during one call of
    [scrape_programs]; the call returns the programs or raises. *)
Class BaseScraper (Net : Type) := {
  get_platform_name : string;
  scrape_programs : Net -> Result (list Program.t)
}.

Module Engine.
Import BountyDatabase.

(** The local variable [log] of [run], whether a connection that a call of
    the [try] body left open holds the write lock, and the store. *)
Definition Frame : Type := (ScrapeLog.t * bool) * World.

Definition lift_world {A} (m : M World A) : M Frame A := fun f =>
  match m (snd f) with
  | (r, w') => (r, (fst f, w'))
  end.

(** The calls of [self.db.upsert_program]: when one raises, the connection it
    leaves open is remembered with the lock it holds. *)
Definition lift_upserts {A} (m : M World A) : M Frame A := fun f =>
  match m (snd f) with
  | (Ok a, w') => (Ok a, (fst f, w'))
  | (Raise e, w') => (Raise e, ((fst (fst f), holds_write_lock e), w'))
  end.

Definition lift_result {A} (r : Result A) : M Frame A := fun f => (r, f).

Definition modify_log (f : ScrapeLog.t -> ScrapeLog.t) : M Frame unit :=
  modify (fun fr => ((f (fst (fst fr)), snd (fst fr)), snd fr)).

(** Runs [m] with [log] as a fresh local variable and no connection left
    open, and returns the last value of [log] with the state of the lock. *)
Definition with_log (log : ScrapeLog.t) (m : M Frame unit)
  : M World (ScrapeLog.t * bool) :=
  fun w =>
    match m ((log, false), w) with
    | (Ok _, (frame, w')) => (Ok frame, w')
    | (Raise e, (_, w')) => (Raise e, w')
    end.

(** The [for program in programs] loop with its two counters. *)
Fixpoint upsert_each (programs : list Program.t) (new_count updated_count : nat)
  : M World (nat * nat) :=
  match programs with
  | [] => mret (new_count, updated_count)
  | program :: rest =>
      '(is_new, is_updated) ← upsert_program program;
      if is_new : bool then upsert_each rest (S new_count) updated_count
      else if is_updated : bool then upsert_each rest new_count (S updated_count)
      else upsert_each rest new_count updated_count
  end.

Section Run.
Context {Net : Type} `{BaseScraper Net}.

(** The body of the [try] statement. *)
Definition run_body (net : Net) : M Frame unit :=
  programs ← lift_result (scrape_programs net);
  _ ← modify_log (ScrapeLog.set_found (length programs));
  counts ← lift_upserts (upsert_each programs 0 0);
  _ ← modify_log (ScrapeLog.set_counts (fst counts) (snd counts));
  _ ← modify_log (ScrapeLog.set_success true);
  completed_at ← lift_world utcnow;
  modify_log (ScrapeLog.set_completed_at completed_at).

(** The [except Exception as e] clause. *)
Definition run_handler (e : exn) : M Frame unit :=
  _ ← modify_log (ScrapeLog.set_success false);
  _ ← modify_log (ScrapeLog.set_error_message (Some (str_of_exn e)));
  completed_at ← lift_world utcnow;
  modify_log (ScrapeLog.set_completed_at completed_at).

(** [BaseScraper.run].  The call of [log_scrape] follows the [try]
    statement: what it raises leaves [run]. *)
Definition run (net : Net) : M World ScrapeLog.t :=
  started_at ← utcnow;
  '(log, locked) ← with_log (ScrapeLog.started get_platform_name started_at)
                     (try_except (run_body net) run_handler);
  _ ← log_scrape locked log;
  mret log.
End Run.

End Engine.

(** ** The HackerOne adapter ([scrapers/hackerone.py]) *)
Module HackerOne.

(** A node of the directory, through the keys [_parse_program] reads; [None]
    is an absent key, and a present key holds a value of the type the parser
    uses it at.  [raw] is the node itself, as [raw_data] keeps it. *)
Record Node := mkNode {
  handle : option string;
  name : option string;
  offers_bounties : option bool;
  submission_state : option string;
  base_bounty : option Z;
  currency : option string;
  raw : payload
}.

(** One reply to the GraphQL query: whether it has an [errors] key, the edges
    of [data.teams] (an edge without a [node] key is [None]), and the page
    information. *)
Record Reply := mkReply {
  has_errors : bool;
  edges : list (option Node);
  has_next_page : bool;
  end_cursor : option string
}.

(** The replies of the server to the successive POST requests of one call,
    each as a function of the cursor sent ([None] when the request carries no
    cursor); a reply is the decoded JSON or the exception that the request,
    [raise_for_status] or [json()] raised.  A request after the last reply
    gets none within the time-out, which raises. *)
Definition Net : Type := list (option string -> Result Reply).

Section Adapter.
Variable md5_hexdigest : string -> string.

Definition _parse_program (node : Node) : Program.t :=
  let handle := default "" (handle node) in
  let name := default handle (name node) in
  let offers_bounties := default false (offers_bounties node) in
  let submission_state := default "" (submission_state node) in
  let vdp_only := negb offers_bounties in
  let base_bounty := base_bounty node in
  let bounty_min :=
    match base_bounty with
    | Some b => if negb (b =? 0)%Z && offers_bounties then Some b else None
    | None => None
    end in
  let bounty_max : option Z := None in
  let url := "https://hackerone.com/" +:+ handle in
  Program.post_init md5_hexdigest
    (Program.mk "" "hackerone" name handle url bounty_min bounty_max
       (default "USD" (currency node)) [] [] false vdp_only
       (String.eqb submission_state "open") offers_bounties
       None None None (Some (raw node))).

(** The [for edge in edges] loop: the programs gathered, and [false] when
    [edge['node']] raised [KeyError] on the way. *)
Fixpoint parse_edges (es : list (option Node)) (programs : list Program.t)
  : list Program.t * bool :=
  match es with
  | [] => (programs, true)
  | None :: _ => (programs, false)
  | Some node :: rest => parse_edges rest (programs ++ [_parse_program node])%list
  end.

(** [{"cursor": cursor} if cursor else {}]: the cursor that the request
    carries, if any. *)
Definition request_variables (cursor : option string) : option string :=
  match cursor with
  | Some c => if PyStr.truthy c then Some c else None
  | None => None
  end.

(** The [while True] loop of [scrape_programs]; every [break] and the
    [except] clause leave it with the programs gathered so far. *)
Fixpoint scrape_pages (net : Net) (cursor : option string)
    (programs : list Program.t) : list Program.t :=
  match net with
  | [] => programs
  | reply :: later =>
      let variables := request_variables cursor in
      match reply variables with
      | Raise _ => programs
      | Ok data =>
          if has_errors data then programs
          else match edges data with
               | [] => programs
               | es =>
                   match parse_edges es programs with
                   | (programs', false) => programs'
                   | (programs', true) =>
                       if negb (has_next_page data) then programs'
                       else scrape_pages later (end_cursor data) programs'
                   end
               end
      end
  end.

#[export] Instance HackerOneScraper : BaseScraper Net := {
  get_platform_name := "hackerone";
  scrape_programs net := Ok (scrape_pages net None [])
}.
End Adapter.

End HackerOne.

(** ** The ProjectDiscovery adapter ([scrapers/projectdiscovery.py]) *)
Module ProjectDiscovery.

(** An entry of the list, through the keys [_parse_program] reads; [None] is
    an absent key, and a present key holds a value of the type the parser
    uses it at. *)
Record Item := mkItem {
  name : option string;
  url : option string;
  bounty : option string;
  domains : option (list string);
  raw : payload
}.

(** The decoded file: the value of its [programs] key, when it has one. *)
Record Feed := mkFeed { feed_programs : option (list Item) }.

(** What [fetch_json(PROJECTDISCOVERY_JSON_URL)] returns or raises. *)
Definition Net : Type := Result Feed.

Record ParseResult := mkParseResult { netloc : string; path : string }.

Section Adapter.
Variable md5_hexdigest : string -> string.
(** [urllib.parse.urlparse], which raises [ValueError] on some inputs. *)
Variable urlparse : string -> Result ParseResult.
(** The amounts that [re.findall] extracts from the bounty text (a dollar
    sign followed by digits in groups separated by commas), each turned into
    an [int] once its commas are removed. *)
Variable dollar_amounts : string -> Result (list Z).

Definition _detect_platform (url : string) : Result string :=
  if negb (PyStr.truthy url) then Ok "unknown"
  else
    match urlparse url with
    | Raise e => Raise e
    | Ok parsed =>
        let domain := PyStr.lower (netloc parsed) in
        Ok (if PyStr.contains "hackerone.com" domain then "hackerone"
            else if PyStr.contains "bugcrowd.com" domain then "bugcrowd"
            else if PyStr.contains "intigriti.com" domain then "intigriti"
            else if PyStr.contains "yeswehack.com" domain then "yeswehack"
            else if PyStr.contains "immunefi.com" domain then "immunefi"
            else if PyStr.contains "code4rena.com" domain then "code4rena"
            else if PyStr.contains "huntr.dev" domain
                    || PyStr.contains "huntr.com" domain then "huntr"
            else if PyStr.contains "algora.io" domain then "algora"
            else "other")
    end.

Definition slugify (s : string) : string :=
  PyStr.strip "-" (PyStr.re_sub_non_alnum (PyStr.lower s)).

Definition _generate_slug (url name : string) : Result string :=
  if negb (PyStr.truthy url) then Ok (slugify name)
  else
    match urlparse url with
    | Raise e => Raise e
    | Ok parsed =>
        let parts := PyStr.split "/" (PyStr.strip "/" (path parsed)) in
        let slug :=
          match parts with
          | [] => PyStr.replace_char "." "-" (netloc parsed)
          | _ => List.last parts ""
          end in
        let slug := slugify slug in
        Ok (if PyStr.truthy slug then slug else "unknown")
    end.

Definition _detect_asset_types (domains : list string) : list string :=
  let types : gset string :=
    foldl (fun (types : gset string) domain =>
      let domain_lower := PyStr.lower domain in
      let types :=
        if PyStr.contains "api." domain_lower || PyStr.contains "/api" domain_lower
        then types ∪ {["api"]} else types in
      let types :=
        if existsb (fun x => PyStr.contains x domain_lower)
             ["android"; "ios"; "mobile"; "app"]
        then types ∪ {["mobile"]} else types in
      if PyStr.startswith "http" domain || PyStr.contains "." domain
      then types ∪ {["web"]} else types)
    ∅ (take 10 domains) in
  if decide (types = ∅) then ["web"] else elements types.

(** The classification of the bounty text: [(bounty_min, bounty_max, vdp_only)]. *)
Definition classify_bounty (bounty : string)
  : Result (option Z * option Z * bool) :=
  if PyStr.contains "yes" bounty || PyStr.contains "$" bounty then
    match dollar_amounts bounty with
    | Raise e => Raise e
    | Ok [] => Ok (None, None, false)
    | Ok [a] => Ok (None, Some a, false)
    | Ok (a :: amounts) =>
        Ok (Some (foldl Z.min a amounts), Some (foldl Z.max a amounts), false)
    end
  else if PyStr.contains "no" bounty || PyStr.contains "swag" bounty then
    Ok (None, None, true)
  else Ok (None, None, false).

Definition _parse_program (item : Item) : Result Program.t :=
  let url := default "" (url item) in
  match _detect_platform url with
  | Raise e => Raise e
  | Ok platform =>
  match _generate_slug url (default "" (name item)) with
  | Raise e => Raise e
  | Ok slug =>
  let bounty := PyStr.lower (default "" (bounty item)) in
  match classify_bounty bounty with
  | Raise e => Raise e
  | Ok (bounty_min, bounty_max, vdp_only) =>
  let domains := default [] (domains item) in
  Ok (Program.post_init md5_hexdigest
        (Program.mk "" platform (default slug (name item)) slug url
           bounty_min bounty_max "USD"
           (take 20 domains) (_detect_asset_types domains)
           false vdp_only true (negb vdp_only)
           None None None (Some (raw item))))
  end end end.

(** The [for item in programs_data] loop. *)
Fixpoint parse_items (items : list Item) (programs : list Program.t)
  : Result (list Program.t) :=
  match items with
  | [] => Ok programs
  | item :: rest =>
      match _parse_program item with
      | Raise e => Raise e
      | Ok program => parse_items rest (programs ++ [program])%list
      end
  end.

(** [scrape_programs]: whatever is raised inside the [try] is logged and an
    empty list is returned. *)
Definition scrape (net : Net) : list Program.t :=
  match net with
  | Raise _ => []
  | Ok data =>
      match parse_items (default [] (feed_programs data)) [] with
      | Raise _ => []
      | Ok programs => programs
      end
  end.

#[export] Instance ProjectDiscoveryScraper : BaseScraper Net := {
  get_platform_name := "projectdiscovery";
  scrape_programs net := Ok (scrape net)
}.
End Adapter.

End ProjectDiscovery.

(** ** The scheduler ([scheduler.py]) *)
Module Scheduler.

(** The keys of [self.scrapers], as [__init__] fills it. *)
Definition scrapers : gset string := {["hackerone"]}.

(** A call of [notifier.send_batch_summary(new, updated, platform)]. *)
Record Summary := mkSummary {
  summary_new : nat;
  summary_updated : nat;
  summary_platform : string
}.

(** The store next to the calls of [notifier.send_batch_summary] made so
    far. *)
Definition State : Type := World * list Summary.

Definition on_store {A : Type} (m : M World A) : M State A := fun s =>
  match m s.1 with
  | (r, w') => (r, (w', s.2))
  end.

(** [self.notifier.send_batch_summary(new, updated, platform)]: the notifier
    answers with a truth value, which [run_scraper] drops, and raises
    nothing. *)
Definition send_batch_summary (new updated : nat) (platform : string) : M State unit :=
  modify (fun s : State => (s.1, (s.2 ++ [mkSummary new updated platform])%list)).

Section RunScraper.
Variable md5_hexdigest : string -> string.
Variable sql_like : string -> string -> bool.
Variable json_loads_list : string -> Result (list string).
Variable json_loads_dict : string -> Result payload.

(** [run_scraper]: the log of the run, [None] for an unknown platform.
    Nothing is tested before the run but the membership of [platform] in
    [self.scrapers].  [recent_before] and [recent_after] are the week test of
    SQLite at the time of [get_stats] and at the time of [get_all_programs];
    the statistics and the programs listed only go to the log lines. *)
Definition run_scraper (recent_before recent_after : isotext -> bool)
    (platform : string) (net : HackerOne.Net) : M State (option ScrapeLog.t) :=
  if bool_decide (platform ∈ scrapers) then
    before_stats ← on_store (BountyDatabase.get_stats recent_before);
    log ← on_store (Engine.run (H := HackerOne.HackerOneScraper md5_hexdigest) net);
    _ ← (if ScrapeLog.success log
            && ((0 <? ScrapeLog.programs_new log)%nat
                || (0 <? ScrapeLog.programs_updated log)%nat)
         then
           _ ← send_batch_summary (ScrapeLog.programs_new log)
                 (ScrapeLog.programs_updated log) platform;
           if (0 <? ScrapeLog.programs_new log)%nat
              && (ScrapeLog.programs_new log <=? 5)%nat
           then
             new_programs ←
               on_store
                 (BountyDatabase.get_all_programs sql_like json_loads_list
                    json_loads_dict recent_after
                    (BountyDatabase.Filters.mk (Some platform) None None None
                       true false None));
             mret tt
           else mret tt
         else mret tt);
    mret (Some log)
  else mret None.
End RunScraper.

(** *** Threads

    [run_scraper] is an ordinary method of an object that the background
    thread of [start_background_loop] and every other caller share.  The
    threads are numbered; [runs !! t = Some platform] says that thread [t] is
    inside [scraper.run()] for [platform].  A call by a thread that is already
    inside a run cannot happen (the call is synchronous). *)
Inductive event : Type :=
| Call (thread : nat) (platform : string)
| Return (thread : nat).

Definition thread_of (e : event) : nat :=
  match e with Call t _ => t | Return t => t end.

Definition step (runs : gmap nat string) (e : event) : gmap nat string :=
  match e with
  | Call t platform =>
      match runs !! t with
      | Some _ => runs
      | None =>
          if bool_decide (platform ∈ scrapers) then <[t := platform]> runs
          else runs
      end
  | Return t => delete t runs
  end.

Definition steps (events : list event) (runs : gmap nat string) : gmap nat string :=
  foldl step runs events.

(** The events of thread [t] when it executes [run_all_scrapers]: one call
    and its return per configured platform, one after the other. *)
Definition pass_events (t : nat) : list event :=
  flat_map (fun platform => [Call t platform; Return t]) (elements scrapers).

(** The events of the thread of [start_background_loop] over its passes: the
    pass made on start-up and one pass after each sleep. *)
Definition loop_events (t : nat) (passes : nat) : list event :=
  concat (replicate passes (pass_events t)).

(** The number of runs of [platform] in flight. *)
Definition in_flight (platform : string) (runs : gmap nat string) : nat :=
  size (filter (fun kv : nat * string => snd kv = platform) runs).

End Scheduler.

(** ** The command line ([cli.py]) *)
Module Cli.
Import BountyDatabase.

(** The store next to the lines printed so far. *)
Definition Shell : Type := World * list string.

Definition on_world {A : Type} (m : M World A) : M Shell A := fun s =>
  match m s.1 with
  | (r, w') => (r, (w', s.2))
  end.

Definition of_result {A : Type} (r : Result A) : M Shell A := fun s => (r, s).

(** [print(text)]. *)
Definition print (text : string) : M Shell unit :=
  modify (fun s : Shell => (s.1, (s.2 ++ [text])%list)).

Definition newline : string := String (ascii_of_nat 10) "".

(** [str(n)] for a natural number. *)
Definition decimal (n : N) : string := NilZero.string_of_uint (N.to_uint n).

(** The digits with a comma before every group of three digits that is not
    the first; [remaining] is the number of digits still to come. *)
Fixpoint group_digits (remaining : nat) (digits : string) : string :=
  match digits with
  | EmptyString => EmptyString
  | String c r =>
      let remaining := pred remaining in
      String c
        ((if (0 <? remaining)%nat && (remaining mod 3 =? 0)%nat then "," else "")
         +:+ group_digits remaining r)
  end.

(** [f"{z:,}"] for an [int]. *)
Definition format_grouped (z : Z) : string :=
  let digits := decimal (Z.abs_N z) in
  (if (z <? 0)%Z then "-" else "") +:+ group_digits (String.length digits) digits.

Definition format_none_error : exn :=
  Exception "TypeError" "unsupported format string passed to NoneType.__format__".

(** [f"{v:,}"] for a value that is an [int] or [None]. *)
Definition format_bounty (v : option Z) : Result string :=
  match v with
  | Some z => Ok (format_grouped z)
  | None => Raise format_none_error
  end.

(** The arguments of the [search] command. *)
Record SearchArgs := mkSearchArgs {
  platform : option string;
  min_bounty : option Z;
  search : option string;
  bounties_only : bool;
  limit : Z
}.

(** [programs[:limit]]. *)
Definition slice_to {A : Type} (limit : Z) (l : list A) : list A :=
  if (0 <=? limit)%Z then take (Z.to_nat limit) l
  else take (length l - Z.to_nat (- limit)) l.

(** The text [bounty] that [cmd_search] prints for a program. *)
Definition bounty_text (p : ProgramDict.t) : Result string :=
  if negb (ProgramDict.vdp_only p =? 0)%Z then Ok "VDP"
  else
    match truthy_int (ProgramDict.bounty_max p) with
    | Some _ =>
        match format_bounty (ProgramDict.bounty_min p) with
        | Raise e => Raise e
        | Ok low =>
            match format_bounty (ProgramDict.bounty_max p) with
            | Raise e => Raise e
            | Ok high => Ok ("$" +:+ low +:+ "-$" +:+ high)
            end
        end
    | None => Ok "Bounty available"
    end.

(** The [for p in programs[:args.limit]] loop. *)
Fixpoint print_programs (programs : list ProgramDict.t) : M Shell unit :=
  match programs with
  | [] => mret tt
  | p :: rest =>
      bounty ← of_result (bounty_text p);
      _ ← print (newline +:+ ProgramDict.name p);
      _ ← print ("  Platform: " +:+ ProgramDict.platform p
                 +:+ " | Bounty: " +:+ bounty);
      _ ← print ("  URL: " +:+ ProgramDict.url p);
      print_programs rest
  end.

Definition magnifier : string :=
  String "240" (String "159" (String "148" (String "141" ""))).

Section Commands.
Variable sql_like : string -> string -> bool.
Variable json_loads_list : string -> Result (list string).
Variable json_loads_dict : string -> Result payload.

(** [cmd_search]; [recent] is the week test of SQLite at the time of the
    query. *)
Definition cmd_search (recent : isotext -> bool) (args : SearchArgs) : M Shell unit :=
  let filters :=
    Filters.mk (truthy_text (platform args)) (truthy_int (min_bounty args)) None
      (truthy_text (search args)) false (bounties_only args) None in
  programs ←
    on_world (get_all_programs sql_like json_loads_list json_loads_dict recent filters);
  _ ← print (newline +:+ magnifier +:+ " Found "
             +:+ decimal (N.of_nat (length programs)) +:+ " program(s)");
  _ ← print (String.concat "" (replicate 80 "="));
  print_programs (slice_to (limit args) programs).
End Commands.

End Cli.

(** ** Vocabulary of the statements *)

(** The world after [n] more readings of the clock. *)
Definition tick (n : nat) (w : World) : World :=
  mkWorld (programs w) (scrape_logs w) (utc_clock w) (n + utc_reads w).

(** Both bounties of the program bind to an SQLite INTEGER. *)
Definition ints_fit (p : Program.t) : bool :=
  BountyDatabase.fits_sqlite_integer (Program.bounty_min p)
  && BountyDatabase.fits_sqlite_integer (Program.bounty_max p).

(** One of the material fields of the program differs from the stored row. *)
Definition material_differs (r : ProgramRow.t) (p : Program.t) : Prop :=
  ProgramRow.bounty_min r ≠ Program.bounty_min p
  \/ ProgramRow.bounty_max r ≠ Program.bounty_max p
  \/ ProgramRow.assets r ≠ Json.dumps (Program.assets p)
  \/ ProgramRow.url r ≠ Program.url p.

(** Two programs agree on the material fields. *)
Definition same_material (p q : Program.t) : Prop :=
  Program.bounty_min p = Program.bounty_min q
  /\ Program.bounty_max p = Program.bounty_max q
  /\ Program.assets p = Program.assets q
  /\ Program.url p = Program.url q.

(** The row holds the material fields of the program. *)
Definition holds_material (p : Program.t) (r : ProgramRow.t) : Prop :=
  ProgramRow.bounty_min r = Program.bounty_min p
  /\ ProgramRow.bounty_max r = Program.bounty_max p
  /\ ProgramRow.assets r = Json.dumps (Program.assets p)
  /\ ProgramRow.url r = Program.url p.

(** The row holds the fields of the program that an upsert writes without
    comparing them. *)
Definition holds_other_fields (p : Program.t) (r : ProgramRow.t) : Prop :=
  ProgramRow.name r = Program.name p
  /\ ProgramRow.asset_types r = Json.dumps (Program.asset_types p)
  /\ ProgramRow.managed r = BountyDatabase.int_of_bool (Program.managed p)
  /\ ProgramRow.vdp_only r = BountyDatabase.int_of_bool (Program.vdp_only p)
  /\ ProgramRow.accepts_submissions r
     = BountyDatabase.int_of_bool (Program.accepts_submissions p)
  /\ ProgramRow.offers_bounties r
     = BountyDatabase.int_of_bool (Program.offers_bounties p).

(** The readings of the clock never go back. *)
Definition clock_monotone (w : World) : Prop :=
  forall i j : nat, i <= j -> (utc_clock w i <= utc_clock w j)%Z.

(** [w'] is a later state of the same clock as [w]. *)
Definition clock_later (w w' : World) : Prop :=
  utc_clock w' = utc_clock w /\ utc_reads w <= utc_reads w'.

(** The time a stored timestamp stands for. *)
Definition stamp_time (t : option isotext) : option datetime := iso_datetime <$> t.

(** ** Stores and programs of the examples *)

(** A clock that advances by one microsecond between two readings. *)
Definition ticking_clock : nat -> datetime := fun n => Z.of_nat n.

Definition empty_world : World := mkWorld ∅ [] ticking_clock 0.

(** The record of scenario A: platform [x], slug [a], name [A], top bounty 500. *)
Definition program_a : Program.t :=
  Program.mk "x-a" "x" "A" "a" "https://x.example/a" None (Some 500%Z) "USD"
    [] [] false false true true None None None None.

(** Scenario B: the same record under another name. *)
Definition program_a_renamed : Program.t :=
  Program.mk "x-a" "x" "A2" "a" "https://x.example/a" None (Some 500%Z) "USD"
    [] [] false false true true None None None None.

(** Scenario C: the same record with a higher top bounty. *)
Definition program_a_raised : Program.t :=
  Program.mk "x-a" "x" "A" "a" "https://x.example/a" None (Some 900%Z) "USD"
    [] [] false false true true None None None None.

(** The platform and slug of scenario A under another identity. *)
Definition program_a_twin : Program.t :=
  Program.mk "x-a2" "x" "A" "a" "https://x.example/a" None (Some 500%Z) "USD"
    [] [] false false true true None None None None.

(** A second record, under another identity. *)
Definition program_b : Program.t :=
  Program.mk "x-b" "x" "B" "b" "https://x.example/b" None None "USD"
    ["b.example"] ["web"] false true true false None None None None.


(** The row that the first ingestion of [program_a] leaves on the ticking
    clock, and the store that holds it. *)
Definition row_a : ProgramRow.t :=
  ProgramRow.mk "x-a" "x" "A" "a" "https://x.example/a" None (Some 500%Z) "USD"
    "[]" "[]" 0%Z 0%Z 1%Z 1%Z (Some (Iso 1%Z)) (Some (Iso 2%Z)) (Some (Iso 3%Z)) None.

Definition world_a : World := mkWorld {[ "x-a" := row_a ]} [] ticking_clock 4.

(** An adapter that returns the list it is given. *)
Definition ListScraper (platform : string) : BaseScraper (list Program.t) := {|
  get_platform_name := platform;
  scrape_programs := fun programs => Ok programs
|}.


(** ** Vocabulary of the runs *)

(** The log of a run that ended in the [except] clause with [e], at [at_]. *)
Definition failed_log (log : ScrapeLog.t) (e : exn) (at_ : datetime) : ScrapeLog.t :=
  ScrapeLog.set_completed_at at_
    (ScrapeLog.set_error_message (Some (str_of_exn e))
       (ScrapeLog.set_success false log)).

(** The log of a run whose [try] body reached its end at [at_]. *)
Definition succeeded_log (log : ScrapeLog.t) (found new updated : nat)
    (at_ : datetime) : ScrapeLog.t :=
  ScrapeLog.set_completed_at at_
    (ScrapeLog.set_success true
       (ScrapeLog.set_counts new updated (ScrapeLog.set_found found log))).

(** The world once the row of [log] is in the run log. *)
Definition logged (log : ScrapeLog.t) (w : World) : World :=
  set_scrape_logs (fun rows => rows ++ [BountyDatabase.scrape_log_row log])%list w.





(** ** Vocabulary of the adapters *)

(** The text has no character of [[a-z0-9]]. *)
Definition no_lower_alnum (s : string) : bool :=
  negb (PyStr.existsb_str PyStr.is_lower_alnum s).

(** The text has no ASCII letter and no ASCII digit. *)
Definition no_ascii_alnum (s : string) : bool :=
  negb (PyStr.existsb_str PyStr.is_ascii_alnum s).

(** The lower-cased bounty text of a ProjectDiscovery entry says that there
    is no bounty: it holds [no] or [swag], and neither [yes] nor a dollar
    sign. *)
Definition says_no_bounty (bounty : string) : bool :=
  negb (PyStr.contains "yes" bounty || PyStr.contains "$" bounty)
  && (PyStr.contains "no" bounty || PyStr.contains "swag" bounty).

(** A HackerOne node with a handle and nothing else. *)
Definition bare_node : HackerOne.Node :=
  HackerOne.mkNode (Some "acme") None None None None None
    {| payload_truthy := true;
       payload_json := "{" +:+ Json.dquote +:+ "handle" +:+ Json.dquote +:+ ": "
                       +:+ Json.dquote +:+ "acme" +:+ Json.dquote +:+ "}" |}.

(** A ProjectDiscovery entry with a name and nothing else. *)
Definition bare_item (name : string) : ProjectDiscovery.Item :=
  ProjectDiscovery.mkItem (Some name) None None None
    {| payload_truthy := true;
       payload_json := "{" +:+ Json.dquote +:+ "name" +:+ Json.dquote +:+ ": "
                       +:+ Json.dquote +:+ name +:+ Json.dquote +:+ "}" |}.

(** The exception of a request that found no server. *)
Definition connection_error : exn :=
  Exception "ConnectionError" "connection refused".

(** Stand-ins for the library functions of the ProjectDiscovery adapter, for
    the entries that reach none of them. *)
Definition no_urlparse : string -> Result ProjectDiscovery.ParseResult :=
  fun _ => Raise (Exception "ValueError" "urlparse").

Definition no_amounts : string -> Result (list Z) := fun _ => Ok [].

(** ** Vocabulary of the store invariants *)

(** The row [r'] has the columns of [r] that no UPDATE of the store sets. *)
Definition same_identity (r r' : ProgramRow.t) : Prop :=
  ProgramRow.id r' = ProgramRow.id r
  /\ ProgramRow.platform r' = ProgramRow.platform r
  /\ ProgramRow.slug r' = ProgramRow.slug r
  /\ ProgramRow.first_seen r' = ProgramRow.first_seen r.

(** The constraints of the [programs] table: [PRIMARY KEY (id)], a row being
    found under its own [id], and [UNIQUE (platform, slug)]. *)
Definition table_constraints (tbl : gmap string ProgramRow.t) : Prop :=
  (forall (i : string) (r : ProgramRow.t), tbl !! i = Some r -> ProgramRow.id r = i)
  /\ (forall (i j : string) (r r' : ProgramRow.t),
        tbl !! i = Some r -> tbl !! j = Some r' ->
        ProgramRow.platform r = ProgramRow.platform r' ->
        ProgramRow.slug r = ProgramRow.slug r' -> i = j).

(** The three timestamps of the row are readings that the clock of [w] has
    given so far, made in the order [first_seen], [last_updated],
    [last_scraped]. *)
Definition stamped (w : World) (r : ProgramRow.t) : Prop :=
  exists a b c : nat,
    ProgramRow.first_seen r = Some (Iso (utc_clock w a))
    /\ ProgramRow.last_updated r = Some (Iso (utc_clock w b))
    /\ ProgramRow.last_scraped r = Some (Iso (utc_clock w c))
    /\ a <= b /\ b <= c /\ c < utc_reads w.

Definition all_stamped (w : World) : Prop :=
  forall (i : string) (r : ProgramRow.t), programs w !! i = Some r -> stamped w r.

(** The times of the row are in the order [first_seen], [last_updated],
    [last_scraped]. *)
Definition times_in_order (r : ProgramRow.t) : Prop :=
  exists seen updated scraped : datetime,
    ProgramRow.first_seen r = Some (Iso seen)
    /\ ProgramRow.last_updated r = Some (Iso updated)
    /\ ProgramRow.last_scraped r = Some (Iso scraped)
    /\ (seen <= updated)%Z /\ (updated <= scraped)%Z.

(** The row was scraped at the [k]-th reading of [clock], for some [k] from
    [lo] on that the clock of [w] has given. *)
Definition scraped_since (clock : nat -> datetime) (lo : nat) (i : string)
    (w : World) : Prop :=
  utc_clock w = clock
  /\ exists (row : ProgramRow.t) (k : nat),
       programs w !! i = Some row
       /\ ProgramRow.last_scraped row = Some (Iso (clock k))
       /\ lo <= k /\ k < utc_reads w.

(** ** Vocabulary of the HackerOne pages *)


(** The request with [cursor] brings no page: there is no reply, it raises,
    it has an [errors] key, or it has no edge. *)
Definition brings_no_page (net : HackerOne.Net) (cursor : option string) : Prop :=
  match net with
  | [] => True
  | reply :: _ =>
      match reply (HackerOne.request_variables cursor) with
      | Raise _ => True
      | Ok data =>
          HackerOne.has_errors data = true \/ HackerOne.edges data = []
      end
  end.

(** [serves net cursor pages]: from the request with [cursor] on, the server
    of [net] brings the pages [pages] (each the nodes of its edges) before the
    loop of [scrape_programs] ends.  A page that announces a next page is
    followed by the request with its [endCursor]; the last page is one that
    announces no next page, one that is cut at an edge without a node, or the
    one before a request that brings no page. *)
Inductive serves : HackerOne.Net -> option string -> list (list HackerOne.Node) -> Prop :=
| serves_stop (net : HackerOne.Net) (cursor : option string) :
    brings_no_page net cursor ->
    serves net cursor []
| serves_cut (reply : option string -> Result HackerOne.Reply) (later : HackerOne.Net)
    (cursor : option string) (data : HackerOne.Reply)
    (nodes : list HackerOne.Node) (rest : list (option HackerOne.Node)) :
    reply (HackerOne.request_variables cursor) = Ok data ->
    HackerOne.has_errors data = false ->
    HackerOne.edges data = ((Some <$> nodes) ++ None :: rest)%list ->
    serves (reply :: later) cursor [nodes]
| serves_last (reply : option string -> Result HackerOne.Reply) (later : HackerOne.Net)
    (cursor : option string) (data : HackerOne.Reply) (nodes : list HackerOne.Node) :
    reply (HackerOne.request_variables cursor) = Ok data ->
    HackerOne.has_errors data = false ->
    HackerOne.edges data = Some <$> nodes ->
    nodes ≠ [] ->
    HackerOne.has_next_page data = false ->
    serves (reply :: later) cursor [nodes]
| serves_next (reply : option string -> Result HackerOne.Reply) (later : HackerOne.Net)
    (cursor : option string) (data : HackerOne.Reply) (nodes : list HackerOne.Node)
    (pages : list (list HackerOne.Node)) :
    reply (HackerOne.request_variables cursor) = Ok data ->
    HackerOne.has_errors data = false ->
    HackerOne.edges data = Some <$> nodes ->
    nodes ≠ [] ->
    HackerOne.has_next_page data = true ->
    serves later (HackerOne.end_cursor data) pages ->
    serves (reply :: later) cursor (nodes :: pages).

(** Two replies of a directory of three programs: a page of two that
    announces a next page, and the page that the cursor [c1] brings. *)
Definition node_of (handle : string) (bounties : bool) (base : Z) : HackerOne.Node :=
  HackerOne.mkNode (Some handle) None (Some bounties) (Some "open") (Some base) None
    {| payload_truthy := true; payload_json := "{}" |}.

Definition two_pages : HackerOne.Net :=
  [ (fun _ => Ok (HackerOne.mkReply false
                    [Some (node_of "acme" true 100); Some (node_of "bolt" false 0)]
                    true (Some "c1")));
    (fun cursor =>
       if bool_decide (cursor = Some "c1")
       then Ok (HackerOne.mkReply false [Some (node_of "core" true 0)] false None)
       else Raise connection_error) ].

(** ** Vocabulary of the ProjectDiscovery programs *)

(** The characters of a slug: [[a-z0-9]] and the hyphen. *)
Definition is_slug_char (c : ascii) : bool :=
  PyStr.is_lower_alnum c || Ascii.eqb c "-".

(** Groups of characters of [[a-z0-9]] joined by single hyphens: the text has
    no other character, no hyphen at either end and no two hyphens in a
    row. *)
Definition well_formed_slug (s : string) : Prop :=
  PyStr.existsb_str (fun c => negb (is_slug_char c)) s = false
  /\ PyStr.strip "-" s = s
  /\ PyStr.contains "--" s = false.

(** The platforms that [_detect_platform] tells apart. *)
Definition platform_names : list string :=
  ["unknown"; "hackerone"; "bugcrowd"; "intigriti"; "yeswehack"; "immunefi";
   "code4rena"; "huntr"; "algora"; "other"].

(** The asset types that [_detect_asset_types] tells apart. *)
Definition asset_type_names : list string := ["api"; "mobile"; "web"].

(** A stand-in for [urlparse] on the URLs of the form
    [https://hackerone.com/<path>]. *)
Definition urlparse_hackerone : string -> Result ProjectDiscovery.ParseResult :=
  fun url =>
    Ok (ProjectDiscovery.mkParseResult "hackerone.com"
          (String.substring 21 (String.length url - 21) url)).

(** A ProjectDiscovery entry with a name, a URL, a bounty text and domains. *)
Definition full_item (name url bounty : string) (domains : list string)
  : ProjectDiscovery.Item :=
  ProjectDiscovery.mkItem (Some name) (Some url) (Some bounty) (Some domains)
    {| payload_truthy := true; payload_json := "{}" |}.

(** A stand-in for the extraction of the amounts, on a text that names the
    two amounts 100 and 5,000. *)
Definition two_amounts : string -> Result (list Z) :=
  fun _ => Ok [100%Z; 5000%Z].

(** ** Vocabulary of the identities *)



(** ** Vocabulary of the listings *)

(** Filters with no key but [sort_by]. *)
Definition no_filter (sort_by : option string) : BountyDatabase.Filters.t :=
  BountyDatabase.Filters.mk None None None None false false sort_by.

(** The dictionary has the columns of the row that are no JSON text. *)
Definition same_columns (r : ProgramRow.t) (d : BountyDatabase.ProgramDict.t) : Prop :=
  BountyDatabase.ProgramDict.id d = ProgramRow.id r
  /\ BountyDatabase.ProgramDict.platform d = ProgramRow.platform r
  /\ BountyDatabase.ProgramDict.name d = ProgramRow.name r
  /\ BountyDatabase.ProgramDict.slug d = ProgramRow.slug r
  /\ BountyDatabase.ProgramDict.url d = ProgramRow.url r
  /\ BountyDatabase.ProgramDict.bounty_min d = ProgramRow.bounty_min r
  /\ BountyDatabase.ProgramDict.bounty_max d = ProgramRow.bounty_max r
  /\ BountyDatabase.ProgramDict.vdp_only d = ProgramRow.vdp_only r
  /\ BountyDatabase.ProgramDict.offers_bounties d = ProgramRow.offers_bounties r
  /\ BountyDatabase.ProgramDict.first_seen d = ProgramRow.first_seen r.

(** Stand-ins for [json.loads] and LIKE on a catalogue whose JSON columns
    hold empty lists and that no listing searches. *)
Definition loads_empty_list : string -> Result (list string) := fun _ => Ok [].

Definition loads_empty_dict : string -> Result payload :=
  fun _ => Ok {| payload_truthy := false; payload_json := "{}" |}.

Definition like_nothing : string -> string -> bool := fun _ _ => false.

(** ** Vocabulary of the command line *)

(** The arguments of [search] when only [--limit] is given. *)
Definition plain_search (limit : Z) : Cli.SearchArgs :=
  Cli.mkSearchArgs None None None false limit.

(** A program with a top bounty and no lowest bounty, as the ProjectDiscovery
    adapter builds it from a bounty text with one amount. *)
Definition program_single_amount : Program.t :=
  Program.mk "pd-acme" "hackerone" "Acme" "acme" "https://hackerone.com/acme" None
    (Some 5000%Z) "USD" [] ["web"] false false true true None None None None.

(** ** Vocabulary of the texts *)

(** The UTF-8 encoding of a code point. *)
Definition utf8 (cp : N) : string :=
  if (cp <? 128)%N then String (ascii_of_N cp) ""
  else if (cp <? 2048)%N then
    String (ascii_of_N (192 + cp / 64))
      (String (ascii_of_N (128 + cp mod 64)) "")
  else if (cp <? 65536)%N then
    String (ascii_of_N (224 + cp / 4096))
      (String (ascii_of_N (128 + (cp / 64) mod 64))
         (String (ascii_of_N (128 + cp mod 64)) ""))
  else
    String (ascii_of_N (240 + cp / 262144))
      (String (ascii_of_N (128 + (cp / 4096) mod 64))
         (String (ascii_of_N (128 + (cp / 64) mod 64))
            (String (ascii_of_N (128 + cp mod 64)) ""))).

(** A Unicode scalar value: a code point that is no surrogate. *)
Definition is_scalar (cp : N) : bool :=
  ((cp <? 55296)%N || (57343 <? cp)%N) && (cp <? 1114112)%N.

(** The string is the UTF-8 encoding of a sequence of scalar values, as the
    bytes of a [str] without surrogates are: it is the encoding of the code
    points it decodes to. *)
Definition is_text (s : string) : bool :=
  forallb is_scalar (Json.code_points 0 s)
  && bool_decide (String.concat "" (map utf8 (Json.code_points 0 s)) = s).

Definition all_text (l : list string) : bool := forallb is_text l.

(** The value of a hexadecimal digit, and of four of them. *)
Definition unhex_digit (c : ascii) : N :=
  let n := N_of_ascii c in
  if (n <? 58)%N then (n - 48)%N else (n - 87)%N.

Definition unhex4 (a b c d : ascii) : N :=
  (((unhex_digit a * 16 + unhex_digit b) * 16 + unhex_digit c) * 16
   + unhex_digit d)%N.

(** Reads the code point that the front of the body of a JSON string stands
    for, and returns it with the rest of the text; a bare quote ends the
    body. *)
Definition read_escape (s : string) : option (N * string) :=
  match s with
  | EmptyString => None
  | String c r =>
      let b := N_of_ascii c in
      if (b =? 34)%N then None
      else if negb (b =? 92)%N then Some (b, r)
      else
        match r with
        | EmptyString => None
        | String c' r' =>
            let b' := N_of_ascii c' in
            if (b' =? 34)%N then Some (34%N, r')
            else if (b' =? 92)%N then Some (92%N, r')
            else if (b' =? 110)%N then Some (10%N, r')
            else if (b' =? 114)%N then Some (13%N, r')
            else if (b' =? 116)%N then Some (9%N, r')
            else if (b' =? 98)%N then Some (8%N, r')
            else if (b' =? 102)%N then Some (12%N, r')
            else
              match r' with
              | String h1 (String h2 (String h3 (String h4 r''))) =>
                  let hi := unhex4 h1 h2 h3 h4 in
                  if (55296 <=? hi)%N && (hi <? 56320)%N then
                    match r'' with
                    | String _ (String _
                        (String l1 (String l2 (String l3 (String l4 r3))))) =>
                        Some ((65536 + (hi - 55296) * 1024
                               + (unhex4 l1 l2 l3 l4 - 56320))%N, r3)
                    | _ => None
                    end
                  else Some (hi, r'')
              | _ => None
              end
        end
  end.

(** * Properties *)

(** ** The string functions on examples *)

Example lower_kelvin : PyStr.lower PyStr.kelvin_sign = "k".
Proof. reflexivity. Qed.

Example lower_mixed : PyStr.lower "  Hello, World!! 42 " = "  hello, world!! 42 ".
Proof. reflexivity. Qed.

Example slug_text :
  PyStr.strip "-" (PyStr.re_sub_non_alnum (PyStr.lower "  Hello, World!! 42 "))
  = "hello-world-42".
Proof. reflexivity. Qed.

Example split_path : PyStr.split "/" "a/b" = ["a"; "b"] /\ PyStr.split "/" "" = [""].
Proof. split; reflexivity. Qed.

Example dumps_two :
  Json.dumps ["a.com"; "b.org"]
  = "[" +:+ Json.dquote +:+ "a.com" +:+ Json.dquote +:+ ", "
        +:+ Json.dquote +:+ "b.org" +:+ Json.dquote +:+ "]".
Proof. vm_compute. reflexivity. Qed.

Example dumps_empty : Json.dumps [] = "[]".
Proof. reflexivity. Qed.

(** ** [json.dumps] tells lists of texts apart *)
Section JsonFacts.
Local Open Scope N_scope.

Lemma append_cons (x : ascii) (a b : string) :
  String x a +:+ b = String x (a +:+ b).
Proof. reflexivity. Qed.

Lemma append_empty_l (b : string) : "" +:+ b = b.
Proof. reflexivity. Qed.

Lemma append_assoc (a b c : string) : (a +:+ b) +:+ c = a +:+ (b +:+ c).
Proof.
  induction a as [|x a IH]; [reflexivity|]. by rewrite !append_cons, IH.
Qed.

Lemma append_empty_r (a : string) : a +:+ "" = a.
Proof. induction a as [|x a IH]; [reflexivity|]. by rewrite append_cons, IH. Qed.

Lemma concat_empty_cons (x : string) (xs : list string) :
  String.concat "" (x :: xs) = x +:+ String.concat "" xs.
Proof. destruct xs; [by rewrite append_empty_r|reflexivity]. Qed.

Lemma below_forallb (P : N -> bool) (n : nat) :
  forallb P (map N.of_nat (seq 0 n)) = true ->
  forall x : N, x < N.of_nat n -> P x = true.
Proof.
  intros Hall x Hx. rewrite forallb_forall in Hall. apply Hall.
  apply in_map_iff. exists (N.to_nat x). split; [apply N2Nat.id|].
  apply in_seq. lia.
Qed.

Lemma unhex_hex_digit (n : N) : n < 16 -> unhex_digit (Json.hex_digit n) = n.
Proof.
  intros Hn. apply N.eqb_eq.
  apply (below_forallb (fun k => unhex_digit (Json.hex_digit k) =? k) 16);
    [vm_compute; reflexivity|exact Hn].
Qed.

Lemma hex_places (n : N) :
  n < 65536 ->
  (((n / 4096) mod 16 * 16 + (n / 256) mod 16) * 16 + (n / 16) mod 16) * 16 + n mod 16
  = n.
Proof. intros Hn. zify. Z.to_euclidean_division_equations. lia. Qed.

(** The four digits of [hex4] read back as the number. *)
Lemma unhex4_hex4 (n : N) (r : string) :
  n < 65536 ->
  exists a b c d : ascii,
    Json.hex4 n +:+ r = String a (String b (String c (String d r)))
    /\ unhex4 a b c d = n.
Proof.
  intros Hn. unfold Json.hex4. eexists _, _, _, _. split; [reflexivity|].
  unfold unhex4. rewrite !unhex_hex_digit by (apply N.mod_lt; lia).
  rewrite !N.shiftr_div_pow2. by apply hex_places.
Qed.

Lemma lor_surrogate_base (x : N) :
  x < 1024 -> N.lor 55296 x = 55296 + x /\ N.lor 56320 x = 56320 + x.
Proof.
  intros Hx.
  assert (Hb : (N.lor 55296 x =? 55296 + x) && (N.lor 56320 x =? 56320 + x) = true).
  { apply (below_forallb
      (fun k => (N.lor 55296 k =? 55296 + k) && (N.lor 56320 k =? 56320 + k)) 1024);
      [vm_compute; reflexivity|exact Hx]. }
  apply andb_true_iff in Hb as [H1 H2]. split; by apply N.eqb_eq.
Qed.

(** The two halves of a surrogate pair, and the code point they stand for. *)
Lemma surrogate_pair (v : N) :
  v < 1048576 ->
  let hi := N.lor 55296 (N.land (N.shiftr v 10) 1023) in
  let lo := N.lor 56320 (N.land v 1023) in
  55296 <= hi /\ hi < 56320 /\ 56320 <= lo /\ lo < 65536
  /\ 65536 + (hi - 55296) * 1024 + (lo - 56320) = 65536 + v.
Proof.
  intros Hv hi lo. unfold hi, lo.
  rewrite N.shiftr_div_pow2. change 1023 with (N.ones 10). rewrite !N.land_ones.
  change (2 ^ 10) with 1024.
  assert (Hq : v / 1024 < 1024) by (apply N.Div0.div_lt_upper_bound; lia).
  rewrite (N.mod_small (v / 1024)) by exact Hq.
  assert (Hr : v mod 1024 < 1024) by (apply N.mod_lt; lia).
  destruct (lor_surrogate_base _ Hq) as [-> _].
  destruct (lor_surrogate_base _ Hr) as [_ ->].
  repeat split; zify; Z.to_euclidean_division_equations; lia.
Qed.

Lemma read_u_escape (n : N) (r : string) :
  n < 65536 ->
  (55296 <=? n) && (n <? 56320) = false ->
  read_escape (Json.u_escape n +:+ r) = Some (n, r).
Proof.
  intros Hn Hs. unfold Json.u_escape. rewrite append_assoc.
  destruct (unhex4_hex4 n r Hn) as (a & b & c & d & -> & Hval).
  change (read_escape ("\u" +:+ String a (String b (String c (String d r)))))
    with (let hi := unhex4 a b c d in
          if (55296 <=? hi) && (hi <? 56320) then
            match r with
            | String _ (String _
                (String l1 (String l2 (String l3 (String l4 r3))))) =>
                Some (65536 + (hi - 55296) * 1024 + (unhex4 l1 l2 l3 l4 - 56320), r3)
            | _ => None
            end
          else Some (hi, r)).
  cbv zeta. by rewrite Hval, Hs.
Qed.

Lemma read_surrogate_pair (hi lo : N) (r : string) :
  55296 <= hi -> hi < 56320 -> lo < 65536 ->
  read_escape (Json.u_escape hi +:+ Json.u_escape lo +:+ r)
  = Some (65536 + (hi - 55296) * 1024 + (lo - 56320), r).
Proof.
  intros H1 H2 H3. unfold Json.u_escape. rewrite !append_assoc.
  destruct (unhex4_hex4 lo r H3) as (a' & b' & c' & d' & -> & Hlo).
  destruct (unhex4_hex4 hi ("\u" +:+ String a' (String b' (String c' (String d' r))))
              ltac:(lia)) as (a & b & c & d & -> & Hhi).
  change (read_escape
            ("\u" +:+ String a (String b (String c (String d
               ("\u" +:+ String a' (String b' (String c' (String d' r)))))))))
    with (let h := unhex4 a b c d in
          if (55296 <=? h) && (h <? 56320) then
            Some (65536 + (h - 55296) * 1024 + (unhex4 a' b' c' d' - 56320), r)
          else Some (h, "\u" +:+ String a' (String b' (String c' (String d' r))))).
  cbv zeta. rewrite Hhi, Hlo.
  assert (Hin : (55296 <=? hi) && (hi <? 56320) = true).
  { apply andb_true_iff. split; [by apply N.leb_le|by apply N.ltb_lt]. }
  by rewrite Hin.
Qed.

(** [read_escape] reads back what [escape_code_point] writes. *)
Lemma read_escape_code_point (cp : N) (r : string) :
  is_scalar cp = true ->
  read_escape (Json.escape_code_point cp +:+ r) = Some (cp, r).
Proof.
  unfold is_scalar. intros Hs. apply andb_true_iff in Hs as [Hs Hmax].
  apply N.ltb_lt in Hmax. unfold Json.escape_code_point.
  destruct (cp =? 34) eqn:E1; [apply N.eqb_eq in E1; by subst|].
  destruct (cp =? 92) eqn:E2; [apply N.eqb_eq in E2; by subst|].
  destruct (cp =? 10) eqn:E3; [apply N.eqb_eq in E3; by subst|].
  destruct (cp =? 13) eqn:E4; [apply N.eqb_eq in E4; by subst|].
  destruct (cp =? 9) eqn:E5; [apply N.eqb_eq in E5; by subst|].
  destruct (cp =? 8) eqn:E6; [apply N.eqb_eq in E6; by subst|].
  destruct (cp =? 12) eqn:E7; [apply N.eqb_eq in E7; by subst|].
  destruct ((32 <=? cp) && (cp <=? 126)) eqn:Ep.
  - apply andb_true_iff in Ep as [Hlo Hhi]. apply N.leb_le in Hlo, Hhi.
    change (read_escape (String (ascii_of_N cp) "" +:+ r))
      with (let b := N_of_ascii (ascii_of_N cp) in
            if b =? 34 then None
            else if negb (b =? 92) then Some (b, r)
            else read_escape (String "\" r)).
    cbv zeta. rewrite N_ascii_embedding by lia. by rewrite E1, E2.
  - destruct (cp <? 65536) eqn:Eb.
    + apply N.ltb_lt in Eb. apply read_u_escape; [exact Eb|].
      apply orb_true_iff in Hs as [Hs|Hs].
      * apply N.ltb_lt in Hs. apply andb_false_iff. left. apply N.leb_gt. exact Hs.
      * apply N.ltb_lt in Hs. apply andb_false_iff. right. apply N.ltb_ge. lia.
    + apply N.ltb_ge in Eb. cbv zeta. rewrite append_assoc.
      destruct (surrogate_pair (cp - 65536) ltac:(lia)) as (H1 & H2 & H3 & H4 & H5).
      rewrite read_surrogate_pair by assumption.
      cbv zeta in H5. rewrite H5. f_equal. f_equal. lia.
Qed.

Local Close Scope N_scope.

(** The body of a JSON string, up to the quote that ends it, gives the code
    points back. *)
Lemma escaped_body_inj (cps1 : list N) :
  forall (cps2 : list N) (r1 r2 : string),
    forallb is_scalar cps1 = true -> forallb is_scalar cps2 = true ->
    String.concat "" (map Json.escape_code_point cps1) +:+ String "034" r1
    = String.concat "" (map Json.escape_code_point cps2) +:+ String "034" r2 ->
    cps1 = cps2 /\ r1 = r2.
Proof.
  induction cps1 as [|c1 cps1 IH]; intros [|c2 cps2] r1 r2 H1 H2 Heq.
  - change (String "034" r1 = String "034" r2) in Heq. by injection Heq as ->.
  - apply andb_true_iff in H2 as [Hc2 _].
    apply (f_equal read_escape) in Heq.
    rewrite map_cons, concat_empty_cons, append_assoc, read_escape_code_point in Heq
      by exact Hc2.
    discriminate.
  - apply andb_true_iff in H1 as [Hc1 _].
    apply (f_equal read_escape) in Heq.
    rewrite map_cons, concat_empty_cons, append_assoc, read_escape_code_point in Heq
      by exact Hc1.
    discriminate.
  - apply andb_true_iff in H1 as [Hc1 H1]. apply andb_true_iff in H2 as [Hc2 H2].
    apply (f_equal read_escape) in Heq.
    rewrite !map_cons, !concat_empty_cons, !append_assoc in Heq.
    rewrite !read_escape_code_point in Heq by assumption.
    injection Heq as -> Heq.
    destruct (IH _ _ _ H1 H2 Heq) as [-> ->]. done.
Qed.

(** A text is determined by its code points. *)
Lemma text_code_points (s1 s2 : string) :
  is_text s1 = true -> is_text s2 = true ->
  Json.code_points 0 s1 = Json.code_points 0 s2 -> s1 = s2.
Proof.
  unfold is_text. intros [_ H1]%andb_true_iff [_ H2]%andb_true_iff Heq.
  apply bool_decide_eq_true in H1, H2. rewrite <- H1, <- H2. by rewrite Heq.
Qed.

Lemma dumps_str_inj (s1 s2 r1 r2 : string) :
  is_text s1 = true -> is_text s2 = true ->
  Json.dumps_str s1 +:+ r1 = Json.dumps_str s2 +:+ r2 ->
  s1 = s2 /\ r1 = r2.
Proof.
  intros H1 H2. unfold Json.dumps_str, Json.dquote. rewrite !append_assoc.
  rewrite !append_cons, !append_empty_l. intros Heq.
  injection Heq as Heq.
  pose proof H1 as [Hs1 _]%andb_true_iff. pose proof H2 as [Hs2 _]%andb_true_iff.
  destruct (escaped_body_inj _ _ _ _ Hs1 Hs2 Heq) as [Hcps ->].
  split; [by apply text_code_points|reflexivity].
Qed.

Lemma concat_comma_cons (x y : string) (l : list string) :
  String.concat ", " (x :: y :: l) = x +:+ ", " +:+ String.concat ", " (y :: l).
Proof. reflexivity. Qed.

Lemma dumps_items_inj (l1 : list string) :
  forall (s1 s2 : string) (l2 : list string),
    all_text (s1 :: l1) = true -> all_text (s2 :: l2) = true ->
    String.concat ", " (map Json.dumps_str (s1 :: l1)) +:+ "]"
    = String.concat ", " (map Json.dumps_str (s2 :: l2)) +:+ "]" ->
    s1 :: l1 = s2 :: l2.
Proof.
  induction l1 as [|t1 l1 IH]; intros s1 s2 [|t2 l2] [Hs1 Hl1]%andb_true_iff
    [Hs2 Hl2]%andb_true_iff Heq.
  - change (Json.dumps_str s1 +:+ "]" = Json.dumps_str s2 +:+ "]") in Heq.
    by destruct (dumps_str_inj _ _ _ _ Hs1 Hs2 Heq) as [-> _].
  - change (Json.dumps_str s1 +:+ "]"
            = (Json.dumps_str s2 +:+ ", "
               +:+ String.concat ", " (map Json.dumps_str (t2 :: l2))) +:+ "]") in Heq.
    rewrite !append_assoc in Heq.
    destruct (dumps_str_inj _ _ _ _ Hs1 Hs2 Heq) as [_ Hr].
    rewrite !append_cons in Hr. discriminate.
  - change ((Json.dumps_str s1 +:+ ", "
             +:+ String.concat ", " (map Json.dumps_str (t1 :: l1))) +:+ "]"
            = Json.dumps_str s2 +:+ "]") in Heq.
    rewrite !append_assoc in Heq.
    destruct (dumps_str_inj _ _ _ _ Hs1 Hs2 Heq) as [_ Hr].
    rewrite !append_cons in Hr. discriminate.
  - change ((Json.dumps_str s1 +:+ ", "
             +:+ String.concat ", " (map Json.dumps_str (t1 :: l1))) +:+ "]"
            = (Json.dumps_str s2 +:+ ", "
               +:+ String.concat ", " (map Json.dumps_str (t2 :: l2))) +:+ "]") in Heq.
    rewrite !append_assoc in Heq.
    destruct (dumps_str_inj _ _ _ _ Hs1 Hs2 Heq) as [-> Hr].
    rewrite !append_cons, !append_empty_l in Hr. injection Hr as Hr.
    by rewrite (IH t1 t2 l2 Hl1 Hl2 Hr).
Qed.

(** Two lists of texts with the same JSON text are the same list. *)
Lemma dumps_inj (l1 l2 : list string) :
  all_text l1 = true -> all_text l2 = true ->
  Json.dumps l1 = Json.dumps l2 -> l1 = l2.
Proof.
  unfold Json.dumps. intros H1 H2 Heq.
  rewrite !append_cons, !append_empty_l in Heq. injection Heq as Heq.
  destruct l1 as [|s1 l1], l2 as [|s2 l2]; [reflexivity| | |by apply dumps_items_inj].
  - exfalso. revert Heq.
    change (String.concat ", " (map Json.dumps_str [])) with "".
    destruct l2 as [|t2 l2].
    + change (String.concat ", " (map Json.dumps_str [s2])) with (Json.dumps_str s2).
      unfold Json.dumps_str, Json.dquote. rewrite !append_cons, !append_empty_l.
      discriminate.
    + change (String.concat ", " (map Json.dumps_str (s2 :: t2 :: l2)))
        with (Json.dumps_str s2 +:+ ", "
              +:+ String.concat ", " (map Json.dumps_str (t2 :: l2))).
      unfold Json.dumps_str, Json.dquote. rewrite !append_cons, !append_empty_l.
      discriminate.
  - exfalso. revert Heq.
    change (String.concat ", " (map Json.dumps_str [])) with "".
    destruct l1 as [|t1 l1].
    + change (String.concat ", " (map Json.dumps_str [s1])) with (Json.dumps_str s1).
      unfold Json.dumps_str, Json.dquote. rewrite !append_cons, !append_empty_l.
      discriminate.
    + change (String.concat ", " (map Json.dumps_str (s1 :: t1 :: l1)))
        with (Json.dumps_str s1 +:+ ", "
              +:+ String.concat ", " (map Json.dumps_str (t1 :: l1))).
      unfold Json.dumps_str, Json.dquote. rewrite !append_cons, !append_empty_l.
      discriminate.
Qed.

Lemma dumps_differs (l1 l2 : list string) :
  all_text l1 = true -> all_text l2 = true ->
  Json.dumps l1 ≠ Json.dumps l2 <-> l1 ≠ l2.
Proof.
  intros H1 H2. split; intros Hne Heq; apply Hne; [by rewrite Heq|by apply dumps_inj].
Qed.

End JsonFacts.

(** ** The upsert, path by path *)
Section UpsertPaths.
Import BountyDatabase.

Lemma upsert_program_existing (p : Program.t) (w : World) (r : ProgramRow.t) :
  programs w !! Program.id p = Some r ->
  upsert_program p w =
    if ints_fit p then
      (Ok (false, bool_decide (old_data r ≠ new_data p)),
       set_programs (alter (updated_row (Iso (utc_clock w (utc_reads w)))
                              (bool_decide (old_data r ≠ new_data p))
                              (ProgramRow.last_updated r) p) (Program.id p))
         (tick 1 w))
    else (Raise overflow_error, tick 1 w).
Proof.
  intros Hr.
  unfold upsert_program, mbind, M_bind, utcnow, select_program, get_state, mret, M_ret.
  simpl. rewrite Hr. unfold execute_update, ints_fit, raise, modify. simpl.
  destruct (fits_sqlite_integer (Program.bounty_min p)
            && fits_sqlite_integer (Program.bounty_max p)); reflexivity.
Qed.

Lemma upsert_program_new (p : Program.t) (w : World) :
  programs w !! Program.id p = None ->
  upsert_program p w =
    if negb (ints_fit p) then (Raise overflow_error, tick 4 w)
    else if bool_decide (platform_slug_taken (Program.platform p) (Program.slug p)
                           (programs w))
    then (Raise (integrity_error "programs.platform, programs.slug"), tick 4 w)
    else (Ok (true, false),
          set_programs (insert (Program.id p)
             (inserted_row (Iso (utc_clock w (utc_reads w)))
                (Program.with_seen (Some (utc_clock w (1 + utc_reads w)))
                   (Some (utc_clock w (2 + utc_reads w)))
                   (Some (utc_clock w (3 + utc_reads w))) p)))
            (tick 4 w)).
Proof.
  intros Hr.
  unfold upsert_program, mbind, M_bind, utcnow, select_program, get_state, mret, M_ret.
  simpl. rewrite Hr.
  unfold execute_insert, ints_fit, mbind, M_bind, get_state, raise, modify. simpl.
  destruct (fits_sqlite_integer (Program.bounty_min p)
            && fits_sqlite_integer (Program.bounty_max p)); simpl; [|reflexivity].
  rewrite Hr. rewrite bool_decide_eq_false_2 by (intros [? ?]; discriminate).
  destruct (bool_decide _); reflexivity.
Qed.

(** The comparison of the two dictionaries is the comparison of the four
    fields. *)
Lemma data_differs_iff (r : ProgramRow.t) (p : Program.t) :
  old_data r ≠ new_data p <-> material_differs r p.
Proof.
  unfold material_differs, old_data, new_data. split.
  - intros Hne.
    destruct (decide (ProgramRow.bounty_min r = Program.bounty_min p)) as [E1|]; [|tauto].
    destruct (decide (ProgramRow.bounty_max r = Program.bounty_max p)) as [E2|]; [|tauto].
    destruct (decide (ProgramRow.assets r = Json.dumps (Program.assets p))) as [E3|]; [|tauto].
    destruct (decide (ProgramRow.url r = Program.url p)) as [E4|]; [|tauto].
    exfalso. apply Hne. by rewrite E1, E2, E3, E4.
  - intros Hd Heq.
    assert (H1 := f_equal (lookup "bounty_min") Heq).
    assert (H2 := f_equal (lookup "bounty_max") Heq).
    assert (H3 := f_equal (lookup "assets") Heq).
    assert (H4 := f_equal (lookup "url") Heq).
    simplify_map_eq.
    destruct Hd as [Hd | [Hd | [Hd | Hd]]]; apply Hd.
    + destruct (ProgramRow.bounty_min r), (Program.bounty_min p); simpl in *; congruence.
    + destruct (ProgramRow.bounty_max r), (Program.bounty_max p); simpl in *; congruence.
    + congruence.
    + congruence.
Qed.

End UpsertPaths.

(** ** What an upsert leaves in the store *)
Section UpsertFacts.
Import BountyDatabase.

Lemma upsert_program_clock (p : Program.t) (w : World)
    (r : Result (bool * bool)) (w' : World) :
  upsert_program p w = (r, w') ->
  utc_clock w' = utc_clock w /\ utc_reads w < utc_reads w'
  /\ scrape_logs w' = scrape_logs w.
Proof.
  destruct (programs w !! Program.id p) as [row|] eqn:Hrow.
  - rewrite (upsert_program_existing _ _ _ Hrow).
    destruct (ints_fit p); intros [= <- <-]; simpl; repeat split; lia.
  - rewrite (upsert_program_new _ _ Hrow).
    destruct (negb (ints_fit p)); [intros [= <- <-]; simpl; repeat split; lia|].
    destruct (bool_decide _); intros [= <- <-]; simpl; repeat split; lia.
Qed.

(** A successful upsert leaves, under the identity of the program, a row with
    the fields of the program and a [last_scraped] read from the clock during
    the call. *)
Lemma upsert_program_row (p : Program.t) (w : World) (res : bool * bool) (w' : World) :
  upsert_program p w = (Ok res, w') ->
  exists (row : ProgramRow.t) (k : nat),
    programs w' !! Program.id p = Some row
    /\ holds_material p row /\ holds_other_fields p row
    /\ ProgramRow.last_scraped row = Some (Iso (utc_clock w k))
    /\ k < utc_reads w'.
Proof.
  destruct (programs w !! Program.id p) as [row|] eqn:Hrow.
  - rewrite (upsert_program_existing _ _ _ Hrow).
    destruct (ints_fit p); [|discriminate]. intros [= <- <-].
    eexists _, (utc_reads w). simpl. rewrite lookup_alter_eq, Hrow. simpl.
    split; [reflexivity|]. unfold holds_material, holds_other_fields. simpl.
    repeat split; lia.
  - rewrite (upsert_program_new _ _ Hrow).
    destruct (negb (ints_fit p)); [discriminate|].
    destruct (bool_decide _); [discriminate|]. intros [= <- <-].
    eexists _, (3 + utc_reads w). simpl. rewrite lookup_insert_eq.
    split; [reflexivity|]. unfold holds_material, holds_other_fields. simpl.
    repeat split; lia.
Qed.

Lemma holds_material_differs (earlier p : Program.t) (r : ProgramRow.t) :
  holds_material earlier r ->
  (same_material earlier p -> ~ material_differs r p)
  /\ (Program.bounty_max earlier ≠ Program.bounty_max p -> material_differs r p).
Proof.
  intros (H1 & H2 & H3 & H4). unfold material_differs. split.
  - intros (E1 & E2 & E3 & E4). rewrite H1, H2, H3, H4, E1, E2, E3, E4. tauto.
  - intros Hne. right; left. by rewrite H2.
Qed.

(** C1.  An upsert of a program whose identity is in the catalogue returns
    [is_updated = true] exactly when [bounty_min], [bounty_max], [assets] or
    [url] differs from the stored row; the name, the asset types and the four
    flags of the row are overwritten whatever the answer.  The code compares
    the stored JSON text of the assets with the JSON text of the new list;
    for lists of texts this is the comparison of the lists.  In particular,
    when the stored row was left by an earlier ingestion of the same
    identity, a program that only differs from the earlier one outside the
    material fields (its name, say) gives [is_updated = false], and one with
    another [bounty_max], or with other assets, gives [is_updated = true]. *)
Theorem upsert_existing_is_updated_iff_material
    (w : World) (program : Program.t) (existing : ProgramRow.t) :
  programs w !! Program.id program = Some existing ->
  ints_fit program = true ->
  exists (is_updated : bool) (w' : World) (row : ProgramRow.t),
    upsert_program program w = (Ok (false, is_updated), w')
    /\ (is_updated = true <-> material_differs existing program)
    /\ (forall stored : list string,
          ProgramRow.assets existing = Json.dumps stored ->
          all_text stored = true ->
          all_text (Program.assets program) = true ->
          (is_updated = true <->
             ProgramRow.bounty_min existing ≠ Program.bounty_min program
             \/ ProgramRow.bounty_max existing ≠ Program.bounty_max program
             \/ stored ≠ Program.assets program
             \/ ProgramRow.url existing ≠ Program.url program))
    /\ programs w' !! Program.id program = Some row
    /\ holds_other_fields program row
    /\ (forall (w0 : World) (earlier : Program.t) (res : bool * bool),
          upsert_program earlier w0 = (Ok res, w) ->
          Program.id earlier = Program.id program ->
          (is_updated = true <->
             Program.bounty_min earlier ≠ Program.bounty_min program
             \/ Program.bounty_max earlier ≠ Program.bounty_max program
             \/ Json.dumps (Program.assets earlier) ≠ Json.dumps (Program.assets program)
             \/ Program.url earlier ≠ Program.url program)
          /\ (same_material earlier program -> is_updated = false)
          /\ (Program.bounty_max earlier ≠ Program.bounty_max program ->
              is_updated = true)
          /\ (all_text (Program.assets earlier) = true ->
              all_text (Program.assets program) = true ->
              (is_updated = true <->
                 Program.bounty_min earlier ≠ Program.bounty_min program
                 \/ Program.bounty_max earlier ≠ Program.bounty_max program
                 \/ Program.assets earlier ≠ Program.assets program
                 \/ Program.url earlier ≠ Program.url program)
              /\ (Program.assets earlier ≠ Program.assets program ->
                  is_updated = true))).
Proof.
  intros Hrow Hfit.
  assert (Hiff : bool_decide (old_data existing ≠ new_data program) = true
                 <-> material_differs existing program).
  { rewrite bool_decide_eq_true. apply data_differs_iff. }
  destruct (upsert_program program w) as [r w'] eqn:Hup.
  pose proof Hup as Hup'.
  rewrite (upsert_program_existing _ _ _ Hrow), Hfit in Hup'.
  injection Hup' as <- Hw'.
  destruct (upsert_program_row _ _ _ _ Hup) as (row & k & Hrow' & _ & Hother & _).
  exists (bool_decide (old_data existing ≠ new_data program)), w', row.
  split; [reflexivity|]. split; [exact Hiff|].
  split.
  { intros stored Hstored Ht1 Ht2. rewrite Hiff. unfold material_differs.
    rewrite Hstored, (dumps_differs _ _ Ht1 Ht2). reflexivity. }
  split; [exact Hrow'|]. split; [exact Hother|].
  intros w0 earlier res Hearlier Hid.
  destruct (upsert_program_row _ _ _ _ Hearlier) as (row0 & k0 & Hrow0 & Hmat & _).
  rewrite Hid, Hrow in Hrow0. injection Hrow0 as <-.
  destruct (holds_material_differs earlier program existing Hmat) as [Hsame Hmax].
  assert (Hdumps : bool_decide (old_data existing ≠ new_data program) = true <->
            Program.bounty_min earlier ≠ Program.bounty_min program
            \/ Program.bounty_max earlier ≠ Program.bounty_max program
            \/ Json.dumps (Program.assets earlier) ≠ Json.dumps (Program.assets program)
            \/ Program.url earlier ≠ Program.url program).
  { rewrite Hiff. unfold material_differs.
    destruct Hmat as (-> & -> & -> & ->). reflexivity. }
  split; [exact Hdumps|]. split; [|split].
  - intros Hs. apply not_true_is_false. rewrite Hiff. by apply Hsame.
  - intros Hne. apply Hiff. by apply Hmax.
  - intros Ht1 Ht2. rewrite Hdumps, (dumps_differs _ _ Ht1 Ht2).
    split; [reflexivity|]. intros Hne. right; right; left. exact Hne.
Qed.

Lemma upsert_existing_is_updated_iff_material_witness :
  exists (is_updated : bool) (w' : World) (row : ProgramRow.t),
    upsert_program program_a_renamed world_a = (Ok (false, is_updated), w')
    /\ (is_updated = true <-> material_differs row_a program_a_renamed)
    /\ (forall stored : list string,
          ProgramRow.assets row_a = Json.dumps stored ->
          all_text stored = true ->
          all_text (Program.assets program_a_renamed) = true ->
          (is_updated = true <->
             ProgramRow.bounty_min row_a ≠ Program.bounty_min program_a_renamed
             \/ ProgramRow.bounty_max row_a ≠ Program.bounty_max program_a_renamed
             \/ stored ≠ Program.assets program_a_renamed
             \/ ProgramRow.url row_a ≠ Program.url program_a_renamed))
    /\ programs w' !! Program.id program_a_renamed = Some row
    /\ holds_other_fields program_a_renamed row.
Proof.
  destruct (upsert_existing_is_updated_iff_material world_a program_a_renamed row_a)
    as (is_updated & w' & row & H1 & H2 & H3 & H4 & H5 & _).
  - vm_compute. reflexivity.
  - vm_compute. reflexivity.
  - exists is_updated, w', row. auto.
Defined.

End UpsertFacts.

(** ** Timestamps *)
Section Timestamps.
Import BountyDatabase.

(** C5.  An upsert of an existing identity leaves [first_seen] as it was,
    sets [last_updated] to the time read on entry when a material field
    changed ([bounty_min], [bounty_max], the list of assets or [url]) and
    keeps the stored value otherwise, and sets [last_scraped] to the time
    read on entry in both cases.  When the row was left by an earlier
    ingestion of the same identity and has not been written since, and the
    clock never goes back, the new [last_scraped] is not before the one it
    replaces. *)
Theorem upsert_existing_timestamps
    (w : World) (program : Program.t) (existing : ProgramRow.t) :
  programs w !! Program.id program = Some existing ->
  ints_fit program = true ->
  let now := utc_clock w (utc_reads w) in
  exists (is_updated : bool) (w' : World) (row : ProgramRow.t),
    upsert_program program w = (Ok (false, is_updated), w')
    /\ programs w' !! Program.id program = Some row
    /\ ProgramRow.first_seen row = ProgramRow.first_seen existing
    /\ (is_updated = true <-> material_differs existing program)
    /\ ProgramRow.last_updated row
       = (if is_updated then Some (Iso now) else ProgramRow.last_updated existing)
    /\ ProgramRow.last_scraped row = Some (Iso now)
    /\ (forall stored : list string,
          ProgramRow.assets existing = Json.dumps stored ->
          all_text stored = true ->
          all_text (Program.assets program) = true ->
          (ProgramRow.bounty_min existing ≠ Program.bounty_min program
           \/ ProgramRow.bounty_max existing ≠ Program.bounty_max program
           \/ stored ≠ Program.assets program
           \/ ProgramRow.url existing ≠ Program.url program ->
           ProgramRow.last_updated row = Some (Iso now))
          /\ (ProgramRow.bounty_min existing = Program.bounty_min program ->
              ProgramRow.bounty_max existing = Program.bounty_max program ->
              stored = Program.assets program ->
              ProgramRow.url existing = Program.url program ->
              ProgramRow.last_updated row = ProgramRow.last_updated existing))
    /\ (forall (w0 w1 : World) (earlier : Program.t) (res : bool * bool),
          upsert_program earlier w0 = (Ok res, w1) ->
          Program.id earlier = Program.id program ->
          programs w !! Program.id program = programs w1 !! Program.id program ->
          clock_later w1 w ->
          clock_monotone w ->
          exists before : datetime,
            stamp_time (ProgramRow.last_scraped existing) = Some before
            /\ (before <= now)%Z).
Proof.
  intros Hrow Hfit now.
  assert (Hiff : bool_decide (old_data existing ≠ new_data program) = true
                 <-> material_differs existing program).
  { rewrite bool_decide_eq_true. apply data_differs_iff. }
  exists (bool_decide (old_data existing ≠ new_data program)).
  rewrite (upsert_program_existing _ _ _ Hrow), Hfit.
  eexists _, _. split; [reflexivity|]. simpl.
  rewrite lookup_alter_eq, Hrow. simpl. split; [reflexivity|]. simpl.
  split; [reflexivity|]. split; [exact Hiff|].
  split; [reflexivity|]. split; [reflexivity|].
  split.
  { intros stored Hstored Ht1 Ht2.
    assert (Hlists : bool_decide (old_data existing ≠ new_data program) = true <->
              ProgramRow.bounty_min existing ≠ Program.bounty_min program
              \/ ProgramRow.bounty_max existing ≠ Program.bounty_max program
              \/ stored ≠ Program.assets program
              \/ ProgramRow.url existing ≠ Program.url program).
    { rewrite Hiff. unfold material_differs.
      rewrite Hstored, (dumps_differs _ _ Ht1 Ht2). reflexivity. }
    split.
    - intros Hd. apply Hlists in Hd. by rewrite Hd.
    - intros E1 E2 E3 E4.
      assert (Hf : bool_decide (old_data existing ≠ new_data program) = false).
      { apply not_true_is_false. intros Hb. apply Hlists in Hb. tauto. }
      by rewrite Hf. }
  intros w0 w1 earlier res Hearlier Hid Hsame [Hclock Hreads] Hmono.
  destruct (upsert_program_row _ _ _ _ Hearlier) as (row0 & k & Hrow0 & _ & _ & Hls & Hk).
  destruct (upsert_program_clock _ _ _ _ Hearlier) as (Hc1 & _ & _).
  rewrite Hid, <- Hsame in Hrow0. injection Hrow0 as <-.
  exists (utc_clock w0 k). rewrite Hls. split; [reflexivity|].
  subst now. rewrite <- Hc1, <- Hclock. apply Hmono. lia.
Qed.

(** Scenario C on the store of scenario A: the top bounty is raised. *)
Lemma upsert_existing_timestamps_witness :
  exists (w' : World) (row : ProgramRow.t),
    upsert_program program_a_raised world_a = (Ok (false, true), w')
    /\ programs w' !! Program.id program_a_raised = Some row
    /\ ProgramRow.first_seen row = Some (Iso 1%Z)
    /\ ProgramRow.last_updated row = Some (Iso 4%Z)
    /\ ProgramRow.last_scraped row = Some (Iso 4%Z).
Proof.
  destruct (upsert_existing_timestamps world_a program_a_raised row_a)
    as (is_updated & w' & row & H1 & H2 & H3 & H4 & H5 & H6 & H7 & _).
  - vm_compute. reflexivity.
  - vm_compute. reflexivity.
  - assert (Hup : is_updated = true).
    { apply H4. right; left. discriminate. }
    subst is_updated. exists w', row.
    split; [exact H1|]. split; [exact H2|]. split; [exact H3|].
    split; [exact H5|exact H6].
Defined.

(** On the insert path the row takes its three timestamps from three readings
    of the clock, made one after the other once the time of entry has been
    read. *)
Lemma upsert_new_timestamps (w : World) (program : Program.t)
    (res : bool * bool) (w' : World) :
  programs w !! Program.id program = None ->
  upsert_program program w = (Ok res, w') ->
  res = (true, false)
  /\ exists row : ProgramRow.t,
       programs w' !! Program.id program = Some row
       /\ ProgramRow.first_seen row = Some (Iso (utc_clock w (1 + utc_reads w)))
       /\ ProgramRow.last_updated row = Some (Iso (utc_clock w (2 + utc_reads w)))
       /\ ProgramRow.last_scraped row = Some (Iso (utc_clock w (3 + utc_reads w))).
Proof.
  intros Hnone. rewrite (upsert_program_new _ _ Hnone).
  destruct (negb (ints_fit program)); [discriminate|].
  destruct (bool_decide _); [discriminate|]. intros [= <- <-].
  split; [reflexivity|]. eexists. simpl. rewrite lookup_insert_eq.
  split; [reflexivity|]. simpl. repeat split.
Qed.

(** C6, on the code.  The first ingestion of [program_a] into the empty
    catalogue, with a clock that advances by one microsecond per reading,
    returns [is_new = true] and stores three different timestamps: the row is
    written from the second, third and fourth reading of the call, not from
    the time read on entry. *)
Theorem first_insert_stores_three_readings :
  exists (w' : World) (row : ProgramRow.t),
    upsert_program program_a empty_world = (Ok (true, false), w')
    /\ programs w' !! Program.id program_a = Some row
    /\ ProgramRow.first_seen row = Some (Iso 1%Z)
    /\ ProgramRow.last_updated row = Some (Iso 2%Z)
    /\ ProgramRow.last_scraped row = Some (Iso 3%Z).
Proof.
  assert (Hnone : programs empty_world !! Program.id program_a = None) by reflexivity.
  destruct (upsert_program program_a empty_world) as [r w'] eqn:Hup.
  assert (Hr : r = Ok (true, false)).
  { rewrite (upsert_program_new _ _ Hnone) in Hup. vm_compute in Hup. congruence. }
  subst r.
  destruct (upsert_new_timestamps _ _ _ _ Hnone Hup) as (_ & row & Hrow & H1 & H2 & H3).
  exists w', row. auto.
Qed.

End Timestamps.

(** ** The loop over the fetched programs *)
Section LoopFacts.
Import BountyDatabase Engine.






Lemma same_material_sym (p q : Program.t) : same_material p q -> same_material q p.
Proof. intros (E1 & E2 & E3 & E4). unfold same_material. auto. Qed.









End LoopFacts.

(** ** One run of a scraper *)
Section RunFacts.
Import BountyDatabase Engine.
Context {Net : Type} `{BaseScraper Net}.

(** The loop writes no run log and only reads the clock. *)
Lemma upsert_each_clock (ps : list Program.t) :
  forall (w : World) (n u : nat) (r : Result (nat * nat)) (w1 : World),
    upsert_each ps n u w = (r, w1) ->
    utc_clock w1 = utc_clock w /\ utc_reads w <= utc_reads w1
    /\ scrape_logs w1 = scrape_logs w.
Proof.
  induction ps as [|p ps IH]; intros w n u r w1 Hloop.
  - injection Hloop as <- <-. auto.
  - simpl in Hloop. unfold mbind, M_bind in Hloop.
    destruct (upsert_program p w) as [[[is_new is_updated]|e] w'] eqn:Hp;
      destruct (upsert_program_clock _ _ _ _ Hp) as (Hc & Hr & Hl).
    + assert (Hnext : exists n' u', upsert_each ps n' u' w' = (r, w1)).
      { destruct is_new; [eauto|]. destruct is_updated; eauto. }
      destruct Hnext as (n' & u' & Hnext).
      destruct (IH _ _ _ _ _ Hnext) as (Hc' & Hr' & Hl').
      rewrite Hc', Hl'. repeat split; [done|lia|done].
    + injection Hloop as <- <-. repeat split; [done|lia|done].
Qed.


(** [run] in closed form: the four ways through the [try] statement and the
    call of [log_scrape] that follows it. *)
Lemma run_eq (net : Net) (w : World) :
  run net w =
    let log0 := ScrapeLog.started get_platform_name (utc_clock w (utc_reads w)) in
    match scrape_programs net with
    | Raise e =>
        let log := failed_log log0 e (utc_clock w (1 + utc_reads w)) in
        (Ok log, logged log (tick 2 w))
    | Ok ps =>
        match upsert_each ps 0 0 (tick 1 w) with
        | (Ok (new, updated), w1) =>
            let log := succeeded_log log0 (length ps) new updated
                         (utc_clock w1 (utc_reads w1)) in
            (Ok log, logged log (tick 1 w1))
        | (Raise e, w1) =>
            if holds_write_lock e then (Raise database_locked, tick 1 w1)
            else
              let log := failed_log (ScrapeLog.set_found (length ps) log0) e
                           (utc_clock w1 (utc_reads w1)) in
              (Ok log, logged log (tick 1 w1))
        end
    end.
Proof.
  unfold run, with_log, try_except, run_body, run_handler, mbind, M_bind,
    lift_result, lift_world, lift_upserts, modify_log, modify, log_scrape, utcnow,
    mret, M_ret.
  simpl.
  destruct (scrape_programs net) as [ps|e]; simpl; [|reflexivity].
  change (mkWorld (programs w) (scrape_logs w) (utc_clock w) (S (utc_reads w)))
    with (tick 1 w).
  destruct (upsert_each ps 0 0 (tick 1 w)) as [[[new updated]|e] w1]; [reflexivity|].
  simpl. destruct (holds_write_lock e); reflexivity.
Qed.

(** A run leaves the rows of the run log in place. *)
Lemma run_scrape_logs (net : Net) (w : World) (r : Result ScrapeLog.t) (w' : World) :
  run net w = (r, w') ->
  match r with
  | Ok log => scrape_logs w' = (scrape_logs w ++ [scrape_log_row log])%list
  | Raise e => e = database_locked /\ scrape_logs w' = scrape_logs w
  end.
Proof.
  rewrite run_eq. cbv zeta.
  destruct (scrape_programs net) as [ps|e]; [|by intros [= <- <-]].
  destruct (upsert_each ps 0 0 (tick 1 w)) as [[[new updated]|e] w1] eqn:Hloop;
    destruct (upsert_each_clock _ _ _ _ _ _ Hloop) as (_ & _ & Hlogs).
  - intros [= <- <-]. simpl. by rewrite Hlogs.
  - destruct (holds_write_lock e); intros [= <- <-]; simpl; by rewrite Hlogs.
Qed.




End RunFacts.


(** ** Runs on examples *)
Section RunExamples.
Import BountyDatabase Engine.







End RunExamples.

(** ** The adapters *)
Section AdapterFacts.
Import BountyDatabase Engine.
Variable md5_hexdigest : string -> string.
Variable urlparse : string -> Result ProjectDiscovery.ParseResult.
Variable dollar_amounts : string -> Result (list Z).

Local Abbreviation h1_parse := (HackerOne._parse_program md5_hexdigest).
Local Abbreviation pd_parse :=
  (ProjectDiscovery._parse_program md5_hexdigest urlparse dollar_amounts).
Local Abbreviation H1 := (HackerOne.HackerOneScraper md5_hexdigest).
Local Abbreviation PD :=
  (ProjectDiscovery.ProjectDiscoveryScraper md5_hexdigest urlparse dollar_amounts).

(** [__post_init__] only touches the identity. *)
Lemma post_init_fields (p : Program.t) :
  let q := Program.post_init md5_hexdigest p in
  Program.platform q = Program.platform p
  /\ Program.slug q = Program.slug p
  /\ Program.vdp_only q = Program.vdp_only p
  /\ Program.offers_bounties q = Program.offers_bounties p
  /\ Program.bounty_min q = Program.bounty_min p
  /\ Program.bounty_max q = Program.bounty_max p.
Proof.
  unfold Program.post_init. destruct (PyStr.truthy (Program.id p)); simpl; auto 10.
Qed.

Lemma post_init_empty_id (p : Program.t) :
  Program.id p = "" ->
  Program.id (Program.post_init md5_hexdigest p)
  = String.substring 0 16
      (md5_hexdigest (PyStr.lower (Program.platform p +:+ ":" +:+ Program.slug p))).
Proof. unfold Program.post_init. intros ->. reflexivity. Qed.

(** A run of an adapter whose fetch returns the empty list. *)
Lemma run_empty_fetch {Net : Type} `{BaseScraper Net} (net : Net) (w : World) :
  scrape_programs net = Ok [] ->
  exists (log : ScrapeLog.t) (w' : World),
    run net w = (Ok log, w')
    /\ ScrapeLog.programs_found log = 0
    /\ ScrapeLog.programs_new log = 0
    /\ ScrapeLog.programs_updated log = 0
    /\ ScrapeLog.success log = true
    /\ ScrapeLog.error_message log = None
    /\ programs w' = programs w
    /\ scrape_logs w' = (scrape_logs w ++ [scrape_log_row log])%list.
Proof.
  intros Hfetch. rewrite run_eq, Hfetch. simpl.
  eexists _, _. split; [reflexivity|]. simpl. repeat split.
Qed.

(** C4, as the code has it.  Neither adapter lets a transport failure out of
    [scrape_programs]: ProjectDiscovery returns the empty list when
    [fetch_json] raises, and HackerOne leaves its loop with the programs
    gathered so far, none when the first request raises.  The run of an
    adapter that met the failure before any record counts nothing and leaves
    the catalogue alone, but it is recorded as a success, with no error
    message. *)
Theorem adapter_transport_failure_is_swallowed
    (w : World) (e : exn)
    (reply : option string -> Result HackerOne.Reply) (later : HackerOne.Net)
    (cursor : option string) (gathered : list Program.t) :
  reply (HackerOne.request_variables cursor) = Raise e ->
  (scrape_programs (BaseScraper := PD) (Raise e) = Ok []
   /\ exists (log : ScrapeLog.t) (w' : World),
        run (H := PD) (Raise e) w = (Ok log, w')
        /\ ScrapeLog.programs_found log = 0
        /\ ScrapeLog.programs_new log = 0
        /\ ScrapeLog.programs_updated log = 0
        /\ ScrapeLog.success log = true
        /\ ScrapeLog.error_message log = None
        /\ programs w' = programs w
        /\ scrape_logs w' = (scrape_logs w ++ [scrape_log_row log])%list)
  /\ (HackerOne.scrape_pages md5_hexdigest (reply :: later) cursor gathered = gathered
      /\ (cursor = None ->
          scrape_programs (BaseScraper := H1) (reply :: later) = Ok []
          /\ exists (log : ScrapeLog.t) (w' : World),
               run (H := H1) (reply :: later) w = (Ok log, w')
               /\ ScrapeLog.programs_found log = 0
               /\ ScrapeLog.programs_new log = 0
               /\ ScrapeLog.programs_updated log = 0
               /\ ScrapeLog.success log = true
               /\ ScrapeLog.error_message log = None
               /\ programs w' = programs w
               /\ scrape_logs w' = (scrape_logs w ++ [scrape_log_row log])%list))
  /\ (forall net : ProjectDiscovery.Net,
        exists ps : list Program.t, scrape_programs (BaseScraper := PD) net = Ok ps)
  /\ (forall net : HackerOne.Net,
        exists ps : list Program.t, scrape_programs (BaseScraper := H1) net = Ok ps).
Proof.
  intros Hreply.
  assert (Hpd : scrape_programs (BaseScraper := PD) (Raise e) = Ok []) by reflexivity.
  split; [split; [exact Hpd|by apply run_empty_fetch]|].
  split; [|split; intros net; eexists; reflexivity].
  split; [simpl; by rewrite Hreply|].
  intros ->.
  assert (Hh1 : scrape_programs (BaseScraper := H1) (reply :: later) = Ok []).
  { simpl. simpl in Hreply. by rewrite Hreply. }
  split; [exact Hh1|by apply run_empty_fetch].
Qed.

(** *** Slugs *)

Lemma sub_runs_no_alnum (s : string) :
  no_lower_alnum s = true ->
  PyStr.sub_runs true s = "" /\ (PyStr.sub_runs false s = "" \/ PyStr.sub_runs false s = "-").
Proof.
  unfold no_lower_alnum. induction s as [|c s IH]; simpl; [auto|].
  destruct (PyStr.is_lower_alnum c); simpl; [discriminate|].
  intros Hs. destruct (IH Hs) as [Ht _]. rewrite Ht. auto.
Qed.

Lemma sub_runs_keeps_alnum (s : string) (b : bool) :
  PyStr.existsb_str PyStr.is_lower_alnum (PyStr.sub_runs b s)
  = PyStr.existsb_str PyStr.is_lower_alnum s.
Proof.
  revert b. induction s as [|c s IH]; intros b; simpl; [reflexivity|].
  destruct (PyStr.is_lower_alnum c) eqn:Hc; simpl.
  - by rewrite Hc.
  - destruct b; simpl; by rewrite IH.
Qed.

Lemma lstrip_keeps_alnum (s : string) :
  PyStr.existsb_str PyStr.is_lower_alnum (PyStr.lstrip "-" s)
  = PyStr.existsb_str PyStr.is_lower_alnum s.
Proof.
  induction s as [|c s IH]; simpl; [reflexivity|].
  destruct (Ascii.eqb c "-") eqn:Hc; [|reflexivity].
  apply Ascii.eqb_eq in Hc as ->. simpl. exact IH.
Qed.

Lemma rstrip_keeps_alnum (s : string) :
  PyStr.existsb_str PyStr.is_lower_alnum (PyStr.rstrip "-" s)
  = PyStr.existsb_str PyStr.is_lower_alnum s.
Proof.
  induction s as [|c s IH]; simpl; [reflexivity|].
  destruct (PyStr.rstrip "-" s) as [|c' s'] eqn:Hr.
  - simpl in IH. rewrite <- IH.
    destruct (Ascii.eqb c "-") eqn:Hc; simpl.
    + apply Ascii.eqb_eq in Hc as ->. reflexivity.
    + by rewrite orb_false_r.
  - simpl. simpl in IH. by rewrite IH.
Qed.

(** The slug of a text is empty exactly when its lower-case form has no
    character of [[a-z0-9]]. *)
Lemma slugify_empty_iff (s : string) :
  ProjectDiscovery.slugify s = "" <-> no_lower_alnum (PyStr.lower s) = true.
Proof.
  unfold ProjectDiscovery.slugify, PyStr.re_sub_non_alnum, PyStr.strip. split.
  - intros Hslug. unfold no_lower_alnum.
    rewrite <- (sub_runs_keeps_alnum _ false), <- lstrip_keeps_alnum,
      <- rstrip_keeps_alnum, Hslug. reflexivity.
  - intros Hno. destruct (sub_runs_no_alnum _ Hno) as [_ [-> | ->]]; reflexivity.
Qed.

(** *** The ProjectDiscovery parser on an entry without a URL *)

Lemma pd_parse_empty_url (item : ProjectDiscovery.Item) (p : Program.t) :
  default "" (ProjectDiscovery.url item) = "" ->
  pd_parse item = Ok p ->
  Program.platform p = "unknown"
  /\ Program.slug p
     = ProjectDiscovery.slugify (default "" (ProjectDiscovery.name item))
  /\ Program.id p
     = String.substring 0 16
         (md5_hexdigest (PyStr.lower ("unknown" +:+ ":" +:+ Program.slug p))).
Proof.
  intros Hurl. unfold ProjectDiscovery._parse_program. rewrite Hurl. simpl.
  destruct (ProjectDiscovery.classify_bounty _ _) as [[[bmin bmax] vdp]|e];
    [|discriminate].
  intros [= <-].
  match goal with |- context [Program.post_init _ ?q] =>
    destruct (post_init_fields q) as (Hpf & Hsl & _);
    pose proof (post_init_empty_id q eq_refl) as Hid
  end.
  rewrite Hpf, Hsl, Hid. simpl. auto.
Qed.

(** C8, as the code has it.  The HackerOne parser sets [vdp_only] to the
    negation of the [offers_bounties] flag of the node and reads a missing
    flag as false: a node without the flag is VDP-only and never paid.  The
    ProjectDiscovery parser sets [vdp_only] when the lower-cased bounty text
    holds [no] or [swag] and neither [yes] nor a dollar sign, and sets
    [offers_bounties] to its negation: an entry without a bounty text is not
    VDP-only and offers bounties. *)
Theorem parsers_classify_vdp_only
    (node : HackerOne.Node) (item : ProjectDiscovery.Item) (p : Program.t) :
  pd_parse item = Ok p ->
  (Program.offers_bounties (h1_parse node)
   = default false (HackerOne.offers_bounties node)
   /\ Program.vdp_only (h1_parse node)
      = negb (default false (HackerOne.offers_bounties node))
   /\ (HackerOne.offers_bounties node = None ->
       Program.vdp_only (h1_parse node) = true
       /\ Program.offers_bounties (h1_parse node) = false))
  /\ (Program.vdp_only p
      = says_no_bounty (PyStr.lower (default "" (ProjectDiscovery.bounty item)))
      /\ Program.offers_bounties p = negb (Program.vdp_only p)
      /\ (ProjectDiscovery.bounty item = None ->
          Program.vdp_only p = false /\ Program.offers_bounties p = true)).
Proof.
  intros Hparse. split.
  - unfold HackerOne._parse_program.
    match goal with |- context [Program.post_init _ ?q] =>
      destruct (post_init_fields q) as (_ & _ & Hv & Ho & _)
    end.
    rewrite Hv, Ho. simpl. split; [reflexivity|]. split; [reflexivity|].
    intros ->. auto.
  - assert (Hv : Program.vdp_only p
                 = says_no_bounty (PyStr.lower (default "" (ProjectDiscovery.bounty item)))
                 /\ Program.offers_bounties p = negb (Program.vdp_only p)).
    { revert Hparse. unfold ProjectDiscovery._parse_program.
      destruct (ProjectDiscovery._detect_platform _ _) as [pf|e]; [|discriminate].
      destruct (ProjectDiscovery._generate_slug _ _ _) as [sl|e]; [|discriminate].
      destruct (ProjectDiscovery.classify_bounty _ _) as [[[bmin bmax] vdp]|e] eqn:Hc;
        [|discriminate].
      intros [= <-].
      match goal with |- context [Program.post_init _ ?q] =>
        destruct (post_init_fields q) as (_ & _ & Hv & Ho & _)
      end.
      rewrite Hv, Ho. simpl. split; [|reflexivity].
      revert Hc. unfold ProjectDiscovery.classify_bounty, says_no_bounty.
      destruct (PyStr.contains "yes" _ || PyStr.contains "$" _); simpl.
      - destruct (dollar_amounts _) as [[|a [|b l]]|e']; intros [= _ _ <-]; reflexivity.
      - destruct (PyStr.contains "no" _ || PyStr.contains "swag" _);
          intros [= _ _ <-]; reflexivity. }
    destruct Hv as [Hv Ho]. split; [exact Hv|]. split; [exact Ho|].
    intros Hb. rewrite Ho, Hv, Hb. split; reflexivity.
Qed.

(** C10, as the code has it.  A ProjectDiscovery entry without a URL gets the
    platform [unknown] and the slug of its name: the lower-cased name with
    every run of characters outside [[a-z0-9]] turned into a hyphen and the
    hyphens at both ends removed.  That slug is empty exactly when the
    lower-cased name has no character of [[a-z0-9]]; all such entries get the
    identity made from [unknown:], and the upsert of one after another writes
    the row of the first: no identity is added to the catalogue. *)
Theorem projectdiscovery_entries_without_url
    (item : ProjectDiscovery.Item) (p : Program.t) :
  default "" (ProjectDiscovery.url item) = "" ->
  pd_parse item = Ok p ->
  let name := default "" (ProjectDiscovery.name item) in
  Program.platform p = "unknown"
  /\ Program.slug p = PyStr.strip "-" (PyStr.re_sub_non_alnum (PyStr.lower name))
  /\ (Program.slug p = "" <-> no_lower_alnum (PyStr.lower name) = true)
  /\ (no_lower_alnum (PyStr.lower name) = true ->
      Program.id p = String.substring 0 16 (md5_hexdigest "unknown:")
      /\ forall (item' : ProjectDiscovery.Item) (p' : Program.t),
           default "" (ProjectDiscovery.url item') = "" ->
           pd_parse item' = Ok p' ->
           no_lower_alnum (PyStr.lower (default "" (ProjectDiscovery.name item'))) = true ->
           Program.id p' = Program.id p
           /\ forall (w : World) (res : bool * bool) (w1 : World)
                     (r2 : Result (bool * bool)) (w2 : World),
                upsert_program p w = (Ok res, w1) ->
                upsert_program p' w1 = (r2, w2) ->
                dom (programs w2) = dom (programs w1)
                /\ forall res2 : bool * bool,
                     r2 = Ok res2 ->
                     fst res2 = false
                     /\ exists row : ProgramRow.t,
                          programs w2 !! Program.id p = Some row
                          /\ ProgramRow.name row = Program.name p').
Proof.
  intros Hurl Hparse name.
  destruct (pd_parse_empty_url item p Hurl Hparse) as (Hpf & Hsl & Hid).
  split; [exact Hpf|]. split; [exact Hsl|].
  split; [rewrite Hsl; apply slugify_empty_iff|].
  intros Hno.
  assert (Hempty : Program.slug p = "") by (rewrite Hsl; by apply slugify_empty_iff).
  assert (Hidp : Program.id p = String.substring 0 16 (md5_hexdigest "unknown:")).
  { rewrite Hid, Hempty. reflexivity. }
  split; [exact Hidp|].
  intros item' p' Hurl' Hparse' Hno'.
  destruct (pd_parse_empty_url item' p' Hurl' Hparse') as (_ & Hsl' & Hid').
  assert (Hempty' : Program.slug p' = "") by (rewrite Hsl'; by apply slugify_empty_iff).
  assert (Hsame : Program.id p' = Program.id p).
  { rewrite Hid', Hempty', Hidp. reflexivity. }
  split; [exact Hsame|].
  intros w res w1 r2 w2 Hup Hup'.
  destruct (upsert_program_row _ _ _ _ Hup) as (row & _ & Hrow & _).
  rewrite <- Hsame in Hrow.
  rewrite (upsert_program_existing _ _ _ Hrow) in Hup'.
  destruct (ints_fit p').
  - injection Hup' as <- <-. simpl. split; [apply dom_alter_L|].
    intros res2 [= <-]. split; [reflexivity|].
    eexists. rewrite <- Hsame, lookup_alter_eq, Hrow. simpl. split; reflexivity.
  - injection Hup' as <- <-. split; [reflexivity|]. intros res2. discriminate.
Qed.

End AdapterFacts.

Lemma adapter_transport_failure_is_swallowed_witness :
  (fun _ : option string => @Raise HackerOne.Reply connection_error) None
  = Raise connection_error
  /\ exists (log : ScrapeLog.t) (w' : World),
       Engine.run (H := HackerOne.HackerOneScraper (fun s => s))
         [fun _ => Raise connection_error] empty_world = (Ok log, w')
       /\ ScrapeLog.success log = true.
Proof.
  split; [reflexivity|].
  destruct (adapter_transport_failure_is_swallowed (fun s => s) no_urlparse no_amounts
              empty_world connection_error (fun _ => Raise connection_error) []
              None [] eq_refl)
    as (_ & (_ & Hh1) & _).
  destruct (Hh1 eq_refl) as (_ & log & w' & Hrun & _ & _ & _ & Hs & _).
  exists log, w'. auto.
Defined.

(** C4, as stated, fails: the ProjectDiscovery fetch meets a connection
    error before any record, and the run is logged as a success, whatever the
    library functions of the adapter do. *)
Lemma adapter_transport_failure_counterexample :
  exists net : ProjectDiscovery.Net,
    net = Raise connection_error
    /\ forall (md5_hexdigest : string -> string)
              (urlparse : string -> Result ProjectDiscovery.ParseResult)
              (dollar_amounts : string -> Result (list Z)),
         exists (log : ScrapeLog.t) (w' : World),
           Engine.run
             (H := ProjectDiscovery.ProjectDiscoveryScraper md5_hexdigest urlparse
                     dollar_amounts)
             net empty_world = (Ok log, w')
           /\ ScrapeLog.programs_found log = 0
           /\ ScrapeLog.success log = true
           /\ ScrapeLog.error_message log = None
           /\ ScrapeLogRow.success <$> scrape_logs w' = [1%Z].
Proof.
  exists (Raise connection_error). split; [reflexivity|].
  intros md5_hexdigest urlparse dollar_amounts.
  eexists _, _. split; [reflexivity|]. repeat split.
Qed.

Lemma parsers_classify_vdp_only_witness :
  exists p : Program.t,
    ProjectDiscovery._parse_program (fun s => s) no_urlparse no_amounts
      (bare_item "Acme") = Ok p
    /\ Program.vdp_only p = false
    /\ Program.offers_bounties p = true
    /\ Program.vdp_only (HackerOne._parse_program (fun s => s) bare_node) = true.
Proof.
  destruct (ProjectDiscovery._parse_program (fun s => s) no_urlparse no_amounts
              (bare_item "Acme")) as [p|e] eqn:Hparse; [|vm_compute in Hparse; discriminate].
  destruct (parsers_classify_vdp_only (fun s => s) no_urlparse no_amounts
              bare_node (bare_item "Acme") p Hparse)
    as [(_ & _ & Hh1) (_ & _ & Hpd)].
  exists p. split; [reflexivity|].
  destruct (Hpd eq_refl) as [Hv Ho]. destruct (Hh1 eq_refl) as [Hv' _]. auto.
Defined.

(** C8, as stated, fails on both halves: a HackerOne node that says nothing
    about bounties is classified VDP-only, and a ProjectDiscovery entry that
    says nothing about bounties is classified as offering them, whatever the
    library functions of the adapters do. *)
Lemma parsers_classify_vdp_only_counterexample :
  (HackerOne.offers_bounties bare_node = None
   /\ forall md5_hexdigest : string -> string,
        Program.vdp_only (HackerOne._parse_program md5_hexdigest bare_node) = true)
  /\ (ProjectDiscovery.bounty (bare_item "Acme") = None
      /\ forall (md5_hexdigest : string -> string)
                (urlparse : string -> Result ProjectDiscovery.ParseResult)
                (dollar_amounts : string -> Result (list Z)),
           exists p : Program.t,
             ProjectDiscovery._parse_program md5_hexdigest urlparse dollar_amounts
               (bare_item "Acme") = Ok p
             /\ Program.vdp_only p = false
             /\ Program.offers_bounties p = true).
Proof.
  split; (split; [reflexivity|]).
  - intros md5_hexdigest. reflexivity.
  - intros md5_hexdigest urlparse dollar_amounts.
    eexists. split; [reflexivity|]. split; reflexivity.
Qed.

Lemma projectdiscovery_entries_without_url_witness :
  exists p : Program.t,
    default "" (ProjectDiscovery.url (bare_item "!!!")) = ""
    /\ ProjectDiscovery._parse_program (fun s => s) no_urlparse no_amounts
         (bare_item "!!!") = Ok p
    /\ Program.platform p = "unknown"
    /\ Program.slug p = "".
Proof.
  destruct (ProjectDiscovery._parse_program (fun s => s) no_urlparse no_amounts
              (bare_item "!!!")) as [p|e] eqn:Hparse; [|vm_compute in Hparse; discriminate].
  destruct (projectdiscovery_entries_without_url (fun s => s) no_urlparse no_amounts
              (bare_item "!!!") p eq_refl Hparse)
    as (Hpf & _ & Hslug & _).
  exists p. split; [reflexivity|]. split; [reflexivity|]. split; [exact Hpf|].
  apply Hslug. reflexivity.
Defined.

(** C10, as stated, fails: the name is the one character U+212A (KELVIN
    SIGN), which is no ASCII letter or digit, and the slug is [k], whatever
    the library functions of the adapter do. *)
Lemma projectdiscovery_entries_without_url_counterexample :
  no_ascii_alnum PyStr.kelvin_sign = true
  /\ ProjectDiscovery.url (bare_item PyStr.kelvin_sign) = None
  /\ forall (md5_hexdigest : string -> string)
            (urlparse : string -> Result ProjectDiscovery.ParseResult)
            (dollar_amounts : string -> Result (list Z)),
       exists p : Program.t,
         ProjectDiscovery._parse_program md5_hexdigest urlparse dollar_amounts
           (bare_item PyStr.kelvin_sign) = Ok p
         /\ Program.platform p = "unknown"
         /\ Program.slug p = "k".
Proof.
  split; [reflexivity|]. split; [reflexivity|].
  intros md5_hexdigest urlparse dollar_amounts.
  eexists. split; [reflexivity|]. split; reflexivity.
Qed.

(** ** The scheduler and its threads *)
Section SchedulerFacts.
Import Scheduler.

Lemma in_flight_le_size (platform : string) (runs : gmap nat string) :
  in_flight platform runs <= size runs.
Proof. unfold in_flight. apply map_subseteq_size, map_filter_subseteq. Qed.

(** The events of one thread leave no run of another thread. *)
Lemma steps_one_thread (t : nat) (events : list event) :
  (forall e : event, e ∈ events -> thread_of e = t) ->
  forall runs : gmap nat string,
    dom runs ⊆ {[t]} -> dom (steps events runs) ⊆ {[t]}.
Proof.
  induction events as [|e events IH]; intros Hev runs Hdom; [exact Hdom|].
  simpl. apply IH; [intros e' He'; apply Hev; by right|].
  assert (He : thread_of e = t) by (apply Hev; left).
  destruct e as [t' platform|t']; simpl in *; subst t'.
  - destruct (runs !! t); [exact Hdom|].
    case_bool_decide; [|exact Hdom]. rewrite dom_insert_L.
    apply union_least; [reflexivity|exact Hdom].
  - rewrite dom_delete_L. intros x Hx. apply Hdom.
    apply elem_of_difference in Hx as [Hx _]. exact Hx.
Qed.

(** Every event of the background loop is an event of its thread. *)
Lemma elem_of_repeated {A : Type} (l : list A) (n : nat) (x : A) :
  x ∈ concat (replicate n l) -> x ∈ l.
Proof.
  induction n as [|n IH]; cbn [replicate concat]; intros Hx.
  - by apply elem_of_nil in Hx.
  - apply elem_of_app in Hx as [Hx | Hx]; [exact Hx|by apply IH].
Qed.

Lemma calls_and_returns_thread (t : nat) (platforms : list string) (e : event) :
  e ∈ flat_map (fun platform => [Call t platform; Return t]) platforms ->
  thread_of e = t.
Proof.
  induction platforms as [|platform platforms IH]; cbn [flat_map]; intros He.
  - by apply elem_of_nil in He.
  - apply elem_of_app in He as [He | He]; [|by apply IH].
    apply elem_of_cons in He as [-> | He]; [reflexivity|].
    apply elem_of_cons in He as [-> | He]; [reflexivity|].
    by apply elem_of_nil in He.
Qed.

Lemma loop_events_thread (t : nat) (passes : nat) (e : event) :
  e ∈ loop_events t passes -> thread_of e = t.
Proof.
  unfold loop_events. intros He. apply elem_of_repeated in He.
  exact (calls_and_returns_thread t _ e He).
Qed.

(** C9, as the code has it.  [run_scraper] tests nothing but the name of the
    platform: a call for a configured platform by a thread that is not inside
    a run starts one, whatever is in flight, and the number of runs of that
    platform in flight grows by one.  A thread is inside one run at a time, so
    when every call comes from one thread at most one run is in flight; this
    is so at every moment of the background loop, whose thread makes one pass
    after the other. *)
Theorem trigger_starts_a_run_whatever_is_in_flight
    (runs : gmap nat string) (t : nat) (platform : string) :
  runs !! t = None ->
  platform ∈ scrapers ->
  step runs (Call t platform) = <[t := platform]> runs
  /\ in_flight platform (step runs (Call t platform)) = S (in_flight platform runs)
  /\ (forall events : list event,
        (forall e : event, e ∈ events -> thread_of e = t) ->
        in_flight platform (steps events ∅) <= 1)
  /\ (forall passes k : nat,
        in_flight platform (steps (take k (loop_events t passes)) ∅) <= 1).
Proof.
  intros Hidle Hknown.
  assert (Hstep : step runs (Call t platform) = <[t := platform]> runs).
  { simpl. rewrite Hidle. by rewrite bool_decide_eq_true_2. }
  assert (Hone : forall events : list event,
             (forall e : event, e ∈ events -> thread_of e = t) ->
             in_flight platform (steps events ∅) <= 1).
  { intros events Hev.
    pose proof (steps_one_thread t events Hev ∅) as Hdom.
    rewrite dom_empty_L in Hdom. specialize (Hdom (empty_subseteq _)).
    etrans; [apply in_flight_le_size|].
    rewrite <- size_dom. etrans; [apply (subseteq_size _ _ Hdom)|].
    by rewrite size_singleton. }
  split; [exact Hstep|]. split; [|split; [exact Hone|]].
  - rewrite Hstep. unfold in_flight.
    rewrite map_filter_insert_True by reflexivity.
    apply map_size_insert_None. apply map_lookup_filter_None. by left.
  - intros passes k. apply Hone. intros e He.
    apply (loop_events_thread t passes). by apply (subseteq_take k).
Qed.

Lemma trigger_starts_a_run_whatever_is_in_flight_witness :
  ({[ 0 := "hackerone" ]} : gmap nat string) !! 1 = None
  /\ "hackerone" ∈ scrapers
  /\ in_flight "hackerone" (step {[ 0 := "hackerone" ]} (Call 1 "hackerone")) = 2.
Proof.
  assert (Hidle : ({[ 0 := "hackerone" ]} : gmap nat string) !! 1 = None)
    by reflexivity.
  assert (Hknown : "hackerone" ∈ scrapers) by (apply elem_of_singleton; reflexivity).
  split; [exact Hidle|]. split; [exact Hknown|].
  destruct (trigger_starts_a_run_whatever_is_in_flight
              {[ 0 := "hackerone" ]} 1 "hackerone" Hidle Hknown) as (_ & Hin & _).
  rewrite Hin. reflexivity.
Defined.

(** C9, as stated, fails: a second thread calls [run_scraper] for the
    platform while the run of the first is in flight, and both runs are in
    flight; the second call is neither skipped nor queued. *)
Lemma trigger_while_running_counterexample :
  in_flight "hackerone" (steps [Call 0 "hackerone"] ∅) = 1
  /\ in_flight "hackerone" (steps [Call 0 "hackerone"; Call 1 "hackerone"] ∅) = 2
  /\ steps [Call 0 "hackerone"; Call 1 "hackerone"] ∅ !! 1 = Some "hackerone".
Proof. repeat split; vm_compute; reflexivity. Qed.

End SchedulerFacts.

(** ** Further properties of the store, the slugs and the scheduler *)
Section Further.
Import BountyDatabase Engine.

(** X1.  A first insert that returns gives [(True, False)] and writes the
    second, third and fourth reading of the clock made by the call to
    [first_seen], [last_updated] and [last_scraped], the first reading being
    the time of entry; with a clock that never goes back the three are in
    that order, and all are at or after the time read on entry. *)
Theorem first_insert_timestamps_in_order (w : World) (program : Program.t)
    (res : bool * bool) (w' : World) :
  programs w !! Program.id program = None ->
  upsert_program program w = (Ok res, w') ->
  let now := utc_clock w (utc_reads w) in
  let seen := utc_clock w (1 + utc_reads w) in
  let updated := utc_clock w (2 + utc_reads w) in
  let scraped := utc_clock w (3 + utc_reads w) in
  res = (true, false)
  /\ utc_reads w' = 4 + utc_reads w
  /\ (exists row : ProgramRow.t,
        programs w' !! Program.id program = Some row
        /\ ProgramRow.first_seen row = Some (Iso seen)
        /\ ProgramRow.last_updated row = Some (Iso updated)
        /\ ProgramRow.last_scraped row = Some (Iso scraped))
  /\ (clock_monotone w -> (now <= seen <= updated)%Z /\ (updated <= scraped)%Z).
Proof.
  intros Hnone Hup now seen updated scraped.
  destruct (upsert_new_timestamps _ _ _ _ Hnone Hup) as (-> & row & Hrow & H1 & H2 & H3).
  split; [reflexivity|]. split.
  { rewrite (upsert_program_new _ _ Hnone) in Hup.
    destruct (negb (ints_fit program)); [discriminate|].
    destruct (bool_decide _); [discriminate|]. by injection Hup as <-. }
  split; [exists row; auto|].
  intros Hmono. repeat split; apply Hmono; lia.
Qed.

Lemma first_insert_timestamps_in_order_witness :
  programs empty_world !! Program.id program_b = None
  /\ exists (w' : World) (row : ProgramRow.t),
       upsert_program program_b empty_world = (Ok (true, false), w')
       /\ programs w' !! Program.id program_b = Some row
       /\ ProgramRow.first_seen row = Some (Iso 1%Z)
       /\ ProgramRow.last_updated row = Some (Iso 2%Z)
       /\ ProgramRow.last_scraped row = Some (Iso 3%Z).
Proof.
  assert (Hnone : programs empty_world !! Program.id program_b = None) by reflexivity.
  split; [exact Hnone|].
  destruct (upsert_program program_b empty_world) as [r w'] eqn:Hup.
  assert (Hr : exists res, r = Ok res).
  { rewrite (upsert_program_new _ _ Hnone) in Hup. vm_compute in Hup.
    injection Hup as <- _. eauto. }
  destruct Hr as [res ->].
  destruct (first_insert_timestamps_in_order empty_world program_b res w' Hnone Hup)
    as (-> & _ & (row & Hrow & H1 & H2 & H3) & _).
  exists w', row. auto.
Defined.


(** X3.  The slug that the ProjectDiscovery adapter derives from a text is
    empty exactly when the lower-cased text has no character of [[a-z0-9]]. *)
Theorem slug_empty_iff_no_lower_alnum (s : string) :
  ProjectDiscovery.slugify s = "" <-> no_lower_alnum (PyStr.lower s) = true.
Proof. split; intros Hs; by apply slugify_empty_iff. Qed.

End Further.

(** ** Invariants of the catalogue under upserts and runs *)
Section StoreInvariants.
Import BountyDatabase Engine.

(** What every upsert keeps, the loop keeps. *)
Lemma upsert_each_invariant (P : World -> Prop) :
  (forall (p : Program.t) (w : World) (r : Result (bool * bool)) (w' : World),
     P w -> upsert_program p w = (r, w') -> P w') ->
  forall (ps : list Program.t) (n u : nat) (w : World)
         (r : Result (nat * nat)) (w' : World),
    P w -> upsert_each ps n u w = (r, w') -> P w'.
Proof.
  intros Hstep ps. induction ps as [|p ps IH]; intros n u w r w' HP Hloop.
  - injection Hloop as _ <-. exact HP.
  - simpl in Hloop. unfold mbind, M_bind in Hloop.
    destruct (upsert_program p w) as [[[is_new is_updated]|e] w1] eqn:Hp.
    + pose proof (Hstep _ _ _ _ HP Hp) as HP1.
      destruct is_new; [eauto|]. destruct is_updated; eauto.
    + injection Hloop as _ <-. eauto.
Qed.

(** What every upsert, every reading of the clock and every row added to the
    run log keep, a run keeps. *)
Lemma run_invariant {Net : Type} `{BaseScraper Net} (P : World -> Prop) :
  (forall (p : Program.t) (w : World) (r : Result (bool * bool)) (w' : World),
     P w -> upsert_program p w = (r, w') -> P w') ->
  (forall (n : nat) (w : World), P w -> P (tick n w)) ->
  (forall (log : ScrapeLog.t) (w : World), P w -> P (logged log w)) ->
  forall (net : Net) (w : World), P w -> P (snd (run net w)).
Proof.
  intros Hup Htick Hlog net w HP. rewrite run_eq. cbv zeta.
  destruct (scrape_programs net) as [ps|e]; simpl; [|by apply Hlog, Htick].
  destruct (upsert_each ps 0 0 (tick 1 w)) as [[[n u]|e] w1] eqn:Hloop;
    pose proof (upsert_each_invariant P Hup _ _ _ _ _ _ (Htick 1 w HP) Hloop) as HP1;
    [|destruct (holds_write_lock e)]; simpl; auto.
Qed.

Lemma same_identity_refl (r : ProgramRow.t) : same_identity r r.
Proof. by repeat split. Qed.

Lemma same_identity_trans (r1 r2 r3 : ProgramRow.t) :
  same_identity r1 r2 -> same_identity r2 r3 -> same_identity r1 r3.
Proof.
  intros (A1 & A2 & A3 & A4) (B1 & B2 & B3 & B4).
  repeat split; congruence.
Qed.

(** An upsert keeps every row under its key, with its identity columns. *)
Lemma upsert_program_keeps_rows (p : Program.t) (w : World)
    (res : Result (bool * bool)) (w' : World) (i : string) (r : ProgramRow.t) :
  upsert_program p w = (res, w') ->
  programs w !! i = Some r ->
  exists r' : ProgramRow.t, programs w' !! i = Some r' /\ same_identity r r'.
Proof.
  intros Hup Hi.
  destruct (programs w !! Program.id p) as [row|] eqn:Hrow.
  - rewrite (upsert_program_existing _ _ _ Hrow) in Hup.
    destruct (ints_fit p); injection Hup as _ <-; simpl;
      [|exists r; split; [exact Hi|apply same_identity_refl]].
    destruct (decide (i = Program.id p)) as [->|Hne].
    + rewrite lookup_alter_eq, Hrow. rewrite Hrow in Hi. injection Hi as <-.
      eexists. split; [reflexivity|]. by repeat split.
    + rewrite lookup_alter_ne by congruence.
      exists r; split; [exact Hi|apply same_identity_refl].
  - rewrite (upsert_program_new _ _ Hrow) in Hup.
    destruct (negb (ints_fit p));
      [injection Hup as _ <-; exists r; split; [exact Hi|apply same_identity_refl]|].
    destruct (bool_decide _);
      injection Hup as _ <-; simpl;
      [exists r; split; [exact Hi|apply same_identity_refl]|].
    rewrite lookup_insert_ne by congruence.
    exists r; split; [exact Hi|apply same_identity_refl].
Qed.

(** X5.  A run never deletes a row of the catalogue and never changes the
    [id], [platform], [slug] or [first_seen] of a row, whatever the adapter
    fetches and whether the run returns its log, of a success or of a
    failure, or raises. *)
Theorem run_keeps_rows {Net : Type} `{BaseScraper Net} (net : Net) (w : World)
    (i : string) (row : ProgramRow.t) (r : Result ScrapeLog.t) (w' : World) :
  programs w !! i = Some row ->
  run net w = (r, w') ->
  exists row' : ProgramRow.t,
    programs w' !! i = Some row' /\ same_identity row row'.
Proof.
  intros Hi Hrun.
  pose proof (run_invariant
    (fun w1 => exists r', programs w1 !! i = Some r' /\ same_identity row r')) as Hinv.
  replace w' with (snd (run net w)) by (by rewrite Hrun).
  apply Hinv.
  - intros p w0 r0 w1 (r1 & Hr1 & Hs1) Hup.
    destruct (upsert_program_keeps_rows _ _ _ _ _ _ Hup Hr1) as (r2 & Hr2 & Hs2).
    exists r2. split; [exact Hr2|]. eapply same_identity_trans; eauto.
  - intros n w0 Hw0. exact Hw0.
  - intros l w0 Hw0. exact Hw0.
  - exists row. split; [exact Hi|apply same_identity_refl].
Qed.

(** The row of scenario A through a run that updates it and through a run
    that raises. *)
Lemma run_keeps_rows_witness :
  exists (log : ScrapeLog.t) (w1 w2 : World) (row1 row2 : ProgramRow.t),
    run (H := ListScraper "x") [program_a_raised; program_b] world_a = (Ok log, w1)
    /\ programs w1 !! "x-a" = Some row1
    /\ same_identity row_a row1
    /\ run (H := ListScraper "x") [program_a_twin] world_a = (Raise database_locked, w2)
    /\ programs w2 !! "x-a" = Some row2
    /\ same_identity row_a row2.
Proof.
  destruct (run (H := ListScraper "x") [program_a_raised; program_b] world_a)
    as [r1 w1] eqn:Hrun1.
  destruct (run (H := ListScraper "x") [program_a_twin] world_a) as [r2 w2] eqn:Hrun2.
  destruct (run_keeps_rows (H := ListScraper "x") _ world_a "x-a" row_a _ _ eq_refl Hrun1)
    as (row1 & Hrow1 & Hsame1).
  destruct (run_keeps_rows (H := ListScraper "x") _ world_a "x-a" row_a _ _ eq_refl Hrun2)
    as (row2 & Hrow2 & Hsame2).
  pose proof Hrun1 as E1. vm_compute in E1. injection E1 as <- _.
  pose proof Hrun2 as E2. vm_compute in E2. injection E2 as <- _.
  eexists _, w1, w2, row1, row2. auto 10.
Defined.

(** An upsert keeps the constraints of the table. *)
Lemma upsert_program_constraints (p : Program.t) (w : World)
    (res : Result (bool * bool)) (w' : World) :
  table_constraints (programs w) ->
  upsert_program p w = (res, w') ->
  table_constraints (programs w').
Proof.
  intros [Hkey Huniq] Hup.
  destruct (programs w !! Program.id p) as [row|] eqn:Hrow.
  - rewrite (upsert_program_existing _ _ _ Hrow) in Hup.
    destruct (ints_fit p); injection Hup as _ <-; simpl; [|by split].
    assert (Hback : forall i r',
              alter (updated_row (Iso (utc_clock w (utc_reads w)))
                       (bool_decide (old_data row ≠ new_data p))
                       (ProgramRow.last_updated row) p) (Program.id p) (programs w) !! i
              = Some r' ->
              exists r, programs w !! i = Some r /\ same_identity r r').
    { intros i r' Hi. destruct (decide (i = Program.id p)) as [->|Hne].
      - rewrite lookup_alter_eq, Hrow in Hi. injection Hi as <-.
        exists row. split; [exact Hrow|]. by repeat split.
      - rewrite lookup_alter_ne in Hi by congruence.
        exists r'. split; [exact Hi|apply same_identity_refl]. }
    split.
    + intros i r' Hi. destruct (Hback _ _ Hi) as (r & Hr & (E1 & _)).
      rewrite E1. eauto.
    + intros i j r1 r2 Hi Hj Hpf Hsl.
      destruct (Hback _ _ Hi) as (r1' & Hr1 & (_ & E2 & E3 & _)).
      destruct (Hback _ _ Hj) as (r2' & Hr2 & (_ & F2 & F3 & _)).
      apply (Huniq i j r1' r2' Hr1 Hr2); congruence.
  - rewrite (upsert_program_new _ _ Hrow) in Hup.
    destruct (negb (ints_fit p)); [injection Hup as _ <-; by split|].
    destruct (bool_decide _) eqn:Htaken; injection Hup as _ <-; simpl; [by split|].
    apply bool_decide_eq_false in Htaken.
    assert (Hfree : forall j r, programs w !! j = Some r ->
              ProgramRow.platform r = Program.platform p ->
              ProgramRow.slug r = Program.slug p -> False).
    { intros j r Hj Hpf Hsl. apply Htaken. exists j, r. auto. }
    split.
    + intros i r Hi. destruct (decide (i = Program.id p)) as [->|Hne].
      * rewrite lookup_insert_eq in Hi. by injection Hi as <-.
      * rewrite lookup_insert_ne in Hi by congruence. eauto.
    + intros i j r1 r2 Hi Hj Hpf Hsl.
      destruct (decide (i = Program.id p)) as [->|Hi'];
        destruct (decide (j = Program.id p)) as [->|Hj']; [reflexivity| | |].
      * rewrite lookup_insert_eq in Hi. injection Hi as <-.
        rewrite lookup_insert_ne in Hj by congruence.
        exfalso. apply (Hfree j r2 Hj); simpl in *; congruence.
      * rewrite lookup_insert_eq in Hj. injection Hj as <-.
        rewrite lookup_insert_ne in Hi by congruence.
        exfalso. apply (Hfree i r1 Hi); simpl in *; congruence.
      * rewrite lookup_insert_ne in Hi by congruence.
        rewrite lookup_insert_ne in Hj by congruence. eauto.
Qed.

(** X6.  A run keeps the constraints of the [programs] table: when every row
    is found under its own [id] and no two rows share a platform and slug
    before the run, the same holds after it, whether the run returns or
    raises. *)
Theorem run_keeps_constraints {Net : Type} `{BaseScraper Net} (net : Net) (w : World)
    (r : Result ScrapeLog.t) (w' : World) :
  table_constraints (programs w) ->
  run net w = (r, w') ->
  table_constraints (programs w').
Proof.
  intros Hc Hrun.
  pose proof (run_invariant (fun w1 => table_constraints (programs w1))) as Hinv.
  replace w' with (snd (run net w)) by (by rewrite Hrun).
  apply Hinv; auto.
  intros p w0 r0 w1 Hw0 Hup. eapply upsert_program_constraints; eauto.
Qed.

Lemma run_keeps_constraints_witness :
  exists (log : ScrapeLog.t) (w' : World),
    run (H := ListScraper "x") [program_a_raised; program_b] world_a = (Ok log, w')
    /\ table_constraints (programs w').
Proof.
  destruct (run (H := ListScraper "x") [program_a_raised; program_b] world_a)
    as [r w'] eqn:Hrun.
  assert (Hc : table_constraints (programs world_a)).
  { split.
    - intros i r0 Hi.
      change (programs world_a) with ({[ "x-a" := row_a ]} : gmap string ProgramRow.t) in Hi.
      apply lookup_singleton_Some in Hi as [<- <-]. reflexivity.
    - intros i j r0 r' Hi Hj _ _.
      change (programs world_a) with ({[ "x-a" := row_a ]} : gmap string ProgramRow.t)
        in Hi, Hj.
      apply lookup_singleton_Some in Hi as [<- _].
      apply lookup_singleton_Some in Hj as [<- _]. reflexivity. }
  pose proof (run_keeps_constraints (H := ListScraper "x") _ world_a _ _ Hc Hrun) as Hc'.
  pose proof Hrun as E. vm_compute in E. injection E as <- _.
  eexists _, w'. auto.
Defined.

End StoreInvariants.

(** ** What a successful run counts *)
Section RunAccounting.
Import BountyDatabase Engine.

(** A successful upsert adds the identity of the program to the catalogue
    when it answers [is_new], and adds nothing otherwise. *)
Lemma upsert_program_dom (p : Program.t) (w : World) (is_new is_updated : bool)
    (w' : World) :
  upsert_program p w = (Ok (is_new, is_updated), w') ->
  dom (programs w') = dom (programs w) ∪ {[Program.id p]}
  /\ size (programs w') = size (programs w) + (if is_new then 1 else 0)
  /\ (is_new = true -> is_updated = false).
Proof.
  intros Hup.
  destruct (programs w !! Program.id p) as [row|] eqn:Hrow.
  - rewrite (upsert_program_existing _ _ _ Hrow) in Hup.
    destruct (ints_fit p); [|discriminate]. injection Hup as <- <- <-. simpl.
    assert (Hdom : dom (programs w) ∪ {[Program.id p]} = dom (programs w)).
    { rewrite union_comm_L. apply subseteq_union_1_L, singleton_subseteq_l.
      by apply elem_of_dom_2 with row. }
    rewrite Hdom. split; [apply dom_alter_L|]. split; [|discriminate].
    rewrite <- !size_dom, dom_alter_L. lia.
  - rewrite (upsert_program_new _ _ Hrow) in Hup.
    destruct (negb (ints_fit p)); [discriminate|].
    destruct (bool_decide _); [discriminate|]. injection Hup as <- <- <-. simpl.
    split; [by rewrite dom_insert_L, union_comm_L|]. split; [|reflexivity].
    rewrite map_size_insert_None by exact Hrow. lia.
Qed.

Lemma upsert_each_counts (ps : list Program.t) :
  forall (n u : nat) (w : World) (n' u' : nat) (w' : World),
    upsert_each ps n u w = (Ok (n', u'), w') ->
    n <= n' /\ u <= u'
    /\ n' + u' <= n + u + length ps
    /\ size (programs w') + n = size (programs w) + n'
    /\ dom (programs w') = dom (programs w) ∪ list_to_set (Program.id <$> ps).
Proof.
  induction ps as [|p ps IH]; intros n u w n' u' w' Hloop.
  - injection Hloop as <- <- <-. simpl. rewrite union_empty_r_L.
    repeat split; lia.
  - simpl in Hloop. unfold mbind, M_bind in Hloop.
    destruct (upsert_program p w) as [[[is_new is_updated]|e] w1] eqn:Hp;
      [|discriminate].
    destruct (upsert_program_dom _ _ _ _ _ Hp) as (Hdom & Hsize & _).
    assert (Hunion : dom (programs w1) ∪ list_to_set (Program.id <$> ps)
                     = dom (programs w) ∪ list_to_set (Program.id <$> p :: ps)).
    { rewrite Hdom. simpl. by rewrite union_assoc_L. }
    destruct is_new; [|destruct is_updated];
      destruct (IH _ _ _ _ _ _ Hloop) as (H1 & H2 & H3 & H4 & H5);
      rewrite H5, Hunion; simpl; repeat split; lia.
Qed.

(** X7.  The log of a run that succeeded counts what the run did to the
    catalogue: [programs_found] is the number of programs fetched, a program
    is counted at most once as new or updated, the catalogue has grown by
    exactly [programs_new] rows, and its identities are those it had with the
    identities of the fetched programs. *)
Theorem run_success_accounting {Net : Type} `{BaseScraper Net} (net : Net)
    (w : World) (log : ScrapeLog.t) (w' : World) :
  run net w = (Ok log, w') ->
  ScrapeLog.success log = true ->
  exists ps : list Program.t,
    scrape_programs net = Ok ps
    /\ ScrapeLog.programs_found log = length ps
    /\ ScrapeLog.programs_new log + ScrapeLog.programs_updated log <= length ps
    /\ size (programs w') = size (programs w) + ScrapeLog.programs_new log
    /\ dom (programs w') = dom (programs w) ∪ list_to_set (Program.id <$> ps).
Proof.
  rewrite run_eq. cbv zeta.
  destruct (scrape_programs net) as [ps|e]; [|intros [= <- _]; discriminate].
  destruct (upsert_each ps 0 0 (tick 1 w)) as [[[n u]|e] w1] eqn:Hloop;
    [|destruct (holds_write_lock e)]; intros [= <- <-]; [|discriminate]. intros _.
  destruct (upsert_each_counts _ _ _ _ _ _ _ Hloop) as (H1 & H2 & H3 & H4 & H5).
  exists ps. simpl in *. rewrite H5. repeat split; lia.
Qed.

Lemma run_success_accounting_witness :
  exists (log : ScrapeLog.t) (w' : World),
    run (H := ListScraper "x") [program_a_raised; program_b] world_a = (Ok log, w')
    /\ ScrapeLog.programs_new log = 1
    /\ ScrapeLog.programs_updated log = 1
    /\ size (programs w') = 2.
Proof.
  destruct (run (H := ListScraper "x") [program_a_raised; program_b] world_a)
    as [r w'] eqn:Hrun.
  assert (Hr : exists log, r = Ok log /\ ScrapeLog.success log = true
                 /\ ScrapeLog.programs_new log = 1
                 /\ ScrapeLog.programs_updated log = 1).
  { vm_compute in Hrun. injection Hrun as <- _. eexists. repeat split. }
  destruct Hr as (log & -> & Hok & Hnew & Hupd).
  destruct (run_success_accounting (H := ListScraper "x") _ _ _ _ Hrun Hok)
    as (ps & _ & _ & _ & Hsize & _).
  exists log, w'. split; [reflexivity|]. split; [exact Hnew|]. split; [exact Hupd|].
  rewrite Hsize, Hnew. reflexivity.
Defined.

End RunAccounting.

(** ** The order of the stored timestamps *)
Section StampFacts.
Import BountyDatabase Engine.

Lemma stamped_later (w w' : World) (r : ProgramRow.t) :
  utc_clock w' = utc_clock w -> utc_reads w <= utc_reads w' ->
  stamped w r -> stamped w' r.
Proof.
  intros Hc Hr (a & b & c & H1 & H2 & H3 & Hab & Hbc & Hc').
  exists a, b, c. rewrite Hc. repeat split; try done. lia.
Qed.

Lemma upsert_program_stamped (p : Program.t) (w : World)
    (res : Result (bool * bool)) (w' : World) :
  all_stamped w -> upsert_program p w = (res, w') -> all_stamped w'.
Proof.
  intros Hall Hup.
  destruct (upsert_program_clock _ _ _ _ Hup) as (Hclock & Hreads & _).
  assert (Hold : forall i r, programs w !! i = Some r -> stamped w' r).
  { intros i r Hi. apply (stamped_later w); [exact Hclock|lia|]. by apply (Hall i). }
  destruct (programs w !! Program.id p) as [row|] eqn:Hrow.
  - rewrite (upsert_program_existing _ _ _ Hrow) in Hup.
    destruct (ints_fit p); injection Hup as _ <-; [|exact Hold].
    intros i r. simpl. destruct (decide (i = Program.id p)) as [->|Hne].
    + rewrite lookup_alter_eq, Hrow. intros [= <-].
      destruct (Hall _ _ Hrow) as (a & b & c & H1 & H2 & H3 & Hab & Hbc & Hc).
      exists a, (if bool_decide (old_data row ≠ new_data p) then utc_reads w else b),
        (utc_reads w).
      simpl. split; [exact H1|].
      split; [by destruct (bool_decide (old_data row ≠ new_data p))|].
      split; [reflexivity|].
      destruct (bool_decide (old_data row ≠ new_data p)); repeat split; lia.
    + rewrite lookup_alter_ne by congruence. apply Hold.
  - rewrite (upsert_program_new _ _ Hrow) in Hup.
    destruct (negb (ints_fit p)); [injection Hup as _ <-; exact Hold|].
    destruct (bool_decide _); injection Hup as _ <-; [exact Hold|].
    intros i r. simpl. destruct (decide (i = Program.id p)) as [->|Hne].
    + rewrite lookup_insert_eq. intros [= <-].
      exists (1 + utc_reads w), (2 + utc_reads w), (3 + utc_reads w).
      simpl. repeat split; lia.
    + rewrite lookup_insert_ne by congruence. apply Hold.
Qed.

Lemma stamped_in_order (w : World) (r : ProgramRow.t) :
  clock_monotone w -> stamped w r -> times_in_order r.
Proof.
  intros Hmono (a & b & c & H1 & H2 & H3 & Hab & Hbc & _).
  eexists _, _, _. split; [exact H1|]. split; [exact H2|]. split; [exact H3|].
  split; by apply Hmono.
Qed.

(** X8.  In a catalogue where the three timestamps of every row are readings
    of the clock made in the order [first_seen], [last_updated],
    [last_scraped] (as in the empty catalogue), they still are after a run,
    whether it returns or raises; hence, with a clock that never goes back,
    every row has [first_seen <= last_updated <= last_scraped]. *)
Theorem run_keeps_timestamps_in_order {Net : Type} `{BaseScraper Net} (net : Net)
    (w : World) (r : Result ScrapeLog.t) (w' : World) :
  all_stamped w ->
  run net w = (r, w') ->
  all_stamped w'
  /\ (clock_monotone w ->
      forall (i : string) (row : ProgramRow.t),
        programs w' !! i = Some row -> times_in_order row).
Proof.
  intros Hall Hrun.
  pose proof (run_invariant
    (fun w1 => all_stamped w1 /\ utc_clock w1 = utc_clock w)) as Hinv.
  destruct Hinv with (net := net) (w := w) as [Hall' Hclock].
  - intros p w0 r0 w1 [Hs Hc] Hup. split; [by eapply upsert_program_stamped|].
    destruct (upsert_program_clock _ _ _ _ Hup) as (Hc1 & _). congruence.
  - intros n w0 [Hs Hc]. split; [|exact Hc].
    intros i r0 Hi. apply (stamped_later w0); [reflexivity|simpl; lia|by apply (Hs i)].
  - intros l w0 [Hs Hc]. split; [|exact Hc].
    intros i r0 Hi. apply (stamped_later w0); [reflexivity|simpl; lia|by apply (Hs i)].
  - by split.
  - rewrite Hrun in Hall', Hclock. simpl in Hall', Hclock.
    split; [exact Hall'|]. intros Hmono i row Hi.
    apply (stamped_in_order w'); [|by apply (Hall' i)].
    intros a b Hab. rewrite Hclock. by apply Hmono.
Qed.

Lemma run_keeps_timestamps_in_order_witness :
  exists (log : ScrapeLog.t) (w' : World),
    run (H := ListScraper "x") [program_a_raised; program_b] world_a = (Ok log, w')
    /\ all_stamped w'
    /\ (clock_monotone world_a ->
        forall (i : string) (row : ProgramRow.t),
          programs w' !! i = Some row -> times_in_order row).
Proof.
  destruct (run (H := ListScraper "x") [program_a_raised; program_b] world_a)
    as [r w'] eqn:Hrun.
  assert (Hall : all_stamped world_a).
  { intros i r0 Hi.
    change (programs world_a) with ({[ "x-a" := row_a ]} : gmap string ProgramRow.t) in Hi.
    apply lookup_singleton_Some in Hi as [_ <-].
    exists 1, 2, 3. repeat split; simpl; lia. }
  destruct (run_keeps_timestamps_in_order (H := ListScraper "x") _ world_a _ _ Hall Hrun)
    as [Hall' Horder].
  pose proof Hrun as E. vm_compute in E. injection E as <- _.
  eexists _, w'. auto.
Defined.

End StampFacts.

(** ** The times of a run *)
Section RunTimes.
Import BountyDatabase Engine.

Lemma upsert_program_scraped (p : Program.t) (w : World) (res : bool * bool)
    (w' : World) :
  upsert_program p w = (Ok res, w') ->
  scraped_since (utc_clock w) (utc_reads w) (Program.id p) w'.
Proof.
  intros Hup. destruct (upsert_program_clock _ _ _ _ Hup) as (Hclock & _).
  split; [exact Hclock|].
  destruct (programs w !! Program.id p) as [row|] eqn:Hrow.
  - rewrite (upsert_program_existing _ _ _ Hrow) in Hup.
    destruct (ints_fit p); [|discriminate]. injection Hup as _ <-.
    eexists _, (utc_reads w). simpl. rewrite lookup_alter_eq, Hrow. simpl.
    split; [reflexivity|]. split; [reflexivity|]. lia.
  - rewrite (upsert_program_new _ _ Hrow) in Hup.
    destruct (negb (ints_fit p)); [discriminate|].
    destruct (bool_decide _); [discriminate|]. injection Hup as _ <-.
    eexists _, (3 + utc_reads w). simpl. rewrite lookup_insert_eq.
    split; [reflexivity|]. split; [reflexivity|]. lia.
Qed.

Lemma upsert_program_keeps_scraped (clock : nat -> datetime) (lo : nat) (i : string)
    (p : Program.t) (w : World) (r : Result (bool * bool)) (w' : World) :
  scraped_since clock lo i w -> upsert_program p w = (r, w') ->
  scraped_since clock lo i w'.
Proof.
  intros (Hclock & row & k & Hrow & Hls & Hlo & Hk) Hup.
  destruct (upsert_program_clock _ _ _ _ Hup) as (Hclock' & Hreads & _).
  split; [congruence|].
  assert (Hkeep : programs w' !! i = Some row ->
                  exists (row' : ProgramRow.t) (k' : nat),
                    programs w' !! i = Some row'
                    /\ ProgramRow.last_scraped row' = Some (Iso (clock k'))
                    /\ lo <= k' /\ k' < utc_reads w').
  { intros Hi. exists row, k. repeat split; try done. lia. }
  destruct (programs w !! Program.id p) as [row0|] eqn:Hrow0.
  - rewrite (upsert_program_existing _ _ _ Hrow0) in Hup.
    destruct (ints_fit p); injection Hup as _ <-; [|by apply Hkeep].
    destruct (decide (i = Program.id p)) as [->|Hne].
    + eexists _, (utc_reads w). simpl. rewrite lookup_alter_eq, Hrow0. simpl.
      split; [reflexivity|]. rewrite Hclock. split; [reflexivity|]. lia.
    + apply Hkeep. simpl. by rewrite lookup_alter_ne by congruence.
  - rewrite (upsert_program_new _ _ Hrow0) in Hup.
    destruct (negb (ints_fit p)); [injection Hup as _ <-; by apply Hkeep|].
    destruct (bool_decide _); injection Hup as _ <-; [by apply Hkeep|].
    apply Hkeep. simpl. rewrite lookup_insert_ne; [done|]. congruence.
Qed.

Lemma upsert_each_scraped (ps : list Program.t) :
  forall (n u : nat) (w : World) (counts : nat * nat) (w1 : World) (p : Program.t),
    upsert_each ps n u w = (Ok counts, w1) ->
    p ∈ ps ->
    scraped_since (utc_clock w) (utc_reads w) (Program.id p) w1.
Proof.
  induction ps as [|q ps IH]; intros n u w counts w1 p Hloop Hin.
  - by apply elem_of_nil in Hin.
  - simpl in Hloop. unfold mbind, M_bind in Hloop.
    destruct (upsert_program q w) as [[[is_new is_updated]|e] w'] eqn:Hq;
      [|discriminate].
    destruct (upsert_program_clock _ _ _ _ Hq) as (Hclock & Hreads & _).
    assert (Hrest : exists n' u', upsert_each ps n' u' w' = (Ok counts, w1)).
    { destruct is_new; [eauto|]. destruct is_updated; eauto. }
    destruct Hrest as (n' & u' & Hrest).
    apply elem_of_cons in Hin as [->|Hps].
    + pose proof (upsert_program_scraped _ _ _ _ Hq) as Hscraped.
      apply (upsert_each_invariant
               (scraped_since (utc_clock w) (utc_reads w) (Program.id q)))
        with (ps := ps) (n := n') (u := u') (w := w') (r := Ok counts);
        [|exact Hscraped|exact Hrest].
      intros p0 w2 r2 w3. apply upsert_program_keeps_scraped.
    + destruct (IH _ _ _ _ _ _ Hrest Hps) as (Hc & row & k & Hrow & Hls & Hlo & Hk).
      split; [congruence|]. exists row, k. rewrite <- Hclock.
      repeat split; try done. lia.
Qed.

(** X21.  A run that succeeds has scraped every fetched program during the
    run: with a clock that never goes back, the row under the identity of
    each fetched program has a [last_scraped] between the [started_at] and
    the [completed_at] of the log. *)
Theorem run_scrapes_between_its_times {Net : Type} `{BaseScraper Net} (net : Net)
    (w : World) (log : ScrapeLog.t) (w' : World) (ps : list Program.t)
    (p : Program.t) :
  run net w = (Ok log, w') ->
  ScrapeLog.success log = true ->
  clock_monotone w ->
  scrape_programs net = Ok ps ->
  p ∈ ps ->
  exists (row : ProgramRow.t) (started scraped completed : datetime),
    programs w' !! Program.id p = Some row
    /\ ScrapeLog.started_at log = Some started
    /\ ProgramRow.last_scraped row = Some (Iso scraped)
    /\ ScrapeLog.completed_at log = Some completed
    /\ (started <= scraped)%Z /\ (scraped <= completed)%Z.
Proof.
  intros Hrun Hok Hmono Hfetch Hin. rewrite run_eq, Hfetch in Hrun. cbv zeta in Hrun.
  destruct (upsert_each ps 0 0 (tick 1 w)) as [[[n u]|e] w1] eqn:Hloop;
    [|destruct (holds_write_lock e); [discriminate|]];
    injection Hrun as <- <-; [|discriminate].
  destruct (upsert_each_scraped _ _ _ _ _ _ _ Hloop Hin)
    as (Hclock & row & k & Hrow & Hls & Hlo & Hk).
  simpl in Hclock, Hlo, Hls.
  exists row. eexists _, _, _. split; [exact Hrow|]. split; [reflexivity|].
  split; [exact Hls|]. split; [reflexivity|]. rewrite Hclock.
  split; apply Hmono; lia.
Qed.

Lemma run_scrapes_between_its_times_witness :
  exists (log : ScrapeLog.t) (w' : World) (row : ProgramRow.t),
    run (H := ListScraper "x") [program_a_raised; program_b] world_a = (Ok log, w')
    /\ programs w' !! "x-b" = Some row
    /\ ScrapeLog.started_at log = Some 4%Z
    /\ ScrapeLog.completed_at log = Some 10%Z.
Proof.
  destruct (run (H := ListScraper "x") [program_a_raised; program_b] world_a)
    as [r w'] eqn:Hrun.
  assert (Hr : exists log, r = Ok log /\ ScrapeLog.success log = true
                 /\ ScrapeLog.started_at log = Some 4%Z
                 /\ ScrapeLog.completed_at log = Some 10%Z).
  { vm_compute in Hrun. injection Hrun as <- _. eexists. repeat split. }
  destruct Hr as (log & -> & Hok & Hstart & Hend).
  assert (Hmono : clock_monotone world_a).
  { intros i j Hij. unfold world_a, ticking_clock. simpl. lia. }
  assert (Hin : program_b ∈ [program_a_raised; program_b]).
  { apply elem_of_cons. right. apply elem_of_cons. by left. }
  destruct (run_scrapes_between_its_times (H := ListScraper "x")
              [program_a_raised; program_b] world_a log w'
              [program_a_raised; program_b] program_b Hrun Hok Hmono eq_refl Hin)
    as (row & started & scraped & completed & Hrow & _).
  exists log, w', row. auto.
Defined.

End RunTimes.

(** ** The HackerOne adapter *)
Section HackerOneFacts.
Variable md5_hexdigest : string -> string.

Local Abbreviation h1_parse := (HackerOne._parse_program md5_hexdigest).

Lemma post_init_other_fields (p : Program.t) :
  Program.url (Program.post_init md5_hexdigest p) = Program.url p
  /\ Program.name (Program.post_init md5_hexdigest p) = Program.name p
  /\ Program.assets (Program.post_init md5_hexdigest p) = Program.assets p
  /\ Program.asset_types (Program.post_init md5_hexdigest p) = Program.asset_types p
  /\ Program.managed (Program.post_init md5_hexdigest p) = Program.managed p
  /\ Program.accepts_submissions (Program.post_init md5_hexdigest p)
     = Program.accepts_submissions p
  /\ Program.currency (Program.post_init md5_hexdigest p) = Program.currency p
  /\ Program.raw_data (Program.post_init md5_hexdigest p) = Program.raw_data p.
Proof. unfold Program.post_init. destruct (PyStr.truthy _); by repeat split. Qed.



(** One turn of the [while True] loop. *)
Lemma scrape_pages_cons (reply : option string -> Result HackerOne.Reply)
    (later : HackerOne.Net) (cursor : option string) (acc : list Program.t) :
  HackerOne.scrape_pages md5_hexdigest (reply :: later) cursor acc
  = match reply (HackerOne.request_variables cursor) with
    | Raise _ => acc
    | Ok data =>
        if HackerOne.has_errors data then acc
        else if bool_decide (HackerOne.edges data = []) then acc
        else
          let page := HackerOne.parse_edges md5_hexdigest (HackerOne.edges data) acc in
          if page.2 then
            if negb (HackerOne.has_next_page data) then page.1
            else HackerOne.scrape_pages md5_hexdigest later
                   (HackerOne.end_cursor data) page.1
          else page.1
    end.
Proof.
  cbn [HackerOne.scrape_pages].
  destruct (reply _) as [data|e]; [|reflexivity].
  destruct (HackerOne.has_errors data); [reflexivity|].
  destruct (HackerOne.edges data) as [|edge es]; [reflexivity|].
  rewrite bool_decide_eq_false_2 by discriminate. cbv zeta.
  by destruct (HackerOne.parse_edges md5_hexdigest (edge :: es) acc) as [acc' [|]].
Qed.



Lemma parse_edges_nodes (nodes : list HackerOne.Node) :
  forall acc : list Program.t,
    HackerOne.parse_edges md5_hexdigest (Some <$> nodes) acc
    = ((acc ++ (h1_parse <$> nodes))%list, true).
Proof.
  induction nodes as [|node nodes IH]; intros acc; simpl.
  - by rewrite app_nil_r.
  - rewrite IH. by rewrite <- app_assoc.
Qed.

Lemma parse_edges_cut (nodes : list HackerOne.Node) (rest : list (option HackerOne.Node)) :
  forall acc : list Program.t,
    HackerOne.parse_edges md5_hexdigest ((Some <$> nodes) ++ None :: rest)%list acc
    = ((acc ++ (h1_parse <$> nodes))%list, false).
Proof.
  induction nodes as [|node nodes IH]; intros acc; simpl.
  - by rewrite app_nil_r.
  - rewrite IH. by rewrite <- app_assoc.
Qed.

Lemma serves_scrape_pages (net : HackerOne.Net) (cursor : option string)
    (pages : list (list HackerOne.Node)) :
  serves net cursor pages ->
  forall acc : list Program.t,
    HackerOne.scrape_pages md5_hexdigest net cursor acc
    = (acc ++ (h1_parse <$> concat pages))%list.
Proof.
  induction 1 as [net cursor Hstop
                 |reply later cursor data nodes rest Hreply Herr Hedges
                 |reply later cursor data nodes Hreply Herr Hedges Hne Hnext
                 |reply later cursor data nodes pages Hreply Herr Hedges Hne Hnext
                    Hlater IH];
    intros acc.
  - simpl. rewrite app_nil_r. destruct net as [|reply later]; [reflexivity|].
    rewrite scrape_pages_cons. simpl in Hstop.
    destruct (reply _) as [data|e]; [|reflexivity].
    destruct Hstop as [-> | Hedges]; [reflexivity|].
    destruct (HackerOne.has_errors data); [reflexivity|].
    by rewrite bool_decide_eq_true_2.
  - rewrite scrape_pages_cons, Hreply, Herr, Hedges, parse_edges_cut.
    rewrite bool_decide_eq_false_2 by (by destruct nodes).
    simpl. by rewrite app_nil_r.
  - rewrite scrape_pages_cons, Hreply, Herr, Hedges, parse_edges_nodes, Hnext.
    rewrite bool_decide_eq_false_2 by (by destruct nodes).
    simpl. by rewrite app_nil_r.
  - rewrite scrape_pages_cons, Hreply, Herr, Hedges, parse_edges_nodes, Hnext.
    rewrite bool_decide_eq_false_2 by (by destruct nodes).
    simpl. by rewrite IH, fmap_app, app_assoc.
Qed.

Lemma edges_split (es : list (option HackerOne.Node)) :
  (exists nodes : list HackerOne.Node, es = Some <$> nodes)
  \/ (exists (nodes : list HackerOne.Node) (rest : list (option HackerOne.Node)),
        es = ((Some <$> nodes) ++ None :: rest)%list).
Proof.
  induction es as [|[node|] es IH].
  - left. by exists [].
  - destruct IH as [(nodes & ->)|(nodes & rest & ->)].
    + left. by exists (node :: nodes).
    + right. by exists (node :: nodes), rest.
  - right. by exists [], es.
Qed.

(** Whatever the server replies, it serves some pages. *)
Lemma serves_total (net : HackerOne.Net) :
  forall cursor : option string,
    exists pages : list (list HackerOne.Node), serves net cursor pages.
Proof.
  induction net as [|reply later IH]; intros cursor.
  - exists []. by apply serves_stop.
  - destruct (reply (HackerOne.request_variables cursor)) as [data|e] eqn:Hreply;
      [|exists []; apply serves_stop; simpl; by rewrite Hreply].
    destruct (HackerOne.has_errors data) eqn:Herr;
      [exists []; apply serves_stop; simpl; rewrite Hreply; by left|].
    destruct (edges_split (HackerOne.edges data)) as [(nodes & Hes)|(nodes & rest & Hes)].
    + destruct nodes as [|node nodes].
      * exists []. apply serves_stop. simpl. rewrite Hreply. by right.
      * destruct (HackerOne.has_next_page data) eqn:Hnext.
        -- destruct (IH (HackerOne.end_cursor data)) as [pages Hpages].
           exists ((node :: nodes) :: pages). by eapply serves_next.
        -- exists [node :: nodes]. by eapply serves_last.
    + exists [nodes]. by eapply serves_cut.
Qed.

(** X10.  The HackerOne adapter returns the programs of the pages in the
    order the server brings them, each page requested with the [endCursor] of
    the page before; the pages gathered are kept when a later request fails,
    answers with [errors] or with no edge, and so are the nodes of a page
    before an edge without a node. *)
Theorem hackerone_pages_in_order (net : HackerOne.Net) :
  (exists pages : list (list HackerOne.Node), serves net None pages)
  /\ (forall pages : list (list HackerOne.Node),
        serves net None pages ->
        scrape_programs (BaseScraper := HackerOne.HackerOneScraper md5_hexdigest) net
        = Ok (h1_parse <$> concat pages)).
Proof.
  split; [apply serves_total|]. intros pages Hserves. simpl.
  by rewrite (serves_scrape_pages _ _ _ Hserves).
Qed.

End HackerOneFacts.

Lemma hackerone_pages_in_order_witness :
  serves two_pages None [[node_of "acme" true 100; node_of "bolt" false 0];
                         [node_of "core" true 0]]
  /\ forall md5_hexdigest : string -> string,
       scrape_programs (BaseScraper := HackerOne.HackerOneScraper md5_hexdigest) two_pages
       = Ok (HackerOne._parse_program md5_hexdigest
               <$> [node_of "acme" true 100; node_of "bolt" false 0;
                    node_of "core" true 0]).
Proof.
  assert (Hserves : serves two_pages None
            [[node_of "acme" true 100; node_of "bolt" false 0];
             [node_of "core" true 0]]).
  { eapply serves_next; [reflexivity|reflexivity|reflexivity|discriminate|reflexivity|].
    eapply serves_last; [reflexivity|reflexivity|reflexivity|discriminate|reflexivity]. }
  split; [exact Hserves|]. intros md5_hexdigest.
  apply (proj2 (hackerone_pages_in_order md5_hexdigest two_pages) _ Hserves).
Defined.

(** ** The ProjectDiscovery adapter *)
Section SlugFacts.

Lemma lower_alnum_not_hyphen (a : ascii) :
  PyStr.is_lower_alnum a = true -> Ascii.eqb a "-" = false.
Proof.
  intros Ha. destruct (Ascii.eqb a "-") eqn:Heq; [|reflexivity].
  apply Ascii.eqb_eq in Heq as ->. discriminate.
Qed.

Lemma sub_runs_slug_chars (s : string) :
  forall b : bool,
    PyStr.existsb_str (fun c => negb (is_slug_char c)) (PyStr.sub_runs b s) = false.
Proof.
  induction s as [|a s IH]; intros b; simpl; [reflexivity|].
  destruct (PyStr.is_lower_alnum a) eqn:Ha; simpl.
  - unfold is_slug_char at 1. rewrite Ha. simpl. apply IH.
  - destruct b; simpl; apply IH.
Qed.

Lemma lstrip_existsb (f : ascii -> bool) (c : ascii) (s : string) :
  PyStr.existsb_str f s = false -> PyStr.existsb_str f (PyStr.lstrip c s) = false.
Proof.
  induction s as [|a s IH]; simpl; [done|].
  intros [Ha Hs]%orb_false_iff.
  destruct (Ascii.eqb a c); [by apply IH|]. simpl. by rewrite Ha, Hs.
Qed.

Lemma rstrip_existsb (f : ascii -> bool) (c : ascii) (s : string) :
  PyStr.existsb_str f s = false -> PyStr.existsb_str f (PyStr.rstrip c s) = false.
Proof.
  induction s as [|a s IH]; simpl; [done|].
  intros [Ha Hs]%orb_false_iff. specialize (IH Hs).
  destruct (PyStr.rstrip c s) as [|a' s'].
  - destruct (Ascii.eqb a c); [reflexivity|]. simpl. by rewrite Ha.
  - simpl. simpl in IH. by rewrite Ha, IH.
Qed.

(** The text does not begin with the character. *)
Lemma lstrip_head (c : ascii) (s : string) :
  String.prefix (String c "") (PyStr.lstrip c s) = false.
Proof.
  induction s as [|a s IH]; simpl; [reflexivity|].
  destruct (Ascii.eqb a c) eqn:Hac; [exact IH|]. simpl.
  destruct (ascii_dec c a) as [->|]; [|reflexivity].
  by rewrite Ascii.eqb_refl in Hac.
Qed.

Lemma lstrip_id (c : ascii) (s : string) :
  String.prefix (String c "") s = false -> PyStr.lstrip c s = s.
Proof.
  destruct s as [|a s]; simpl; [reflexivity|].
  destruct (ascii_dec c a) as [->|Hne].
  - destruct s; discriminate.
  - intros _. destruct (Ascii.eqb a c) eqn:Hac; [|reflexivity].
    apply Ascii.eqb_eq in Hac. congruence.
Qed.

Lemma rstrip_head (c : ascii) (s : string) :
  String.prefix (String c "") s = false ->
  String.prefix (String c "") (PyStr.rstrip c s) = false.
Proof.
  destruct s as [|a s]; simpl; [reflexivity|].
  destruct (ascii_dec c a) as [->|Hne]; [destruct s; discriminate|]. intros _.
  destruct (PyStr.rstrip c s) as [|a' s'].
  - destruct (Ascii.eqb a c); [reflexivity|]. simpl.
    by destruct (ascii_dec c a).
  - simpl. by destruct (ascii_dec c a).
Qed.

Lemma rstrip_idem (c : ascii) (s : string) :
  PyStr.rstrip c (PyStr.rstrip c s) = PyStr.rstrip c s.
Proof.
  induction s as [|a s IH]; simpl; [reflexivity|].
  destruct (PyStr.rstrip c s) as [|a' s'] eqn:Hr.
  - destruct (Ascii.eqb a c) eqn:Hac; simpl; [reflexivity|]. by rewrite Hac.
  - cbn [PyStr.rstrip]. cbn [PyStr.rstrip] in IH. by rewrite IH.
Qed.

Lemma strip_idem (c : ascii) (s : string) :
  PyStr.strip c (PyStr.strip c s) = PyStr.strip c s.
Proof.
  unfold PyStr.strip.
  rewrite (lstrip_id c (PyStr.rstrip c (PyStr.lstrip c s)))
    by apply rstrip_head, lstrip_head.
  apply rstrip_idem.
Qed.

Lemma prefix_app (n u t : string) :
  String.prefix n u = true -> String.prefix n (u +:+ t) = true.
Proof.
  revert u. induction n as [|a n IH]; intros u; [intros _; by destruct (u +:+ t)|].
  destruct u as [|b u]; simpl; [discriminate|].
  destruct (ascii_dec a b); [apply IH|discriminate].
Qed.

Lemma contains_app (n u t : string) :
  PyStr.contains n u = true -> PyStr.contains n (u +:+ t) = true.
Proof.
  induction u as [|b u IH].
  - simpl. rewrite orb_false_r. destruct n; [|discriminate]. intros _.
    destruct t; reflexivity.
  - change (String b u +:+ t) with (String b (u +:+ t)).
    cbn [PyStr.contains]. intros [Hp|Hc]%orb_true_iff.
    + apply (prefix_app _ _ t) in Hp.
      change (String b u +:+ t) with (String b (u +:+ t)) in Hp. by rewrite Hp.
    + rewrite (IH Hc). apply orb_true_r.
Qed.

Lemma contains_lstrip (n : string) (c : ascii) (s : string) :
  PyStr.contains n s = false -> PyStr.contains n (PyStr.lstrip c s) = false.
Proof.
  induction s as [|a s IH]; [done|]. cbn [PyStr.lstrip].
  destruct (Ascii.eqb a c); [|done].
  cbn [PyStr.contains]. intros [_ Hs]%orb_false_iff. by apply IH.
Qed.

Lemma rstrip_is_prefix (c : ascii) (s : string) :
  exists t : string, s = PyStr.rstrip c s +:+ t.
Proof.
  induction s as [|a s [t Ht]]; [by exists ""|]. cbn [PyStr.rstrip].
  destruct (PyStr.rstrip c s) as [|a' s'] eqn:Hr.
  - destruct (Ascii.eqb a c).
    + by exists (String a s).
    + exists s. reflexivity.
  - exists t. change (String a (String a' s') +:+ t) with (String a (String a' s' +:+ t)).
    by rewrite <- Ht.
Qed.

Lemma contains_rstrip (n : string) (c : ascii) (s : string) :
  PyStr.contains n s = false -> PyStr.contains n (PyStr.rstrip c s) = false.
Proof.
  intros Hs. destruct (PyStr.contains n (PyStr.rstrip c s)) eqn:Hr; [|reflexivity].
  destruct (rstrip_is_prefix c s) as [t Ht].
  apply (contains_app _ _ t) in Hr. rewrite <- Ht in Hr. congruence.
Qed.

Lemma prefix_cons (a b : ascii) (n u : string) :
  String.prefix (String a n) (String b u)
  = if ascii_dec a b then String.prefix n u else false.
Proof. reflexivity. Qed.

Lemma sub_runs_hyphens (s : string) :
  forall b : bool,
    PyStr.contains "--" (PyStr.sub_runs b s) = false
    /\ (b = true -> String.prefix "-" (PyStr.sub_runs b s) = false).
Proof.
  induction s as [|a s IH]; intros b; [by split|]. cbn [PyStr.sub_runs].
  destruct (PyStr.is_lower_alnum a) eqn:Ha.
  - pose proof (lower_alnum_not_hyphen a Ha) as Hne.
    assert (Hd : forall n x, String.prefix (String "-" n) (String a x) = false).
    { intros n x. rewrite prefix_cons. destruct (ascii_dec "-" a) as [<-|]; [|reflexivity].
      discriminate. }
    destruct (IH false) as [Hc _]. split.
    + cbn [PyStr.contains]. by rewrite Hc, orb_false_r, Hd.
    + intros _. apply Hd.
  - destruct (IH true) as [Hc Hp]. destruct b; [by split|]. split; [|discriminate].
    cbn [PyStr.contains]. rewrite Hc, orb_false_r, prefix_cons.
    destruct (ascii_dec "-" "-"); [by apply Hp|reflexivity].
Qed.

(** The slug of any text is well formed. *)
Lemma slugify_well_formed (s : string) : well_formed_slug (ProjectDiscovery.slugify s).
Proof.
  unfold ProjectDiscovery.slugify, PyStr.re_sub_non_alnum. split; [|split].
  - unfold PyStr.strip. apply rstrip_existsb, lstrip_existsb, sub_runs_slug_chars.
  - apply strip_idem.
  - unfold PyStr.strip. apply contains_rstrip, contains_lstrip, sub_runs_hyphens.
Qed.

End SlugFacts.

Section DetectorFacts.
Variable urlparse : string -> Result ProjectDiscovery.ParseResult.

(** X11.  A slug that [_generate_slug] returns consists of characters of
    [[a-z0-9]] in groups joined by single hyphens, with no hyphen at either
    end; for an entry with a URL it is never empty ([unknown] stands in for a
    path without such a character). *)
Theorem generated_slug_well_formed (url name slug : string) :
  ProjectDiscovery._generate_slug urlparse url name = Ok slug ->
  well_formed_slug slug /\ (url <> "" -> slug <> "").
Proof.
  unfold ProjectDiscovery._generate_slug.
  destruct (PyStr.truthy url) eqn:Hurl; simpl.
  - destruct (urlparse url) as [parsed|e]; [|discriminate]. intros [= <-].
    match goal with |- context [PyStr.truthy ?t] =>
      destruct (PyStr.truthy t) eqn:Ht
    end.
    + split; [apply slugify_well_formed|]. intros _ Hs. by rewrite Hs in Ht.
    + split; [|discriminate]. by repeat split.
  - intros [= <-]. split; [apply slugify_well_formed|].
    intros Hne. by destruct url.
Qed.

Lemma foldl_subseteq {A : Type} (g : gset string -> A -> gset string)
    (S : gset string) :
  (forall (X : gset string) (d : A), X ⊆ S -> g X d ⊆ S) ->
  forall (l : list A) (X : gset string), X ⊆ S -> foldl g X l ⊆ S.
Proof.
  intros Hg l. induction l as [|d l IH]; intros X HX; simpl; [exact HX|].
  apply IH, Hg, HX.
Qed.

Lemma asset_types_range (types : gset string) :
  types ⊆ {["api"]} ∪ {["mobile"]} ∪ {["web"]} ->
  let answer := if decide (types = ∅) then ["web"] else elements types in
  answer <> [] /\ NoDup answer
  /\ (forall t : string, t ∈ answer -> t ∈ asset_type_names)
  /\ length answer <= 3.
Proof.
  intros Hsub answer.
  assert (Hin : forall t : string, t ∈ answer -> t ∈ asset_type_names).
  { intros t Ht. subst answer. unfold asset_type_names.
    destruct (decide (types = ∅)).
    - apply list_elem_of_singleton in Ht as ->. rewrite !elem_of_cons. auto.
    - apply elem_of_elements, Hsub in Ht.
      rewrite !elem_of_union, !elem_of_singleton in Ht.
      rewrite !elem_of_cons. tauto. }
  assert (Hnd : NoDup answer).
  { subst answer. destruct (decide (types = ∅)); [|apply NoDup_elements].
    apply NoDup_singleton. }
  split; [|split; [exact Hnd|split; [exact Hin|]]].
  - subst answer. destruct (decide (types = ∅)) as [|Hne]; [discriminate|].
    intros He. apply Hne. apply leibniz_equiv. by apply elements_empty_iff.
  - change 3 with (length asset_type_names).
    apply submseteq_length, NoDup_submseteq; assumption.
Qed.

(** X12.  [_detect_platform] answers with one of ten fixed names, and with
    [unknown] exactly for the empty URL; [_detect_asset_types] answers with a
    list that is never empty, has no duplicate, holds only [api], [mobile] and
    [web], and depends on the first ten domains alone. *)
Theorem detectors_have_fixed_ranges (url platform : string) (domains : list string) :
  ProjectDiscovery._detect_platform urlparse url = Ok platform ->
  (platform ∈ platform_names /\ (platform = "unknown" <-> url = ""))
  /\ (let types := ProjectDiscovery._detect_asset_types domains in
      types <> [] /\ NoDup types
      /\ (forall t : string, t ∈ types -> t ∈ asset_type_names)
      /\ length types <= 3
      /\ types = ProjectDiscovery._detect_asset_types (take 10 domains)).
Proof.
  intros Hpf. split.
  - unfold ProjectDiscovery._detect_platform in Hpf.
    destruct url as [|c url]; simpl in Hpf.
    { injection Hpf as <-. split; [|done]. unfold platform_names.
      rewrite !elem_of_cons. auto. }
    destruct (urlparse _) as [parsed|e]; [|discriminate]. injection Hpf as <-.
    unfold platform_names.
    repeat match goal with
           | |- context [if ?b then _ else _] => destruct b
           end;
      (split; [rewrite !elem_of_cons; auto 20|split; discriminate]).
  - cbv zeta. unfold ProjectDiscovery._detect_asset_types.
    rewrite take_take, Nat.min_id.
    match goal with |- context [decide (foldl ?g ∅ ?l = ∅)] =>
      pose proof (fun Hg => foldl_subseteq g ({["api"]} ∪ {["mobile"]} ∪ {["web"]})
                              Hg l ∅) as Hfold
    end.
    match type of Hfold with ?P -> ?Q -> _ =>
      assert (Hstep : P); [|assert (Hempty : Q); [apply empty_subseteq|]]
    end.
    { intros X d HX. cbv beta zeta.
      repeat match goal with
             | |- context [if ?b then _ else _] => destruct b
             end;
        repeat apply union_least; try exact HX;
        intros x ->%elem_of_singleton;
        rewrite !elem_of_union, !elem_of_singleton; auto. }
    specialize (Hfold Hstep Hempty).
    destruct (asset_types_range _ Hfold) as (H1 & H2 & H3 & H4).
    repeat split; assumption.
Qed.

End DetectorFacts.

Section ProjectDiscoveryFacts.
Import BountyDatabase Engine.
Variable md5_hexdigest : string -> string.
Variable urlparse : string -> Result ProjectDiscovery.ParseResult.
Variable dollar_amounts : string -> Result (list Z).

Local Abbreviation pd_parse :=
  (ProjectDiscovery._parse_program md5_hexdigest urlparse dollar_amounts).
Local Abbreviation PD :=
  (ProjectDiscovery.ProjectDiscoveryScraper md5_hexdigest urlparse dollar_amounts).

Lemma foldl_min_spec (l : list Z) :
  forall a : Z,
    foldl Z.min a l ∈ a :: l /\ (forall x : Z, x ∈ a :: l -> (foldl Z.min a l <= x)%Z).
Proof.
  induction l as [|b l IH]; intros a; simpl.
  - split; [apply elem_of_cons; by left|].
    intros x ->%list_elem_of_singleton. lia.
  - destruct (IH (Z.min a b)) as [Hin Hle]. split.
    + apply elem_of_cons in Hin as [Hin|Hin].
      * rewrite Hin. rewrite !elem_of_cons.
        destruct (Z.min_spec a b) as [[_ ->]|[_ ->]]; auto.
      * rewrite !elem_of_cons. auto.
    + intros x Hx.
      assert (Hm : (foldl Z.min (Z.min a b) l <= Z.min a b)%Z)
        by (apply Hle, elem_of_cons; by left).
      apply elem_of_cons in Hx as [->|Hx]; [lia|].
      apply elem_of_cons in Hx as [->|Hx]; [lia|].
      apply Hle, elem_of_cons. by right.
Qed.

Lemma foldl_max_spec (l : list Z) :
  forall a : Z,
    foldl Z.max a l ∈ a :: l /\ (forall x : Z, x ∈ a :: l -> (x <= foldl Z.max a l)%Z).
Proof.
  induction l as [|b l IH]; intros a; simpl.
  - split; [apply elem_of_cons; by left|].
    intros x ->%list_elem_of_singleton. lia.
  - destruct (IH (Z.max a b)) as [Hin Hle]. split.
    + apply elem_of_cons in Hin as [Hin|Hin].
      * rewrite Hin. rewrite !elem_of_cons.
        destruct (Z.max_spec a b) as [[_ ->]|[_ ->]]; auto.
      * rewrite !elem_of_cons. auto.
    + intros x Hx.
      assert (Hm : (Z.max a b <= foldl Z.max (Z.max a b) l)%Z)
        by (apply Hle, elem_of_cons; by left).
      apply elem_of_cons in Hx as [->|Hx]; [lia|].
      apply elem_of_cons in Hx as [->|Hx]; [lia|].
      apply Hle, elem_of_cons. by right.
Qed.

(** X13.  The bounds of a ProjectDiscovery program come from the dollar
    amounts of its lower-cased bounty text.  When the text holds [yes] or a
    dollar sign, the program is not VDP-only and: two amounts or more give
    the smallest of them as [bounty_min] and the largest as [bounty_max]; a
    single amount becomes [bounty_max], with no [bounty_min]; no amount
    gives no bound.  Otherwise the program has no bound, and it is VDP-only
    exactly when the text holds [no] or [swag].  Its assets are the first
    twenty domains of the entry, in their order. *)
Theorem projectdiscovery_bounds_and_assets (item : ProjectDiscovery.Item)
    (p : Program.t) :
  pd_parse item = Ok p ->
  let bounty := PyStr.lower (default "" (ProjectDiscovery.bounty item)) in
  (if PyStr.contains "yes" bounty || PyStr.contains "$" bounty
   then Program.vdp_only p = false
        /\ exists amounts : list Z,
             dollar_amounts bounty = Ok amounts
             /\ match amounts with
                | [] => Program.bounty_min p = None /\ Program.bounty_max p = None
                | [a] => Program.bounty_min p = None /\ Program.bounty_max p = Some a
                | _ =>
                    exists lo hi : Z,
                      Program.bounty_min p = Some lo /\ Program.bounty_max p = Some hi
                      /\ lo ∈ amounts /\ hi ∈ amounts
                      /\ forall x : Z, x ∈ amounts -> (lo <= x <= hi)%Z
                end
   else Program.bounty_min p = None /\ Program.bounty_max p = None
        /\ Program.vdp_only p
           = (PyStr.contains "no" bounty || PyStr.contains "swag" bounty))
  /\ Program.offers_bounties p = negb (Program.vdp_only p)
  /\ Program.assets p = take 20 (default [] (ProjectDiscovery.domains item))
  /\ length (Program.assets p) <= 20.
Proof.
  unfold ProjectDiscovery._parse_program.
  destruct (ProjectDiscovery._detect_platform _ _) as [platform|e]; [|discriminate].
  destruct (ProjectDiscovery._generate_slug _ _ _) as [slug|e]; [|discriminate].
  destruct (ProjectDiscovery.classify_bounty _ _) as [[[bmin bmax] vdp]|e] eqn:Hclass;
    [|discriminate].
  intros [= <-]. cbv zeta.
  match goal with |- context [Program.post_init _ ?q] =>
    destruct (post_init_fields md5_hexdigest q) as (_ & _ & F3 & F4 & F5 & F6);
    destruct (post_init_other_fields md5_hexdigest q) as (_ & _ & G3 & _)
  end.
  rewrite F3, F4, F5, F6, G3.
  cbn [Program.bounty_min Program.bounty_max Program.vdp_only Program.assets
       Program.offers_bounties].
  split; [|split; [reflexivity|split; [reflexivity|rewrite length_take; lia]]].
  unfold ProjectDiscovery.classify_bounty in Hclass.
  destruct (PyStr.contains "yes" _ || PyStr.contains "$" _).
  - destruct (dollar_amounts _) as [[|a [|b amounts]]|e]; [| | |discriminate];
      injection Hclass as <- <- <-;
      (split; [reflexivity|]); eexists; (split; [reflexivity|]); [by split|by split|].
    destruct (foldl_min_spec (b :: amounts) a) as [Hin Hle].
    destruct (foldl_max_spec (b :: amounts) a) as [Hin' Hle'].
    eexists _, _. split; [reflexivity|]. split; [reflexivity|].
    split; [exact Hin|]. split; [exact Hin'|].
    intros x Hx. split; [by apply Hle|by apply Hle'].
  - destruct (PyStr.contains "no" _ || PyStr.contains "swag" _);
      injection Hclass as <- <- <-; by repeat split.
Qed.

Lemma parse_items_app (items : list ProjectDiscovery.Item) :
  forall (acc ps : list Program.t),
    ProjectDiscovery.parse_items md5_hexdigest urlparse dollar_amounts items acc = Ok ps ->
    exists qs : list Program.t,
      ps = (acc ++ qs)%list /\ Forall2 (fun item q => pd_parse item = Ok q) items qs.
Proof.
  induction items as [|item items IH]; intros acc ps; simpl.
  - intros [= <-]. exists []. by rewrite app_nil_r.
  - destruct (pd_parse item) as [q|e] eqn:Hq; [|discriminate]. intros Hps.
    destruct (IH _ _ Hps) as (qs & -> & Hall).
    exists (q :: qs). rewrite <- app_assoc. split; [reflexivity|]. by constructor.
Qed.

Lemma parse_items_raise (items : list ProjectDiscovery.Item)
    (item : ProjectDiscovery.Item) (e : exn) :
  item ∈ items -> pd_parse item = Raise e ->
  forall acc : list Program.t,
    exists e' : exn,
      ProjectDiscovery.parse_items md5_hexdigest urlparse dollar_amounts items acc
      = Raise e'.
Proof.
  intros Hin He. induction items as [|item' items IH]; intros acc; simpl.
  - by apply elem_of_nil in Hin.
  - destruct (pd_parse item') as [q|e'] eqn:Hq; [|by eexists].
    apply elem_of_cons in Hin as [->|Hin]; [congruence|]. by apply IH.
Qed.

Lemma parse_items_all (items : list ProjectDiscovery.Item) :
  (forall item : ProjectDiscovery.Item, item ∈ items -> exists q, pd_parse item = Ok q) ->
  forall acc : list Program.t,
    exists ps : list Program.t,
      ProjectDiscovery.parse_items md5_hexdigest urlparse dollar_amounts items acc = Ok ps.
Proof.
  induction items as [|item items IH]; intros Hall acc; simpl; [by eexists|].
  destruct (Hall item) as [q ->]; [apply elem_of_cons; by left|].
  apply IH. intros it Hit. apply Hall, elem_of_cons. by right.
Qed.

(** X14.  The ProjectDiscovery adapter parses all entries of the file or
    none: when the parsing of one entry raises, the programs of all entries
    are dropped and the adapter returns the empty list, so that the run is
    logged as a success that found nothing and leaves the catalogue as it
    was; when every entry parses, it returns one program per entry, in the
    order of the file. *)
Theorem projectdiscovery_all_or_nothing (items : list ProjectDiscovery.Item)
    (w : World) :
  (forall (item : ProjectDiscovery.Item) (e : exn),
     item ∈ items -> pd_parse item = Raise e ->
     scrape_programs (BaseScraper := PD) (Ok (ProjectDiscovery.mkFeed (Some items)))
     = Ok []
     /\ exists (log : ScrapeLog.t) (w' : World),
          run (H := PD) (Ok (ProjectDiscovery.mkFeed (Some items))) w = (Ok log, w')
          /\ ScrapeLog.success log = true
          /\ ScrapeLog.programs_found log = 0
          /\ programs w' = programs w)
  /\ ((forall item : ProjectDiscovery.Item,
         item ∈ items -> exists q : Program.t, pd_parse item = Ok q) ->
      exists ps : list Program.t,
        scrape_programs (BaseScraper := PD) (Ok (ProjectDiscovery.mkFeed (Some items)))
        = Ok ps
        /\ Forall2 (fun item q => pd_parse item = Ok q) items ps).
Proof.
  split.
  - intros item e Hin He.
    assert (Hnone : scrape_programs (BaseScraper := PD)
                      (Ok (ProjectDiscovery.mkFeed (Some items))) = Ok []).
    { simpl. unfold ProjectDiscovery.scrape. simpl.
      destruct (parse_items_raise items item e Hin He []) as [e' ->]. reflexivity. }
    split; [exact Hnone|].
    destruct (run_empty_fetch (H := PD) _ w Hnone)
      as (log & w' & Hrun & Hfound & _ & _ & Hok & _ & Hsame & _).
    exists log, w'. auto.
  - intros Hall. destruct (parse_items_all items Hall []) as [ps Hps].
    exists ps. simpl. unfold ProjectDiscovery.scrape. simpl. rewrite Hps.
    split; [reflexivity|].
    destruct (parse_items_app _ _ _ Hps) as (qs & -> & Hqs). exact Hqs.
Qed.

End ProjectDiscoveryFacts.

Lemma generated_slug_well_formed_witness :
  ProjectDiscovery._generate_slug urlparse_hackerone
    "https://hackerone.com/Acme_Corp/" "Acme" = Ok "acme-corp"
  /\ well_formed_slug "acme-corp".
Proof.
  assert (H : ProjectDiscovery._generate_slug urlparse_hackerone
                "https://hackerone.com/Acme_Corp/" "Acme" = Ok "acme-corp")
    by (vm_compute; reflexivity).
  split; [exact H|].
  apply (generated_slug_well_formed urlparse_hackerone _ _ _ H).
Defined.

Lemma detectors_have_fixed_ranges_witness :
  ProjectDiscovery._detect_platform urlparse_hackerone "https://hackerone.com/acme"
  = Ok "hackerone"
  /\ "hackerone" ∈ platform_names
  /\ ProjectDiscovery._detect_asset_types ["api.acme.example"] <> [].
Proof.
  assert (H : ProjectDiscovery._detect_platform urlparse_hackerone
                "https://hackerone.com/acme" = Ok "hackerone")
    by (vm_compute; reflexivity).
  split; [exact H|].
  destruct (detectors_have_fixed_ranges urlparse_hackerone _ _ ["api.acme.example"] H)
    as [[Hin _] (Hne & _)].
  split; [exact Hin|exact Hne].
Defined.

Lemma projectdiscovery_bounds_and_assets_witness :
  exists p : Program.t,
    ProjectDiscovery._parse_program (fun s => s) urlparse_hackerone two_amounts
      (full_item "Acme" "https://hackerone.com/acme" "Yes, $100 - $5,000"
         ["acme.example"]) = Ok p
    /\ Program.bounty_min p = Some 100%Z
    /\ Program.assets p = ["acme.example"].
Proof.
  destruct (ProjectDiscovery._parse_program (fun s => s) urlparse_hackerone two_amounts
              (full_item "Acme" "https://hackerone.com/acme" "Yes, $100 - $5,000"
                 ["acme.example"])) as [p|e] eqn:Hparse;
    [|vm_compute in Hparse; discriminate].
  destruct (projectdiscovery_bounds_and_assets (fun s => s) urlparse_hackerone
              two_amounts _ p Hparse) as (_ & _ & Hassets & _).
  exists p. split; [reflexivity|]. split; [|exact Hassets].
  vm_compute in Hparse. by injection Hparse as <-.
Defined.

Lemma projectdiscovery_all_or_nothing_witness :
  exists item : ProjectDiscovery.Item,
    item ∈ [bare_item "Acme"; item]
    /\ ProjectDiscovery._parse_program (fun s => s) no_urlparse no_amounts item
       = Raise (Exception "ValueError" "urlparse")
    /\ scrape_programs
         (BaseScraper := ProjectDiscovery.ProjectDiscoveryScraper (fun s => s)
                           no_urlparse no_amounts)
         (Ok (ProjectDiscovery.mkFeed (Some [bare_item "Acme"; item])))
       = Ok [].
Proof.
  exists (full_item "Bolt" "http://[bolt" "" []).
  assert (Hin : full_item "Bolt" "http://[bolt" "" []
                ∈ [bare_item "Acme"; full_item "Bolt" "http://[bolt" "" []]).
  { apply elem_of_cons. right. apply elem_of_cons. by left. }
  assert (He : ProjectDiscovery._parse_program (fun s => s) no_urlparse no_amounts
                 (full_item "Bolt" "http://[bolt" "" [])
               = Raise (Exception "ValueError" "urlparse")) by reflexivity.
  split; [exact Hin|]. split; [exact He|].
  destruct (projectdiscovery_all_or_nothing (fun s => s) no_urlparse no_amounts
              [bare_item "Acme"; full_item "Bolt" "http://[bolt" "" []] empty_world)
    as [Hdrop _].
  exact (proj1 (Hdrop _ _ Hin He)).
Defined.

(** ** Identities derived from platform and slug *)
Section DerivedIdentities.
Import BountyDatabase Engine.
Variable md5_hexdigest : string -> string.
Variable key : string -> string -> string.





End DerivedIdentities.


(** ** Slugs of slugs, and one program seen by both adapters *)
Section SlugIdentity.

Lemma slug_char_cases (c : ascii) :
  is_slug_char c = true ->
  PyStr.lower_ascii c = c
  /\ c <> "226"%char /\ c <> "196"%char /\ c <> "/"%char
  /\ (PyStr.is_lower_alnum c = false -> c = "-"%char).
Proof.
  intros Hc.
  assert (Hne : forall d : ascii, is_slug_char d = false -> c <> d)
    by (intros d Hd ->; congruence).
  split; [|split; [by apply Hne|split; [by apply Hne|split; [by apply Hne|]]]].
  - unfold is_slug_char, PyStr.is_lower_alnum, PyStr.lower_ascii, PyStr.between in *.
    destruct (Ascii.eqb c "-") eqn:Heq; [apply Ascii.eqb_eq in Heq as ->; reflexivity|].
    rewrite orb_false_r in Hc.
    destruct (65 <=? PyStr.code c)%nat eqn:H1; [|reflexivity].
    destruct (PyStr.code c <=? 90)%nat eqn:H2; [|reflexivity]. exfalso.
    apply Nat.leb_le in H1, H2.
    apply orb_true_iff in Hc as [Hc|Hc]; apply andb_true_iff in Hc as [H3 H4];
      apply Nat.leb_le in H3, H4; lia.
  - intros Hl. unfold is_slug_char in Hc. rewrite Hl in Hc. simpl in Hc.
    by apply Ascii.eqb_eq in Hc.
Qed.

Lemma lower_slug (s : string) :
  PyStr.existsb_str (fun c => negb (is_slug_char c)) s = false ->
  PyStr.lower s = s.
Proof.
  unfold PyStr.lower. induction s as [|c s IH]; [reflexivity|].
  cbn [PyStr.existsb_str]. intros [Hc Hs]%orb_false_iff.
  apply negb_false_iff in Hc.
  destruct (slug_char_cases c Hc) as (Hlow & Hk & Hi & _).
  cbn [PyStr.lower_from]. unfold PyStr.kelvin_sign, PyStr.capital_i_dot.
  rewrite !prefix_cons.
  destruct (ascii_dec "226" c) as [<-|_]; [done|].
  destruct (ascii_dec "196" c) as [<-|_]; [done|].
  by rewrite Hlow, IH.
Qed.

Lemma sub_runs_slug (s : string) :
  forall b : bool,
    PyStr.existsb_str (fun c => negb (is_slug_char c)) s = false ->
    PyStr.contains "--" s = false ->
    (b = true -> String.prefix "-" s = false) ->
    PyStr.sub_runs b s = s.
Proof.
  induction s as [|c s IH]; intros b; [reflexivity|].
  cbn [PyStr.existsb_str PyStr.contains PyStr.sub_runs].
  intros [Hc Hs]%orb_false_iff [Hp Hcont]%orb_false_iff Hb.
  apply negb_false_iff in Hc. destruct (slug_char_cases c Hc) as (_ & _ & _ & _ & Hh).
  destruct (PyStr.is_lower_alnum c) eqn:Hl.
  - rewrite (IH false) by done. reflexivity.
  - rewrite (Hh eq_refl) in *.
    destruct b.
    + specialize (Hb eq_refl). rewrite prefix_cons in Hb.
      destruct (ascii_dec "-" "-"); [|done]. by destruct s.
    + rewrite (IH true); [reflexivity|done|done|].
      intros _. rewrite prefix_cons in Hp. by destruct (ascii_dec "-" "-").
Qed.

(** A well-formed slug is its own slug. *)
Lemma slugify_id (t : string) :
  well_formed_slug t -> ProjectDiscovery.slugify t = t.
Proof.
  intros (Hchars & Hstrip & Hruns).
  unfold ProjectDiscovery.slugify, PyStr.re_sub_non_alnum.
  rewrite lower_slug by done. rewrite sub_runs_slug by done. exact Hstrip.
Qed.

Lemma rstrip_absent (c : ascii) (s : string) :
  PyStr.existsb_str (Ascii.eqb c) s = false -> PyStr.rstrip c s = s.
Proof.
  induction s as [|a s IH]; [reflexivity|]. cbn [PyStr.existsb_str PyStr.rstrip].
  intros [Ha Hs]%orb_false_iff. rewrite (IH Hs).
  destruct s; [|reflexivity]. rewrite Ascii.eqb_sym in Ha. by rewrite Ha.
Qed.

Lemma lstrip_absent (c : ascii) (s : string) :
  PyStr.existsb_str (Ascii.eqb c) s = false -> PyStr.lstrip c s = s.
Proof.
  destruct s as [|a s]; [reflexivity|]. cbn [PyStr.existsb_str PyStr.lstrip].
  intros [Ha _]%orb_false_iff. rewrite Ascii.eqb_sym in Ha. by rewrite Ha.
Qed.

Lemma split_absent (c : ascii) (s : string) :
  PyStr.existsb_str (Ascii.eqb c) s = false -> PyStr.split c s = [s].
Proof.
  induction s as [|a s IH]; [reflexivity|]. cbn [PyStr.existsb_str PyStr.split].
  intros [Ha Hs]%orb_false_iff. rewrite Ascii.eqb_sym in Ha. by rewrite Ha, (IH Hs).
Qed.

Lemma slug_has_no_slash (s : string) :
  PyStr.existsb_str (fun c => negb (is_slug_char c)) s = false ->
  PyStr.existsb_str (Ascii.eqb "/") s = false.
Proof.
  induction s as [|c s IH]; [reflexivity|]. cbn [PyStr.existsb_str].
  intros [Hc Hs]%orb_false_iff. apply negb_false_iff in Hc.
  destruct (slug_char_cases c Hc) as (_ & _ & _ & Hslash & _).
  rewrite (IH Hs), orb_false_r. apply Ascii.eqb_neq. congruence.
Qed.

Variable md5_hexdigest : string -> string.
Variable urlparse : string -> Result ProjectDiscovery.ParseResult.
Variable dollar_amounts : string -> Result (list Z).

(** X23.  Making the slug of a slug changes nothing: [slugify] leaves every
    well-formed slug as it is, and so every slug it has made. *)
Theorem slugify_idempotent (s : string) :
  ProjectDiscovery.slugify (ProjectDiscovery.slugify s) = ProjectDiscovery.slugify s
  /\ (forall t : string, well_formed_slug t -> ProjectDiscovery.slugify t = t).
Proof.
  split; [apply slugify_id, slugify_well_formed|apply slugify_id].
Qed.

(** X24.  A ProjectDiscovery entry whose URL is on [hackerone.com] with a
    well-formed slug as its path, and the HackerOne node with that slug as
    its handle, are one program: both adapters give it the platform
    [hackerone], that slug and the same identity, so that the upsert of the
    one after the other is never an insert. *)
Theorem both_adapters_one_identity (item : ProjectDiscovery.Item)
    (node : HackerOne.Node) (url handle : string)
    (parsed : ProjectDiscovery.ParseResult) (p : Program.t) :
  ProjectDiscovery.url item = Some url ->
  url <> "" ->
  urlparse url = Ok parsed ->
  PyStr.contains "hackerone.com" (PyStr.lower (ProjectDiscovery.netloc parsed)) = true ->
  ProjectDiscovery.path parsed = "/" +:+ handle ->
  well_formed_slug handle ->
  handle <> "" ->
  HackerOne.handle node = Some handle ->
  ProjectDiscovery._parse_program md5_hexdigest urlparse dollar_amounts item = Ok p ->
  Program.platform p = "hackerone"
  /\ Program.slug p = handle
  /\ Program.id p = Program.id (HackerOne._parse_program md5_hexdigest node)
  /\ forall (w w1 w2 : World) (first second : bool * bool),
       BountyDatabase.upsert_program (HackerOne._parse_program md5_hexdigest node) w
       = (Ok first, w1) ->
       BountyDatabase.upsert_program p w1 = (Ok second, w2) ->
       second.1 = false.
Proof.
  intros Hurl Hne Hparsed Hnetloc Hpath Hwf Hhandle Hnode Hparse.
  assert (Hslug : ProjectDiscovery._generate_slug urlparse url
                    (default "" (ProjectDiscovery.name item)) = Ok handle).
  { unfold ProjectDiscovery._generate_slug. destruct url as [|c url]; [done|].
    cbn [PyStr.truthy negb]. rewrite Hparsed, Hpath.
    destruct Hwf as (Hchars & Hstrip & Hruns).
    pose proof (slug_has_no_slash _ Hchars) as Hslash.
    assert (Hseg : PyStr.split "/" (PyStr.strip "/" ("/" +:+ handle)) = [handle]).
    { unfold PyStr.strip.
      change (PyStr.lstrip "/" ("/" +:+ handle)) with (PyStr.lstrip "/" handle).
      by rewrite lstrip_absent, rstrip_absent, split_absent. }
    rewrite Hseg. cbn [List.last]. rewrite slugify_id by done.
    by destruct handle. }
  assert (Hplatform : ProjectDiscovery._detect_platform urlparse url = Ok "hackerone").
  { unfold ProjectDiscovery._detect_platform. destruct url as [|c url]; [done|].
    cbn [PyStr.truthy negb]. by rewrite Hparsed, Hnetloc. }
  unfold ProjectDiscovery._parse_program in Hparse.
  rewrite Hurl in Hparse. change (default "" (Some url)) with url in Hparse.
  rewrite Hplatform, Hslug in Hparse.
  destruct (ProjectDiscovery.classify_bounty _ _) as [[[bmin bmax] vdp]|];
    [|discriminate].
  injection Hparse as <-.
  match goal with |- context [Program.post_init _ ?q] =>
    destruct (post_init_fields md5_hexdigest q) as (Hpf & Hsl & _);
    pose proof (post_init_empty_id md5_hexdigest q eq_refl) as Hid
  end.
  cbn [Program.platform Program.slug] in Hid, Hpf, Hsl.
  assert (Hsame : Program.id (HackerOne._parse_program md5_hexdigest node)
                  = String.substring 0 16
                      (md5_hexdigest (PyStr.lower ("hackerone" +:+ ":" +:+ handle)))).
  { unfold HackerOne._parse_program. rewrite Hnode.
    by rewrite post_init_empty_id. }
  split; [exact Hpf|]. split; [exact Hsl|].
  split; [by rewrite Hid, Hsame|].
  intros w w1 w2 first second Hfirst Hsecond.
  destruct (upsert_program_row _ _ _ _ Hfirst) as (row & k & Hrow & _).
  rewrite Hsame, <- Hid in Hrow.
  rewrite (upsert_program_existing _ _ _ Hrow) in Hsecond.
  destruct (ints_fit _); [|discriminate]. by injection Hsecond as <- _.
Qed.

End SlugIdentity.

Lemma both_adapters_one_identity_witness :
  exists p : Program.t,
    ProjectDiscovery._parse_program (fun s => s) urlparse_hackerone no_amounts
      (full_item "Acme" "https://hackerone.com/acme" "" []) = Ok p
    /\ Program.id p
       = Program.id (HackerOne._parse_program (fun s => s) (node_of "acme" true 100)).
Proof.
  destruct (ProjectDiscovery._parse_program (fun s => s) urlparse_hackerone no_amounts
              (full_item "Acme" "https://hackerone.com/acme" "" [])) as [p|e] eqn:Hparse;
    [|vm_compute in Hparse; discriminate].
  exists p. split; [reflexivity|].
  assert (Hwf : well_formed_slug "acme") by (by repeat split).
  destruct (both_adapters_one_identity (fun s => s) urlparse_hackerone no_amounts
              (full_item "Acme" "https://hackerone.com/acme" "" [])
              (node_of "acme" true 100) "https://hackerone.com/acme" "acme"
              (ProjectDiscovery.mkParseResult "hackerone.com" "/acme") p
              eq_refl ltac:(discriminate) eq_refl eq_refl eq_refl Hwf
              ltac:(discriminate) eq_refl Hparse)
    as (_ & _ & Hid & _).
  exact Hid.
Defined.

(** ** The statistics of the catalogue *)
Section StatsFacts.
Import BountyDatabase Engine.

Lemma count_where_insert (cond : ProgramRow.t -> bool) (tbl : gmap string ProgramRow.t)
    (i : string) (r : ProgramRow.t) :
  tbl !! i = None ->
  count_where cond (<[i := r]> tbl)
  = count_where cond tbl + (if cond r then 1 else 0).
Proof.
  intros Hi. unfold count_where. rewrite map_filter_insert. simpl.
  destruct (decide (cond r = true)) as [Hc|Hc].
  - rewrite Hc, map_size_insert_None; [lia|].
    apply map_lookup_filter_None. by left.
  - destruct (cond r); [done|]. rewrite delete_id by done. lia.
Qed.

Lemma count_where_replace (cond : ProgramRow.t -> bool) (tbl : gmap string ProgramRow.t)
    (i : string) (r r' : ProgramRow.t) :
  tbl !! i = Some r ->
  count_where cond (<[i := r']> tbl) + (if cond r then 1 else 0)
  = count_where cond tbl + (if cond r' then 1 else 0).
Proof.
  intros Hi. rewrite <- (insert_delete_id tbl i r Hi) at 2.
  rewrite <- (insert_delete_eq tbl i r').
  rewrite !count_where_insert by apply lookup_delete_eq. lia.
Qed.

Lemma alter_as_insert (f : ProgramRow.t -> ProgramRow.t) (tbl : gmap string ProgramRow.t)
    (i : string) (r : ProgramRow.t) :
  tbl !! i = Some r -> alter f i tbl = <[i := f r]> tbl.
Proof.
  intros Hi. apply map_eq. intros j. destruct (decide (j = i)) as [->|Hne].
  - by rewrite lookup_alter_eq, lookup_insert_eq, Hi.
  - by rewrite lookup_alter_ne, lookup_insert_ne by congruence.
Qed.

Lemma platforms_of_insert (tbl : gmap string ProgramRow.t) (i : string)
    (r : ProgramRow.t) :
  tbl !! i = None ->
  platforms_of (<[i := r]> tbl) = {[ProgramRow.platform r]} ∪ platforms_of tbl.
Proof. intros Hi. unfold platforms_of. by rewrite map_to_set_insert_L. Qed.

Lemma elem_of_platforms_of (tbl : gmap string ProgramRow.t) (pf : string) :
  pf ∈ platforms_of tbl
  <-> exists (i : string) (r : ProgramRow.t),
        tbl !! i = Some r /\ ProgramRow.platform r = pf.
Proof. unfold platforms_of. apply elem_of_map_to_set. Qed.

Lemma platforms_of_alter (f : ProgramRow.t -> ProgramRow.t)
    (tbl : gmap string ProgramRow.t) (i : string) :
  (forall r : ProgramRow.t, ProgramRow.platform (f r) = ProgramRow.platform r) ->
  platforms_of (alter f i tbl) = platforms_of tbl.
Proof.
  intros Hf. apply set_eq. intros pf. rewrite !elem_of_platforms_of. split.
  - intros (j & r & Hj & Hpf). destruct (decide (j = i)) as [->|Hne].
    + rewrite lookup_alter_eq in Hj. destruct (tbl !! i) as [r0|] eqn:Hi; [|done].
      injection Hj as <-. exists i, r0. by rewrite <- Hf.
    + rewrite lookup_alter_ne in Hj by congruence. eauto.
  - intros (j & r & Hj & Hpf). destruct (decide (j = i)) as [->|Hne].
    + exists i, (f r). by rewrite lookup_alter_eq, Hj, Hf.
    + exists j, r. by rewrite lookup_alter_ne by congruence.
Qed.

(** The number of rows of a platform. *)
Local Abbreviation rows_of pf := (count_where (fun r => bool_decide (ProgramRow.platform r = pf))).

Lemma by_platform_lookup (tbl : gmap string ProgramRow.t) (pf : string) :
  (set_to_map (fun pf => (pf, rows_of pf tbl)) (platforms_of tbl) : gmap string nat) !! pf
  = if bool_decide (pf ∈ platforms_of tbl) then Some (rows_of pf tbl) else None.
Proof.
  destruct (bool_decide (pf ∈ platforms_of tbl)) eqn:Hin.
  - apply bool_decide_eq_true in Hin. apply lookup_set_to_map; [by intros y y' _ _ ?|].
    by exists pf.
  - apply bool_decide_eq_false in Hin. apply eq_None_not_Some. intros [n Hn].
    apply lookup_set_to_map in Hn as (y & Hy & [= -> _]); [done|by intros y y' _ _ ?].
Qed.

Lemma rows_of_pos (tbl : gmap string ProgramRow.t) (pf : string) :
  pf ∈ platforms_of tbl -> 0 < rows_of pf tbl.
Proof.
  intros (i & r & Hi & Hpf)%elem_of_platforms_of. unfold count_where.
  assert (Hne : size (filter (fun kv : string * ProgramRow.t =>
                                bool_decide (ProgramRow.platform kv.2 = pf) = true) tbl)
                ≠ 0); [|lia].
  apply (map_size_ne_0_lookup_2 _ i). exists r.
  apply map_lookup_filter_Some. split; [done|].
  simpl. by apply bool_decide_eq_true.
Qed.

Lemma sum_list_perm (l k : list nat) : l ≡ₚ k -> sum_list l = sum_list k.
Proof. induction 1; simpl; lia. Qed.

Lemma sum_list_plus {A : Type} (f g : A -> nat) (l : list A) :
  sum_list ((fun x => f x + g x) <$> l) = sum_list (f <$> l) + sum_list (g <$> l).
Proof. induction l as [|x l IH]; csimpl; lia. Qed.

Lemma sum_list_indicator_0 (x : string) (l : list string) :
  x ∉ l -> sum_list ((fun y => if bool_decide (x = y) then 1 else 0) <$> l) = 0.
Proof.
  induction l as [|z l IH]; csimpl; [done|].
  intros [Hxz Hl]%not_elem_of_cons.
  rewrite bool_decide_eq_false_2 by done. by rewrite IH.
Qed.

Lemma sum_list_indicator (x : string) (l : list string) :
  NoDup l -> x ∈ l ->
  sum_list ((fun y => if bool_decide (x = y) then 1 else 0) <$> l) = 1.
Proof.
  induction 1 as [|y l Hy Hnd IH]; intros Hin; [by apply elem_of_nil in Hin|].
  csimpl. destruct (decide (x = y)) as [->|Hxy].
  - rewrite bool_decide_eq_true_2 by done. by rewrite sum_list_indicator_0.
  - rewrite bool_decide_eq_false_2 by done.
    apply elem_of_cons in Hin as [Hin|Hin]; [done|]. by rewrite IH.
Qed.

(** The rows of the platforms add up to the rows of the table. *)
Lemma rows_of_sum (tbl : gmap string ProgramRow.t) :
  forall X : gset string,
    platforms_of tbl ⊆ X ->
    sum_list ((fun pf => rows_of pf tbl) <$> elements X) = size tbl.
Proof.
  induction tbl as [|i r tbl Hi IH] using map_ind; intros X HX.
  - rewrite map_size_empty.
    assert (Hz : forall l : list string,
              sum_list ((fun pf => rows_of pf (∅ : gmap string ProgramRow.t)) <$> l) = 0).
    { induction l as [|y l IHl]; simpl; [done|].
      unfold count_where at 1. by rewrite map_filter_empty, map_size_empty. }
    apply Hz.
  - rewrite platforms_of_insert in HX by done.
    rewrite map_size_insert_None by done.
    rewrite (list_fmap_ext _
               (fun pf => rows_of pf tbl
                          + (if bool_decide (ProgramRow.platform r = pf) then 1 else 0))
               (elements X))
      by (intros ? pf _; by apply count_where_insert).
    rewrite sum_list_plus, IH, sum_list_indicator; [lia| | |].
    + apply NoDup_elements.
    + apply elem_of_elements, HX, elem_of_union_l, elem_of_singleton. reflexivity.
    + intros pf Hpf. apply HX, elem_of_union_r, Hpf.
Qed.

Lemma size_platforms_of (tbl : gmap string ProgramRow.t) :
  size (platforms_of tbl) <= size tbl.
Proof.
  induction tbl as [|i r tbl Hi IH] using map_ind.
  - unfold platforms_of. by rewrite map_to_set_empty, size_empty, map_size_empty.
  - rewrite platforms_of_insert, map_size_insert_None by done.
    rewrite size_union_alt, size_singleton.
    pose proof (subseteq_size (platforms_of tbl ∖ {[ProgramRow.platform r]})
                  (platforms_of tbl)) as Hsub.
    assert (platforms_of tbl ∖ {[ProgramRow.platform r]} ⊆ platforms_of tbl)
      by (intros x Hx; by apply elem_of_difference in Hx as [? _]).
    specialize (Hsub ltac:(assumption)). lia.
Qed.

Lemma by_platform_list (tbl : gmap string ProgramRow.t) :
  map_to_list
    (set_to_map (fun pf => (pf, rows_of pf tbl)) (platforms_of tbl) : gmap string nat)
  ≡ₚ (fun pf => (pf, rows_of pf tbl)) <$> elements (platforms_of tbl).
Proof.
  unfold set_to_map. apply map_to_list_to_map.
  rewrite <- list_fmap_compose.
  rewrite (list_fmap_ext _ id (elements (platforms_of tbl))) by done.
  rewrite list_fmap_id. apply NoDup_elements.
Qed.

(** X15.  The statistics agree with one another: [total_programs] is the
    number of rows; [new_this_week], [paid_programs] and [platforms] are at
    most that number; [by_platform] has one entry per platform that occurs,
    with the number of rows of that platform, which is never zero; and its
    entries add up to [total_programs].  [get_stats] changes nothing. *)
Theorem get_stats_consistent (recent : isotext -> bool) (w : World) :
  exists stats : Stats.t,
    get_stats recent w = (Ok stats, w)
    /\ Stats.total_programs stats = size (programs w)
    /\ Stats.new_this_week stats <= Stats.total_programs stats
    /\ Stats.paid_programs stats <= Stats.total_programs stats
    /\ Stats.platforms stats <= Stats.total_programs stats
    /\ Stats.platforms stats = size (Stats.by_platform stats)
    /\ (forall (pf : string) (n : nat),
          Stats.by_platform stats !! pf = Some n ->
          0 < n /\ n = rows_of pf (programs w))
    /\ (forall (i : string) (r : ProgramRow.t),
          programs w !! i = Some r ->
          is_Some (Stats.by_platform stats !! ProgramRow.platform r))
    /\ sum_list (map_to_list (Stats.by_platform stats)).*2
       = Stats.total_programs stats.
Proof.
  eexists. split; [reflexivity|]. cbn [Stats.total_programs Stats.new_this_week
    Stats.paid_programs Stats.platforms Stats.by_platform].
  split; [reflexivity|].
  split; [apply map_size_filter|]. split; [apply map_size_filter|].
  split; [apply size_platforms_of|].
  split.
  { rewrite <- (length_map_to_list (set_to_map _ _)), by_platform_list, length_fmap.
    reflexivity. }
  split.
  { intros pf n. rewrite by_platform_lookup.
    destruct (bool_decide (pf ∈ platforms_of (programs w))) eqn:Hin; [|done].
    apply bool_decide_eq_true in Hin. intros [= <-].
    split; [by apply rows_of_pos|reflexivity]. }
  split.
  { intros i r Hi. rewrite by_platform_lookup, bool_decide_eq_true_2; [by eexists|].
    apply elem_of_platforms_of. eauto. }
  rewrite by_platform_list, <- list_fmap_compose.
  apply (rows_of_sum (programs w) (platforms_of (programs w))). reflexivity.
Qed.

Lemma count_where_alter (cond : ProgramRow.t -> bool) (f : ProgramRow.t -> ProgramRow.t)
    (tbl : gmap string ProgramRow.t) (i : string) :
  (forall r : ProgramRow.t, cond (f r) = cond r) ->
  count_where cond (alter f i tbl) = count_where cond tbl.
Proof.
  intros Hf. destruct (tbl !! i) as [r|] eqn:Hi.
  - rewrite (alter_as_insert _ _ _ _ Hi).
    pose proof (count_where_replace cond tbl i r (f r) Hi) as Hr.
    rewrite Hf in Hr. lia.
  - f_equal. apply map_eq. intros j. destruct (decide (j = i)) as [->|Hne].
    + by rewrite lookup_alter_eq, Hi.
    + by rewrite lookup_alter_ne by congruence.
Qed.

(** X16.  What an upsert does to the statistics, for one and the same week
    test: an insert adds one to [total_programs] and to the entry of the
    platform of the program in [by_platform], and leaves the other entries;
    an update leaves [total_programs], [platforms], [by_platform] and
    [new_this_week] as they were, whatever the program says. *)
Theorem upsert_moves_statistics (recent : isotext -> bool) (p : Program.t)
    (w : World) (is_new is_updated : bool) (w' : World) :
  upsert_program p w = (Ok (is_new, is_updated), w') ->
  exists stats stats' : Stats.t,
    get_stats recent w = (Ok stats, w)
    /\ get_stats recent w' = (Ok stats', w')
    /\ Stats.total_programs stats'
       = Stats.total_programs stats + (if is_new then 1 else 0)
    /\ (is_new = false ->
        Stats.by_platform stats' = Stats.by_platform stats
        /\ Stats.platforms stats' = Stats.platforms stats
        /\ Stats.new_this_week stats' = Stats.new_this_week stats)
    /\ (is_new = true ->
        Stats.by_platform stats' !! Program.platform p
        = Some (S (default 0 (Stats.by_platform stats !! Program.platform p)))
        /\ forall pf : string,
             pf <> Program.platform p ->
             Stats.by_platform stats' !! pf = Stats.by_platform stats !! pf).
Proof.
  intros Hup. eexists _, _. split; [reflexivity|]. split; [reflexivity|].
  cbn [Stats.total_programs Stats.new_this_week Stats.platforms Stats.by_platform].
  destruct (programs w !! Program.id p) as [row|] eqn:Hrow.
  - rewrite (upsert_program_existing _ _ _ Hrow) in Hup.
    destruct (ints_fit p); [|discriminate]. injection Hup as <- <- <-.
    cbn [programs set_programs tick].
    match goal with |- context [alter ?f ?i ?m] =>
      assert (Hpf : platforms_of (alter f i m) = platforms_of m)
        by (by apply platforms_of_alter);
      assert (Hrows : forall pf, rows_of pf (alter f i m) = rows_of pf m)
        by (intros pf; by apply count_where_alter);
      assert (Hseen : count_where (seen_recently recent) (alter f i m)
                      = count_where (seen_recently recent) m)
        by (by apply count_where_alter)
    end.
    split; [rewrite <- !size_dom, dom_alter_L; lia|]. split; [|discriminate].
    intros _. rewrite Hpf, Hseen. split; [|by split].
    unfold set_to_map. f_equal. apply list_fmap_ext. intros _ pf _. by rewrite Hrows.
  - rewrite (upsert_program_new _ _ Hrow) in Hup.
    destruct (negb (ints_fit p)); [discriminate|].
    destruct (bool_decide _); [discriminate|]. injection Hup as <- <- <-.
    cbn [programs set_programs tick].
    split; [rewrite map_size_insert_None by done; lia|]. split; [discriminate|].
    intros _. split.
    + rewrite !by_platform_lookup, platforms_of_insert by done.
      rewrite bool_decide_eq_true_2
        by (apply elem_of_union_l, elem_of_singleton; reflexivity).
      rewrite count_where_insert by done. cbn [inserted_row ProgramRow.platform].
      rewrite bool_decide_eq_true_2 by reflexivity.
      destruct (bool_decide (Program.platform p ∈ platforms_of (programs w))) eqn:Hin;
        simpl; [f_equal; lia|].
      apply bool_decide_eq_false in Hin. f_equal.
      destruct (rows_of (Program.platform p) (programs w)) as [|n] eqn:Hn; [done|].
      exfalso. apply Hin. unfold count_where in Hn.
      assert (Hsize : size (filter (fun kv : string * ProgramRow.t =>
                 bool_decide (ProgramRow.platform kv.2 = Program.platform p) = true)
                 (programs w)) ≠ 0) by lia.
      apply map_size_ne_0_lookup_1 in Hsize as (i & r & Hi).
      apply map_lookup_filter_Some in Hi as [Hi Hpf]. simpl in Hpf.
      apply bool_decide_eq_true in Hpf. apply elem_of_platforms_of. eauto.
    + intros pf Hpf. rewrite !by_platform_lookup, platforms_of_insert by done.
      rewrite count_where_insert by done. cbn [inserted_row ProgramRow.platform].
      rewrite (bool_decide_eq_false_2 (Program.platform p = pf)) by congruence.
      rewrite Nat.add_0_r.
      assert (Hiff : pf ∈ ({[Program.platform p]} : gset string) ∪ platforms_of (programs w)
                     <-> pf ∈ platforms_of (programs w)).
      { rewrite elem_of_union, elem_of_singleton. tauto. }
      destruct (bool_decide (pf ∈ platforms_of (programs w))) eqn:Hin.
      * apply bool_decide_eq_true in Hin. by rewrite bool_decide_eq_true_2 by tauto.
      * apply bool_decide_eq_false in Hin. by rewrite bool_decide_eq_false_2 by tauto.
Qed.

Lemma upsert_moves_statistics_witness :
  exists (w' : World) (stats stats' : Stats.t),
    upsert_program program_b world_a = (Ok (true, false), w')
    /\ get_stats (fun _ => true) world_a = (Ok stats, world_a)
    /\ get_stats (fun _ => true) w' = (Ok stats', w')
    /\ Stats.total_programs stats' = Stats.total_programs stats + 1.
Proof.
  destruct (upsert_program program_b world_a) as [r w'] eqn:Hup.
  assert (Hr : r = Ok (true, false)).
  { vm_compute in Hup. by injection Hup as <- _. }
  subst r.
  destruct (upsert_moves_statistics (fun _ => true) _ _ _ _ _ Hup)
    as (stats & stats' & H1 & H2 & H3 & _).
  exists w', stats, stats'. auto.
Defined.

End StatsFacts.

(** ** The listings of the catalogue *)
Section ListingFacts.
Import BountyDatabase Engine.
Variable sql_like : string -> string -> bool.
Variable json_loads_list : string -> Result (list string).
Variable json_loads_dict : string -> Result payload.

Local Abbreviation listing :=
  (get_all_programs sql_like json_loads_list json_loads_dict).
Local Abbreviation decode := (program_dict json_loads_list json_loads_dict).

Lemma length_filter_perm {A : Type} (f : A -> bool) (l k : list A) :
  l ≡ₚ k -> length (List.filter f l) = length (List.filter f k).
Proof.
  induction 1 as [|x l k _ IH|x y l|l1 l2 l3 _ IH1 _ IH2]; simpl.
  - reflexivity.
  - destruct (f x); simpl; lia.
  - destruct (f x), (f y); reflexivity.
  - lia.
Qed.

(** The rows that a scan of the table selects are as many as the rows that
    satisfy the condition. *)
Lemma length_filter_rows (cond : ProgramRow.t -> bool) (tbl : gmap string ProgramRow.t) :
  length (List.filter cond (map_to_list tbl).*2) = count_where cond tbl.
Proof.
  induction tbl as [|i r tbl Hi IH] using map_ind.
  - unfold count_where. by rewrite map_to_list_empty, map_filter_empty, map_size_empty.
  - rewrite count_where_insert by done.
    rewrite (length_filter_perm cond _ (r :: (map_to_list tbl).*2)).
    + simpl. destruct (cond r); simpl; lia.
    + change (r :: (map_to_list tbl).*2) with (((i, r) :: map_to_list tbl).*2).
      apply fmap_Permutation, map_to_list_insert, Hi.
Qed.

Lemma order_by_perm (sort_by : string) (rows : list ProgramRow.t) :
  order_by sort_by rows ≡ₚ rows.
Proof.
  unfold order_by.
  repeat match goal with |- context [if ?b then _ else _] => destruct b end;
    first [apply merge_sort_Permutation | reflexivity].
Qed.

Lemma program_dicts_app (rows : list ProgramRow.t) :
  forall acc dicts : list ProgramDict.t,
    program_dicts json_loads_list json_loads_dict rows acc = Ok dicts ->
    exists ds : list ProgramDict.t,
      dicts = (acc ++ ds)%list /\ Forall2 (fun r d => decode r = Ok d) rows ds.
Proof.
  induction rows as [|r rows IH]; intros acc dicts; simpl.
  - intros [= <-]. exists []. by rewrite app_nil_r.
  - destruct (decode r) as [d|e] eqn:Hd; [|discriminate]. intros Hrest.
    destruct (IH _ _ Hrest) as (ds & -> & Hall).
    exists (d :: ds). rewrite <- app_assoc. split; [reflexivity|]. by constructor.
Qed.

Lemma program_dict_columns (r : ProgramRow.t) (d : ProgramDict.t) :
  decode r = Ok d -> same_columns r d.
Proof.
  unfold program_dict.
  destruct (json_loads_list (ProgramRow.assets r)); [|discriminate].
  destruct (json_loads_list (ProgramRow.asset_types r)); [|discriminate].
  match goal with |- context [match ?x with Ok _ => _ | Raise _ => _ end] =>
    destruct x; [|discriminate]
  end.
  intros [= <-]. by repeat split.
Qed.

(** What [get_all_programs] returns when it returns. *)
Lemma listing_rows (recent : isotext -> bool) (filters : Filters.t) (w : World)
    (dicts : list ProgramDict.t) (w' : World) :
  listing recent filters w = (Ok dicts, w') ->
  w' = w
  /\ Forall2 (fun r d => decode r = Ok d)
       (select_programs sql_like recent filters (programs w)) dicts.
Proof.
  unfold get_all_programs, mbind, M_bind, get_state, raise. simpl.
  destruct (negb _); [discriminate|]. intros [= Hd <-]. split; [reflexivity|].
  destruct (program_dicts_app _ _ _ Hd) as (ds & -> & Hall). exact Hall.
Qed.

Lemma listing_length (recent : isotext -> bool) (filters : Filters.t) (w : World)
    (dicts : list ProgramDict.t) (w' : World) :
  listing recent filters w = (Ok dicts, w') ->
  length dicts = count_where (where_clause sql_like recent filters) (programs w).
Proof.
  intros Hl. destruct (listing_rows _ _ _ _ _ Hl) as [_ Hall].
  rewrite <- (Forall2_length _ _ _ Hall). unfold select_programs.
  rewrite (Permutation_length (order_by_perm _ _)). apply length_filter_rows.
Qed.

Lemma count_where_ext (f g : ProgramRow.t -> bool) (tbl : gmap string ProgramRow.t) :
  (forall r : ProgramRow.t, f r = g r) -> count_where f tbl = count_where g tbl.
Proof.
  intros Hfg. unfold count_where. f_equal. apply map_filter_ext.
  intros i r _. simpl. by rewrite Hfg.
Qed.

Lemma count_where_true (tbl : gmap string ProgramRow.t) :
  count_where (fun _ => true) tbl = size tbl.
Proof.
  unfold count_where. f_equal. apply map_filter_id. by intros.
Qed.

(** X17.  The listings agree with the statistics taken from the same
    catalogue with the same week test: whatever the order asked for, the
    listing without a filter has [total_programs] entries, the listing of a
    platform has as many as [by_platform] says (none for a platform that is
    not in it), the listing with [bounties_only] has [paid_programs] entries
    and the listing with [new_only] has [new_this_week]. *)
Theorem listings_agree_with_statistics (recent : isotext -> bool) (w : World)
    (sort_by : option string) :
  exists stats : Stats.t,
    get_stats recent w = (Ok stats, w)
    /\ (forall (dicts : list ProgramDict.t) (w' : World),
          listing recent (no_filter sort_by) w = (Ok dicts, w') ->
          length dicts = Stats.total_programs stats)
    /\ (forall (platform : string) (dicts : list ProgramDict.t) (w' : World),
          platform <> "" ->
          listing recent (Filters.mk (Some platform) None None None false false sort_by) w
          = (Ok dicts, w') ->
          length dicts = default 0 (Stats.by_platform stats !! platform))
    /\ (forall (dicts : list ProgramDict.t) (w' : World),
          listing recent (Filters.mk None None None None false true sort_by) w
          = (Ok dicts, w') ->
          length dicts = Stats.paid_programs stats)
    /\ (forall (dicts : list ProgramDict.t) (w' : World),
          listing recent (Filters.mk None None None None true false sort_by) w
          = (Ok dicts, w') ->
          length dicts = Stats.new_this_week stats).
Proof.
  eexists. split; [reflexivity|].
  cbn [Stats.total_programs Stats.new_this_week Stats.paid_programs Stats.by_platform].
  split; [|split; [|split]].
  - intros dicts w' Hl. rewrite (listing_length _ _ _ _ _ Hl).
    rewrite <- count_where_true. by apply count_where_ext.
  - intros platform dicts w' Hne Hl. rewrite (listing_length _ _ _ _ _ Hl).
    rewrite by_platform_lookup.
    rewrite (count_where_ext _ (fun r => bool_decide (ProgramRow.platform r = platform))).
    2:{ intros r. unfold where_clause. simpl. destruct platform; [done|]. simpl.
        by rewrite !andb_true_r. }
    destruct (bool_decide (platform ∈ platforms_of (programs w))) eqn:Hin; [reflexivity|].
    apply bool_decide_eq_false in Hin. simpl.
    destruct (count_where _ (programs w)) as [|n] eqn:Hn; [done|].
    exfalso. apply Hin. unfold count_where in Hn.
    assert (Hsize : size (filter (fun kv : string * ProgramRow.t =>
               bool_decide (ProgramRow.platform kv.2 = platform) = true)
               (programs w)) ≠ 0) by lia.
    apply map_size_ne_0_lookup_1 in Hsize as (i & r & Hi).
    apply map_lookup_filter_Some in Hi as [Hi Hpf]. simpl in Hpf.
    apply bool_decide_eq_true in Hpf. apply elem_of_platforms_of. eauto.
  - intros dicts w' Hl. rewrite (listing_length _ _ _ _ _ Hl).
    by apply count_where_ext.
  - intros dicts w' Hl. rewrite (listing_length _ _ _ _ _ Hl).
    apply count_where_ext. intros r. unfold where_clause. simpl.
    by rewrite andb_true_r.
Qed.

Lemma null_le_total {A : Type} (le : relation A) :
  Total le -> Total (null_le le).
Proof. intros Ht [x|] [y|]; simpl; auto. Qed.

Lemma null_le_trans {A : Type} (le : relation A) :
  Transitive le -> Transitive (null_le le).
Proof. intros Ht [x|] [y|] [z|]; simpl; try done. apply Ht. Qed.

Lemma iso_le_total : Total iso_le.
Proof. intros a b. unfold iso_le. lia. Qed.

Lemma iso_le_trans : Transitive iso_le.
Proof. intros a b c. unfold iso_le. lia. Qed.

Lemma by_newest_sorted (rows : list ProgramRow.t) :
  StronglySorted by_newest (merge_sort by_newest rows).
Proof.
  apply StronglySorted_merge_sort.
  - intros r1 r2 r3 H12 H23. unfold by_newest in *.
    by apply (null_le_trans iso_le iso_le_trans _ _ _ H23 H12).
  - intros r1 r2. unfold by_newest.
    destruct (null_le_total iso_le iso_le_total
                (ProgramRow.first_seen r1) (ProgramRow.first_seen r2)); auto.
Qed.

Lemma by_bounty_sorted (rows : list ProgramRow.t) :
  StronglySorted by_bounty (merge_sort by_bounty rows).
Proof.
  assert (Htot : Total Z.le) by (intros a b; lia).
  assert (Htrans : Transitive Z.le) by (intros a b c; lia).
  apply StronglySorted_merge_sort.
  - intros r1 r2 r3 H12 H23. unfold by_bounty in *.
    by apply (null_le_trans Z.le Htrans _ _ _ H23 H12).
  - intros r1 r2. unfold by_bounty.
    destruct (null_le_total Z.le Htot
                (ProgramRow.bounty_max r1) (ProgramRow.bounty_max r2)); auto.
Qed.

Lemma by_name_sorted (rows : list ProgramRow.t) :
  StronglySorted by_name (merge_sort by_name rows).
Proof.
  apply StronglySorted_merge_sort.
  - intros r1 r2 r3 H12 H23. unfold by_name in *. by etrans.
  - intros r1 r2. unfold by_name.
    apply (total String.le (ProgramRow.name r1) (ProgramRow.name r2)).
Qed.

Lemma select_programs_elem (recent : isotext -> bool) (filters : Filters.t)
    (tbl : gmap string ProgramRow.t) (r : ProgramRow.t) :
  r ∈ select_programs sql_like recent filters tbl
  <-> (exists i : string, tbl !! i = Some r)
      /\ where_clause sql_like recent filters r = true.
Proof.
  unfold select_programs.
  rewrite order_by_perm, list_elem_of_In, filter_In, <- list_elem_of_In.
  rewrite list_elem_of_fmap. split.
  - intros [([i r'] & -> & Hi%elem_of_map_to_list) Hw]. eauto.
  - intros [[i Hi] Hw]. split; [|exact Hw].
    exists (i, r). split; [reflexivity|]. by apply elem_of_map_to_list.
Qed.

(** X18.  [get_all_programs] lists every row of the catalogue that satisfies
    the filters once, decoded from that row, and changes nothing.  The
    listing is in the order asked for, newest first when none is asked for,
    and the rows without a [first_seen], or without a [bounty_max] in the
    order by bounty, come last.  Under a [min_bounty] that is not zero every
    program listed has a [bounty_max], at least [min_bounty]; a [min_bounty]
    that does not fit in 64 bits raises [OverflowError]. *)
Theorem listing_is_filtered_and_sorted (recent : isotext -> bool)
    (filters : Filters.t) (w : World) :
  (fits_sqlite_integer (truthy_int (Filters.min_bounty filters)) = false ->
   listing recent filters w = (Raise overflow_error, w))
  /\ (forall (dicts : list ProgramDict.t) (w' : World),
        listing recent filters w = (Ok dicts, w') ->
        w' = w
        /\ exists rows : list ProgramRow.t,
             Forall2 (fun r d => decode r = Ok d /\ same_columns r d) rows dicts
             /\ rows ≡ₚ List.filter (where_clause sql_like recent filters)
                          (map_to_list (programs w)).*2
             /\ (forall r : ProgramRow.t,
                   r ∈ rows
                   <-> (exists i : string, programs w !! i = Some r)
                       /\ where_clause sql_like recent filters r = true)
             /\ (default "newest" (Filters.sort_by filters) = "newest" ->
                 StronglySorted by_newest rows)
             /\ (Filters.sort_by filters = Some "bounty" ->
                 StronglySorted by_bounty rows)
             /\ (Filters.sort_by filters = Some "name" ->
                 StronglySorted by_name rows)
             /\ (forall min_bounty : Z,
                   truthy_int (Filters.min_bounty filters) = Some min_bounty ->
                   forall r : ProgramRow.t,
                     r ∈ rows ->
                     exists bounty_max : Z,
                       ProgramRow.bounty_max r = Some bounty_max
                       /\ (min_bounty <= bounty_max)%Z)).
Proof.
  split.
  { intros Hfit. unfold get_all_programs, mbind, M_bind, get_state, raise. simpl.
    by rewrite Hfit. }
  intros dicts w' Hl. destruct (listing_rows _ _ _ _ _ Hl) as [-> Hall].
  split; [reflexivity|].
  exists (select_programs sql_like recent filters (programs w)).
  assert (Hperm : select_programs sql_like recent filters (programs w)
                  ≡ₚ List.filter (where_clause sql_like recent filters)
                       (map_to_list (programs w)).*2)
    by apply order_by_perm.
  assert (Hin : forall r : ProgramRow.t,
            r ∈ select_programs sql_like recent filters (programs w)
            <-> (exists i : string, programs w !! i = Some r)
                /\ where_clause sql_like recent filters r = true)
    by (intros r; apply select_programs_elem).
  split.
  { eapply Forall2_impl; [exact Hall|]. intros r d Hd. split; [exact Hd|].
    by apply program_dict_columns. }
  split; [exact Hperm|]. split; [exact Hin|].
  unfold select_programs, order_by.
  split; [intros ->; simpl; apply by_newest_sorted|].
  split; [intros ->; simpl; apply by_bounty_sorted|].
  split; [intros ->; simpl; apply by_name_sorted|].
  intros min_bounty Hmin r Hr.
  change (r ∈ select_programs sql_like recent filters (programs w)) in Hr.
  apply Hin in Hr as [_ Hw]. unfold where_clause in Hw. rewrite Hmin in Hw.
  rewrite !andb_true_iff in Hw. destruct Hw as [[[[[_ Hb] _] _] _] _].
  destruct (ProgramRow.bounty_max r) as [b|]; [|discriminate].
  exists b. split; [reflexivity|]. by apply Z.leb_le.
Qed.

End ListingFacts.

Lemma listings_agree_with_statistics_witness :
  exists (stats : BountyDatabase.Stats.t) (dicts : list BountyDatabase.ProgramDict.t),
    BountyDatabase.get_stats (fun _ => true) world_a = (Ok stats, world_a)
    /\ BountyDatabase.get_all_programs like_nothing loads_empty_list loads_empty_dict
         (fun _ => true) (no_filter None) world_a = (Ok dicts, world_a)
    /\ length dicts = BountyDatabase.Stats.total_programs stats.
Proof.
  destruct (listings_agree_with_statistics like_nothing loads_empty_list
              loads_empty_dict (fun _ => true) world_a None)
    as (stats & Hstats & Hall & _).
  destruct (BountyDatabase.get_all_programs like_nothing loads_empty_list
              loads_empty_dict (fun _ => true) (no_filter None) world_a)
    as [r w'] eqn:Hl.
  assert (Hr : exists dicts, r = Ok dicts /\ w' = world_a).
  { vm_compute in Hl. injection Hl as <- <-. eexists. split; reflexivity. }
  destruct Hr as (dicts & -> & ->).
  exists stats, dicts. split; [exact Hstats|]. split; [reflexivity|].
  by apply (Hall dicts world_a).
Defined.

Lemma listing_is_filtered_and_sorted_witness :
  exists dicts : list BountyDatabase.ProgramDict.t,
    BountyDatabase.get_all_programs like_nothing loads_empty_list loads_empty_dict
      (fun _ => true)
      (BountyDatabase.Filters.mk None (Some 100%Z) None None false false (Some "bounty"))
      world_a = (Ok dicts, world_a)
    /\ BountyDatabase.ProgramDict.bounty_max <$> dicts = [Some 500%Z].
Proof.
  destruct (BountyDatabase.get_all_programs like_nothing loads_empty_list
              loads_empty_dict (fun _ => true)
              (BountyDatabase.Filters.mk None (Some 100%Z) None None false false
                 (Some "bounty")) world_a)
    as [r w'] eqn:Hl.
  assert (Hr : exists dicts, r = Ok dicts
                 /\ BountyDatabase.ProgramDict.bounty_max <$> dicts = [Some 500%Z]).
  { vm_compute in Hl. injection Hl as <- _. eexists. split; reflexivity. }
  destruct Hr as (dicts & -> & Hmax).
  destruct (listing_is_filtered_and_sorted like_nothing loads_empty_list
              loads_empty_dict (fun _ => true)
              (BountyDatabase.Filters.mk None (Some 100%Z) None None false false
                 (Some "bounty")) world_a) as [_ Hlist].
  destruct (Hlist dicts w' Hl) as [-> _].
  exists dicts. split; [reflexivity|exact Hmax].
Defined.

(** ** The run log *)
Section LogFacts.
Import BountyDatabase Engine.

Lemma by_started_sorted (logs : list ScrapeLogDict.t) :
  StronglySorted by_started (merge_sort by_started logs).
Proof.
  apply StronglySorted_merge_sort.
  - intros l1 l2 l3 H12 H23. unfold by_started in *.
    by apply (null_le_trans iso_le iso_le_trans _ _ _ H23 H12).
  - intros l1 l2. unfold by_started.
    destruct (null_le_total iso_le iso_le_total
                (ScrapeLogRow.started_at (ScrapeLogDict.columns l1))
                (ScrapeLogRow.started_at (ScrapeLogDict.columns l2))); auto.
Qed.

Lemma sql_limit_split {A : Type} (limit : Z) (rows : list A) :
  exists left_out : list A,
    rows = (sql_limit limit rows ++ left_out)%list
    /\ length (sql_limit limit rows)
       = (if (limit <? 0)%Z then length rows
          else Nat.min (Z.to_nat limit) (length rows)).
Proof.
  unfold sql_limit. destruct (limit <? 0)%Z.
  - exists []. by rewrite app_nil_r.
  - exists (drop (Z.to_nat limit) rows). by rewrite take_drop, length_take.
Qed.

(** X19.  [get_recent_logs] returns [limit] rows of the run log, or all of
    them when there are fewer or when [limit] is negative, each with its
    number in the order of insertion; the rows are in the order of their
    [started_at], latest first, and none of the rows left out started after
    one that is returned.  A [limit] that does not fit in 64 bits raises
    [OverflowError].  Nothing is changed. *)
Theorem recent_logs_are_the_latest (limit : Z) (w : World) :
  (fits_sqlite_integer (Some limit) = false ->
   get_recent_logs limit w = (Raise overflow_error, w))
  /\ (forall (logs : list ScrapeLogDict.t) (w' : World),
        get_recent_logs limit w = (Ok logs, w') ->
        w' = w
        /\ length logs
           = (if (limit <? 0)%Z then length (scrape_logs w)
              else Nat.min (Z.to_nat limit) (length (scrape_logs w)))
        /\ StronglySorted by_started logs
        /\ (forall l : ScrapeLogDict.t,
              l ∈ logs ->
              exists i : nat,
                scrape_logs w !! i = Some (ScrapeLogDict.columns l)
                /\ ScrapeLogDict.id l = Z.of_nat (S i))
        /\ exists left_out : list ScrapeLogDict.t,
             (logs ++ left_out)%list ≡ₚ numbered_logs (scrape_logs w)
             /\ forall l o : ScrapeLogDict.t,
                  l ∈ logs -> o ∈ left_out -> by_started l o).
Proof.
  unfold get_recent_logs, mbind, M_bind, get_state, raise, mret, M_ret. simpl.
  split; [by intros ->|].
  intros logs w'. destruct (negb _); [discriminate|]. intros [= <- <-].
  split; [reflexivity|].
  pose proof (by_started_sorted (numbered_logs (scrape_logs w))) as Hsorted.
  pose proof (merge_sort_Permutation by_started (numbered_logs (scrape_logs w)))
    as Hperm.
  destruct (sql_limit_split limit (merge_sort by_started (numbered_logs (scrape_logs w))))
    as (left_out & Hsplit & Hlen).
  split.
  { rewrite Hlen, (Permutation_length Hperm). unfold numbered_logs.
    by rewrite length_imap. }
  rewrite Hsplit in Hsorted, Hperm.
  split; [by apply StronglySorted_app_1_l in Hsorted|].
  split.
  { intros l Hl.
    assert (Hin : l ∈ numbered_logs (scrape_logs w)).
    { rewrite <- Hperm. apply elem_of_app. by left. }
    apply list_elem_of_lookup in Hin as [i Hi]. unfold numbered_logs in Hi.
    rewrite list_lookup_imap in Hi.
    destruct (scrape_logs w !! i) as [row|] eqn:Hrow; [|discriminate].
    injection Hi as <-. exists i. by split. }
  exists left_out. split; [exact Hperm|].
  intros l o Hl Ho. by apply (StronglySorted_app_1_elem_of _ _ _ _ _ Hsorted).
Qed.

End LogFacts.

(** ** The scheduler, one call of [run_scraper] *)
Section RunScraperFacts.
Import BountyDatabase Engine Scheduler.
Variable md5_hexdigest : string -> string.
Variable sql_like : string -> string -> bool.
Variable json_loads_list : string -> Result (list string).
Variable json_loads_dict : string -> Result payload.

Lemma get_all_programs_state (recent : isotext -> bool) (filters : Filters.t)
    (w : World) :
  (get_all_programs sql_like json_loads_list json_loads_dict recent filters w).2 = w.
Proof.
  unfold get_all_programs, mbind, M_bind, get_state, raise. simpl.
  by destruct (negb _).
Qed.

(** X4.  [run_scraper] returns no log and touches nothing for a platform
    that is not configured.  For a configured one it runs the scraper, on
    whatever the store holds.  An exception that leaves the run leaves
    [run_scraper]: it is the [OperationalError] of [log_scrape], and neither
    a row of the run log nor a summary has been written.  When the run
    returns, one summary is handed to the notifier exactly when the run
    succeeded and counted a new or an updated program; [run_scraper] then
    returns the log of the run, unless the run counted one to five new
    programs and the listing of the new programs raises: that exception
    leaves [run_scraper], after the log row is written and the summary is
    handed over. *)
Theorem run_scraper_forwards_summary (recent_before recent_after : isotext -> bool)
    (platform : string) (net : HackerOne.Net) (w : World)
    (sent : list Summary) :
  (platform ∉ scrapers ->
   run_scraper md5_hexdigest sql_like json_loads_list json_loads_dict
     recent_before recent_after platform net (w, sent) = (Ok None, (w, sent)))
  /\ (platform ∈ scrapers ->
      exists (ran : Result ScrapeLog.t) (w' : World),
        run (H := HackerOne.HackerOneScraper md5_hexdigest) net w = (ran, w')
        /\ match ran with
           | Raise e =>
               e = database_locked
               /\ scrape_logs w' = scrape_logs w
               /\ run_scraper md5_hexdigest sql_like json_loads_list json_loads_dict
                    recent_before recent_after platform net (w, sent)
                  = (Raise e, (w', sent))
           | Ok log =>
               let notified :=
                 ScrapeLog.success log
                 && ((0 <? ScrapeLog.programs_new log)%nat
                     || (0 <? ScrapeLog.programs_updated log)%nat) in
               let listed :=
                 notified && (0 <? ScrapeLog.programs_new log)%nat
                 && (ScrapeLog.programs_new log <=? 5)%nat in
               scrape_logs w' = (scrape_logs w ++ [scrape_log_row log])%list
               /\ run_scraper md5_hexdigest sql_like json_loads_list json_loads_dict
                    recent_before recent_after platform net (w, sent)
                  = (if listed then
                       match get_all_programs sql_like json_loads_list json_loads_dict
                               recent_after
                               (Filters.mk (Some platform) None None None true false
                                  None)
                               w' with
                       | (Ok _, _) => Ok (Some log)
                       | (Raise e, _) => Raise e
                       end
                     else Ok (Some log),
                     (w', if notified
                          then (sent ++ [mkSummary (ScrapeLog.programs_new log)
                                           (ScrapeLog.programs_updated log)
                                           platform])%list
                          else sent))
           end).
Proof.
  unfold run_scraper.
  pose proof (get_all_programs_state recent_after
                (Filters.mk (Some platform) None None None true false None)) as Hstate.
  set (list_new := get_all_programs sql_like json_loads_list json_loads_dict
                     recent_after
                     (Filters.mk (Some platform) None None None true false None)) in *.
  clearbody list_new.
  split; intros Hp.
  - by rewrite bool_decide_eq_false_2.
  - rewrite bool_decide_eq_true_2 by exact Hp.
    destruct (run (H := HackerOne.HackerOneScraper md5_hexdigest) net w)
      as [ran w'] eqn:Hrun.
    pose proof (run_scrape_logs (H := HackerOne.HackerOneScraper md5_hexdigest)
                  _ _ _ _ Hrun) as Hlogs.
    exists ran, w'. split; [reflexivity|].
    unfold mbind, M_bind, on_store, get_stats, get_state, mret, M_ret,
      send_batch_summary, modify. simpl. rewrite Hrun.
    destruct ran as [log|e]; [|destruct Hlogs as [-> Hl]; auto].
    cbv zeta. split; [exact Hlogs|].
    destruct (ScrapeLog.success log
              && ((0 <? ScrapeLog.programs_new log)%nat
                  || (0 <? ScrapeLog.programs_updated log)%nat)); simpl;
      [|reflexivity].
    destruct ((0 <? ScrapeLog.programs_new log)%nat
              && (ScrapeLog.programs_new log <=? 5)%nat); simpl; [|reflexivity].
    specialize (Hstate w').
    destruct (list_new w') as [[dicts|e] w''] eqn:Hl; simpl in Hstate; subst w'';
      reflexivity.
Qed.

End RunScraperFacts.

(** ** The [search] command *)
Section SearchFacts.
Import BountyDatabase Engine Cli.
Variable sql_like : string -> string -> bool.
Variable json_loads_list : string -> Result (list string).
Variable json_loads_dict : string -> Result payload.

(** The bounty text of a program cannot be formatted exactly when the program
    is not VDP-only and has a top bounty other than zero but no lowest
    bounty. *)
Lemma bounty_text_raises (d : ProgramDict.t) :
  (exists e : exn, bounty_text d = Raise e)
  <-> ProgramDict.vdp_only d = 0%Z
      /\ (exists b : Z, ProgramDict.bounty_max d = Some b /\ b <> 0%Z)
      /\ ProgramDict.bounty_min d = None.
Proof.
  unfold bounty_text, truthy_int, format_bounty. split.
  - intros [e He].
    destruct (ProgramDict.vdp_only d =? 0)%Z eqn:Hv; simpl in He; [|discriminate].
    apply Z.eqb_eq in Hv.
    destruct (ProgramDict.bounty_max d) as [b|]; [|discriminate].
    destruct (b =? 0)%Z eqn:Hb; [discriminate|]. apply Z.eqb_neq in Hb.
    destruct (ProgramDict.bounty_min d) as [m|]; [discriminate|].
    split; [exact Hv|]. split; [eauto|reflexivity].
  - intros (Hv & (b & Hmax & Hb) & Hmin). rewrite Hv, Hmax, Hmin. simpl.
    apply Z.eqb_neq in Hb. rewrite Hb. by eexists.
Qed.

Lemma bounty_text_error (d : ProgramDict.t) (e : exn) :
  bounty_text d = Raise e -> e = format_none_error.
Proof.
  unfold bounty_text, format_bounty.
  destruct (negb _); [discriminate|]. destruct (truthy_int _); [|discriminate].
  destruct (ProgramDict.bounty_min d); [|by intros [= <-]].
  destruct (ProgramDict.bounty_max d); [discriminate|by intros [= <-]].
Qed.

(** The loop stops with [TypeError] at the first program whose bounty text
    cannot be formatted. *)
Lemma print_programs_raises (ds : list ProgramDict.t) (d : ProgramDict.t) (e : exn) :
  d ∈ ds -> bounty_text d = Raise e ->
  forall (w : World) (out : list string),
    exists out' : list string,
      print_programs ds (w, out) = (Raise format_none_error, (w, out')).
Proof.
  intros Hin He. induction ds as [|d' ds IH]; intros w out.
  - by apply elem_of_nil in Hin.
  - cbn [print_programs]. unfold mbind, M_bind, of_result, print, modify.
    destruct (bounty_text d') as [text|e'] eqn:Hd'.
    + apply elem_of_cons in Hin as [->|Hin]; [congruence|]. simpl. by apply IH.
    + rewrite (bounty_text_error _ _ Hd'). by eexists.
Qed.

(** X20.  [cmd_search] cannot list a program that is not VDP-only and has a
    top bounty but no lowest bounty: once such a program has been upserted, a
    search without filters whose limit reaches the whole catalogue ends with
    an exception, the [TypeError] of formatting [None] unless the decoding of
    a JSON column has raised before. *)
Theorem search_raises_on_top_bounty_alone (recent : isotext -> bool)
    (p : Program.t) (b : Z) (w0 w : World) (res : bool * bool) (limit : Z)
    (out : list string) :
  upsert_program p w0 = (Ok res, w) ->
  Program.vdp_only p = false ->
  Program.bounty_min p = None ->
  Program.bounty_max p = Some b ->
  b <> 0%Z ->
  (Z.of_nat (size (programs w)) <= limit)%Z ->
  exists (e : exn) (out' : list string),
    cmd_search sql_like json_loads_list json_loads_dict recent (plain_search limit)
      (w, out) = (Raise e, (w, out'))
    /\ (e = format_none_error
        \/ (get_all_programs sql_like json_loads_list json_loads_dict recent
              (no_filter None) w).1 = Raise e).
Proof.
  intros Hup Hvdp Hmin Hmax Hb Hlimit.
  destruct (upsert_program_row _ _ _ _ Hup)
    as (row & k & Hrow & (Hrmin & Hrmax & _) & (_ & _ & _ & Hrvdp & _) & _).
  unfold cmd_search, plain_search. cbn [Cli.platform Cli.min_bounty Cli.search
    Cli.bounties_only Cli.limit truthy_text truthy_int].
  change (Filters.mk None None None None false false None) with (no_filter None).
  unfold mbind, M_bind, on_world. cbn [fst snd].
  pose proof (get_all_programs_state sql_like json_loads_list json_loads_dict recent
                (no_filter None) w) as Hstate.
  destruct (get_all_programs sql_like json_loads_list json_loads_dict recent
              (no_filter None) w) as [[dicts|e] w'] eqn:Hl;
    simpl in Hstate; subst w'; [|exists e, out; split; [reflexivity|by right]].
  pose proof (listing_length _ _ _ _ _ _ _ _ Hl) as Hlen.
  destruct (listing_rows _ _ _ _ _ _ _ _ Hl) as [_ Hall].
  assert (Hin : row ∈ select_programs sql_like recent (no_filter None) (programs w)).
  { apply select_programs_elem. split; [eauto|reflexivity]. }
  apply list_elem_of_lookup in Hin as [n Hn].
  destruct (Forall2_lookup_l _ _ _ _ _ Hall Hn) as (d & Hd & Hdec).
  destruct (program_dict_columns _ _ _ _ Hdec)
    as (_ & _ & _ & _ & _ & Hdmin & Hdmax & Hdvdp & _).
  assert (Hraise : exists e, bounty_text d = Raise e).
  { apply bounty_text_raises. rewrite Hdmin, Hdmax, Hdvdp, Hrmin, Hrmax, Hrvdp, Hvdp,
      Hmin, Hmax. split; [reflexivity|]. split; [eauto|reflexivity]. }
  destruct Hraise as [e He].
  assert (Hslice : slice_to limit dicts = dicts).
  { unfold slice_to.
    assert (length dicts <= size (programs w)).
    { rewrite Hlen. unfold count_where. apply map_size_filter. }
    destruct (0 <=? limit)%Z eqn:Hpos; [|apply Z.leb_gt in Hpos; lia].
    apply take_ge. lia. }
  rewrite Hslice. unfold print at 1 2, modify. cbn [fst snd].
  destruct (print_programs_raises dicts d e (list_elem_of_lookup_2 _ _ _ Hd) He w
              ((out ++ [newline +:+ magnifier +:+ " Found "
                              +:+ decimal (N.of_nat (length dicts)) +:+ " program(s)"])
               ++ [String.concat "" (replicate 80 "=")])%list) as [out' Hout].
  exists format_none_error, out'. split; [|by left]. exact Hout.
Qed.

End SearchFacts.

Lemma search_raises_on_top_bounty_alone_witness :
  exists (w : World) (e : exn) (out' : list string),
    BountyDatabase.upsert_program program_single_amount world_a = (Ok (true, false), w)
    /\ Cli.cmd_search like_nothing loads_empty_list loads_empty_dict (fun _ => true)
         (plain_search 20) (w, []) = (Raise e, (w, out')).
Proof.
  destruct (BountyDatabase.upsert_program program_single_amount world_a)
    as [r w] eqn:Hup.
  assert (Hr : r = Ok (true, false) /\ (Z.of_nat (size (programs w)) <= 20)%Z).
  { vm_compute in Hup. injection Hup as <- <-. split; [reflexivity|].
    vm_compute. discriminate. }
  destruct Hr as [-> Hsize].
  destruct (search_raises_on_top_bounty_alone like_nothing loads_empty_list
              loads_empty_dict (fun _ => true) program_single_amount 5000 world_a w
              (true, false) 20 [] Hup eq_refl eq_refl eq_refl ltac:(discriminate) Hsize)
    as (e & out' & Hsearch & _).
  exists w, e, out'. split; [reflexivity|exact Hsearch].
Defined.
